(** * Feedback-driven retraining loop of the sarcasm detector

    A shallow embedding of the decision logic of the three Python sources
    ([train.py], [api/app.py], [api/autotrain.py]) together with the
    properties the specification states about them.

    Conventions of the embedding.
    - A Python [str] is a [string]; its characters are code points below 256.
    - A Python [int] is a [Z]; a Python [float] is a primitive binary64
      [float], so that [1.0 - score], the band comparisons and [0.1 * n]
      round exactly as they do in CPython. Where a property holds for all
      lengths [n], rounding is reasoned about through the specification
      of the primitive operations in the Standard Library.
    - A naive [datetime] is the number of microseconds since the epoch and a
      [timedelta] a number of microseconds: subtraction and comparison of
      both are the integer ones.
    - A dict used as a map is a [gmap]; a [set] is a [gset].
    - Code that can raise returns a [result].
    - Library calls whose answer the program only consumes (the classifier
      pipeline, [hashlib.sha1], [random.shuffle], [json.dumps], the HTTP
      reload call, [shutil.rmtree]) are parameters or fields of the
      environment of a run. So is the training subprocess: its captured
      output, and the output folder it leaves among the model folders.
    - The feedback log is the list of its lines; its text is every line
      followed by a line feed, and [splitlines] cuts that text again, at
      more characters than the line feed. *)

From Stdlib Require Import ZArith PrimFloat Uint63 FloatOps SpecFloat FloatAxioms
  Ascii String.
From stdpp Require Import gmap strings list fin_maps sorting.

Set Warnings "-inexact-float".
Local Open Scope Z_scope.

(* ===================================================================== *)
(** * Part I: the program *)
(* ===================================================================== *)

(** ** Python values shared by the three files *)

Module Py.

(** Exceptions the modelled code can raise. *)
Inductive exn :=
| KeyError (key : string)
| TypeError (msg : string)
| ValueError (msg : string)
| RuntimeError (msg : string)
| OverflowError (msg : string)
| FileNotFoundError (path : string)
| OSError (msg : string).

Inductive result (A : Type) :=
| Ok (a : A)
| Raise (e : exn).
Global Arguments Ok {A} a.
Global Arguments Raise {A} e.

Global Instance result_ret : MRet result := λ A a, Ok a.
Global Instance result_bind : MBind result := λ A B k r,
  match r with
  | Ok a => k a
  | Raise e => Raise e
  end.

Definition is_ok {A} (r : result A) : bool :=
  match r with Ok _ => true | Raise _ => false end.

(** [datetime] and [timedelta], in microseconds. *)
Definition datetime := Z.
Definition timedelta := Z.
Definition hours (h : Z) : timedelta := h * 3600 * 1000000.
Definition seconds (s : Z) : timedelta := s * 1000000.
(** ["1970-01-01T00:00:00"] *)
Definition epoch : datetime := 0.

(** [str.isspace] on one character (code points below 256): TAB, LF, VT,
    FF, CR, FS, GS, RS, US, SPACE, NEL and NBSP. The regular expression
    class [\s] on a [str] pattern is the same set. *)
Definition is_space (c : ascii) : bool :=
  let n := Z.of_nat (nat_of_ascii c) in
  ((9 <=? n) && (n <=? 13)) || ((28 <=? n) && (n <=? 32))
  || (n =? 133) || (n =? 160).

Definition newline : ascii := "010"%char.

Fixpoint lstrip (s : string) : string :=
  match s with
  | EmptyString => EmptyString
  | String c s' => if is_space c then lstrip s' else s
  end.

Fixpoint rstrip (s : string) : string :=
  match s with
  | EmptyString => EmptyString
  | String c s' =>
      match rstrip s' with
      | EmptyString => if is_space c then EmptyString else String c EmptyString
      | r => String c r
      end
  end.

(** [s.strip()] *)
Definition strip (s : string) : string := rstrip (lstrip s).

(** Truthiness of a [str]. *)
Definition truthy (s : string) : bool :=
  match s with EmptyString => false | String _ _ => true end.

(** The characters at which [str.splitlines] breaks a line (code points
    below 256): LF, VT, FF, CR, FS, GS, RS and NEL. *)
Definition is_linebreak (c : ascii) : bool :=
  let n := Z.of_nat (nat_of_ascii c) in
  ((10 <=? n) && (n <=? 13)) || ((28 <=? n) && (n <=? 30)) || (n =? 133).

Definition carriage_return : ascii := "013"%char.

(** [s.splitlines()] from a position of the text; [cr] tells that the
    character before was a CR, whose line a LF then does not end again.
    A line break ends the piece before it, and nothing follows the last
    break of a text. *)
Fixpoint lines_go (cr : bool) (s : string) : list string :=
  match s with
  | EmptyString => []
  | String c s' =>
      if cr && Ascii.eqb c newline then lines_go false s'
      else if is_linebreak c then
        EmptyString :: lines_go (Ascii.eqb c carriage_return) s'
      else
        match lines_go false s' with
        | [] => [String c EmptyString]
        | piece :: pieces => String c piece :: pieces
        end
  end.

(** [s.splitlines()] *)
Definition splitlines (s : string) : list string := lines_go false s.

(** [sys.maxsize]: no list is longer. *)
Definition maxsize : Z := 2 ^ 63 - 1.

(** [int(x)] for a finite float [x]: truncation towards zero. CPython
    raises on an infinity ([OverflowError]) or a NaN ([ValueError]). *)
Definition int_of_float (x : float) : result Z :=
  match Prim2SF x with
  | S754_zero _ => Ok 0
  | S754_finite s m e =>
      let v := if 0 <=? e then Z.pos m * 2 ^ e else Z.pos m / 2 ^ (- e) in
      Ok (if s then - v else v)
  | S754_infinity _ => Raise (OverflowError "cannot convert float infinity to integer")
  | S754_nan => Raise (ValueError "cannot convert float NaN to integer")
  end.

(** The float an [int] is converted to in mixed arithmetic, correctly
    rounded, for an [int] from 0 to [sys.maxsize], as the length of a list
    is. *)
Definition float_of_int (n : Z) : float := of_uint63 (Uint63.of_Z n).

End Py.

Import Py.

(** ** [train.py]: the training-set builder *)

Module Train.

(** [label2id = {"NOT_SARCASM": 0, "SARCASM": 1}] *)
Definition label2id : gmap string Z :=
  {[ "NOT_SARCASM" := 0; "SARCASM" := 1 ]}.

(** Up-weighting constants. *)
Definition DISAGREE_DUP : Z := 3.
Definition UNCERT_BAND : float * float := (0.45%float, 0.65%float).
Definition UNCERT_DUP : Z := 2.

Definition SEED : Z := 31415.

(** A row as [read_feedback] builds it:
    [{"text", "user", "pred", "score"}]. *)
Record feedback_row := {
  text : string;
  user : string;
  pred : string;
  score : float;
}.

(** A weighted training row [{"text", "label"}]. *)
Record training_row := {
  tr_text : string;
  tr_label : Z;
}.

Global Instance training_row_eq_dec : EqDecision training_row.
Proof. solve_decision. Defined.

(** [p_sarcasm_from_row]: the stored score is the one of the predicted
    class. *)
Definition p_sarcasm_from_row (r : feedback_row) : float :=
  if String.eqb (pred r) "SARCASM" then score r else (1.0 - score r)%float.

(** [[x] * k]: the empty list when [k] is not positive. *)
Definition times {A} (x : A) (k : Z) : list A := replicate (Z.to_nat k) x.

(** One iteration of the loop of [build_training_rows]: the rows appended
    to [out] for the feedback row [r]; [label2id[r["user"]]] raises
    [KeyError] on an unknown label. *)
Definition emit (r : feedback_row) : result (list training_row) :=
  match label2id !! user r with
  | None => Raise (KeyError (user r))
  | Some y =>
      let row := {| tr_text := text r; tr_label := y |} in
      Ok (row ::
          (if negb (String.eqb (user r) (pred r)) then
             times row (DISAGREE_DUP - 1)
           else
             let p := p_sarcasm_from_row r in
             if ((UNCERT_BAND.1 <=? p) && (p <=? UNCERT_BAND.2))%float then
               times row (UNCERT_DUP - 1)
             else []))
  end.

Fixpoint build_loop (out : list training_row) (rows : list feedback_row)
  : result (list training_row) :=
  match rows with
  | [] => Ok out
  | r :: rows' => ext ← emit r; build_loop (out ++ ext) rows'
  end.

Definition build_training_rows (rows : list feedback_row)
  : result (list training_row) :=
  build_loop [] rows.

(** Step 2 of [main]: shuffle, then split the head off as validation set.
    The generator is seeded once, at import time, and nothing draws from
    it before the shuffle: [shuffle s l] is the list [random.shuffle]
    leaves when the generator was seeded with [s]. The result is
    [(val_rows, tr_rows)]. *)
Section Split.
Context (shuffle : Z → list training_row → list training_row).

(** [max(1, int(0.1 * n))] *)
Definition n_val (n : Z) : result Z :=
  k ← int_of_float (0.1 * float_of_int n)%float; Ok (Z.max 1 k).

Definition split (rows : list training_row)
  : result (list training_row * list training_row) :=
  let train_rows := shuffle SEED rows in
  let n := Z.of_nat (length train_rows) in
  k ← n_val n;
  Ok (take (Z.to_nat k) train_rows, drop (Z.to_nat k) train_rows).

Definition build_and_split (raw : list feedback_row)
  : result (list training_row * list training_row) :=
  train_rows ← build_training_rows raw; split train_rows.
End Split.

End Train.

(** ** The persisted feedback log, as both programs read it *)

Module Log.

(** The dict [feedback] dumps on one line of [feedback.jsonl]. *)
Record record := {
  id : string;
  timestamp : datetime;
  url : option string;
  text : string;
  predicted_label : string;
  score : float;
  user_label : string;
}.

(** A line of the file is modelled by what the readers make of it:
    [Entry r] is the dump of a dict with the members of [r] (the only
    lines the program writes); [Raw s] is any other text [s], for which
    [json.loads(line)["id"]] raises or gives no string. *)
Inductive line :=
| Raw (s : string)
| Entry (r : record).

(** [line.strip()] is falsy: a dumped dict starts with a brace. *)
Definition blank (l : line) : bool :=
  match l with
  | Raw s => negb (truthy (strip s))
  | Entry _ => false
  end.

(** [json.loads(line)["id"]], [None] when it raises. *)
Definition line_id (l : line) : option string :=
  match l with
  | Raw _ => None
  | Entry r => Some (id r)
  end.

(** [sum(1 for l in lines if l.strip())] *)
Definition count_nonblank (ls : list line) : Z :=
  Z.of_nat (length (filter (λ l, negb (blank l)) ls)).

Section Text.
(** [json.dumps(record, ensure_ascii=False)]: control characters below
    U+0020 are escaped, every other character is written as it is. *)
Context (dumps : record → string).

(** The text of a line of the file, without its line feed. *)
Definition render (l : line) : string :=
  match l with
  | Raw s => s
  | Entry r => dumps r
  end.

(** [path.read_text()]: the lines, each with its line feed. *)
Definition read_text (ls : list line) : string :=
  foldr (λ l t, render l +:+ String newline t) EmptyString ls.

(** [path.read_text().splitlines()] *)
Definition text_lines (ls : list line) : list string :=
  splitlines (read_text ls).
End Text.

End Log.

(** ** [api/app.py]: the serving API *)

Module App.
Import Log.

(** JSON values of the response bodies. *)
Inductive jval :=
| JBool (b : bool)
| JInt (n : Z)
| JStr (s : string).

Global Instance jval_eq_dec : EqDecision jval.
Proof. solve_decision. Defined.

Record PredictOut := {
  labels : list string;
  scores : list float;
}.

(** The request body of [/feedback]; the two labels are
    [Literal["SARCASM", "NOT_SARCASM"]]. *)
Record FeedbackIn := {
  fb_url : option string;
  fb_text : string;
  fb_predicted_label : string;
  fb_score : float;
  fb_user_label : string;
}.

Definition THRESHOLD : float := 0.50%float.

Definition LABEL_MAP : gmap string string :=
  {[ "LABEL_0" := "NOT_SARCASM";
     "LABEL_1" := "SARCASM";
     "0" := "NOT_SARCASM";
     "1" := "SARCASM";
     "sarcastic" := "SARCASM";
     "non-sarcastic" := "NOT_SARCASM" ]}.

(** A line of [predictions.jsonl]. *)
Record prediction_record := {
  pr_ts : datetime;
  pr_url : option string;
  pr_text : string;
  pr_pred_label : string;
  pr_score : float;
  pr_api_latency_ms : float;
}.

(** A line of [latency.jsonl]. *)
Record latency_record := {
  lr_ts : datetime;
  lr_url : option string;
  lr_n_texts : Z;
  lr_latency_ms : float;
}.

(** The files and the module-level metrics the handlers read and write.
    [FEEDBACK_FILE] is [None] when the file does not exist (the module
    touches it at import time). *)
Record state := {
  FEEDBACK_FILE : option (list line);
  PREDICTIONS_LOG : list prediction_record;
  LATENCY_LOG : list latency_record;
  latencies : list float;
  req_count : Z;
  confidences : list float;
  threshold_crossings : gmap string Z;
}.

(** [deque(maxlen=1000).append]: the oldest entry falls off the left. *)
Definition deque_append (maxlen : nat) (d : list float) (x : float) : list float :=
  let d' := d ++ [x] in drop (length d' - maxlen)%nat d'.

(** [Counter[k] += 1] *)
Definition counter_incr (k : string) (c : gmap string Z) : gmap string Z :=
  <[ k := default 0 (c !! k) + 1 ]> c.

Section Predict.
(** The text-classification pipeline [clf]: one [(label, score)] per
    input text is what the library returns; the handler does not check
    it. *)
Context (clf : list string → list (string * float)).

(** The label returned for one pipeline output. *)
Definition map_label (raw : string) (score : float) : string :=
  let mapped := default raw (LABEL_MAP !! raw) in
  if (String.eqb mapped "SARCASM" && (score <? THRESHOLD)%float)
  then "NOT_SARCASM" else mapped.

(** The body of the loop over [zip(payload.texts, outputs)]. *)
Definition predict_step (page_url : option string) (now : datetime)
    (api_latency_ms : float)
    (acc : list string * list float * state) (to : string * (string * float))
  : list string * list float * state :=
  let '(labels, scores, st) := acc in
  let '(text, (raw, score)) := to in
  let mapped := map_label raw score in
  (labels ++ [mapped], scores ++ [score],
   {| FEEDBACK_FILE := FEEDBACK_FILE st;
      PREDICTIONS_LOG := PREDICTIONS_LOG st ++
        [{| pr_ts := now; pr_url := page_url; pr_text := strip text;
            pr_pred_label := mapped; pr_score := score;
            pr_api_latency_ms := api_latency_ms |}];
      LATENCY_LOG := LATENCY_LOG st;
      latencies := latencies st;
      req_count := req_count st;
      confidences := confidences st ++ [score];
      threshold_crossings :=
        counter_incr (if String.eqb mapped "SARCASM" then "sarcasm"
                      else "non_sarcasm") (threshold_crossings st) |}).

(** [POST /predict]. [now] is the clock reading stamped on the log
    lines and [api_latency_ms] the measured duration of the pipeline
    call. *)
Definition predict (texts : list string) (page_url : option string)
    (now : datetime) (api_latency_ms : float) (st : state)
  : PredictOut * state :=
  let outputs := clf texts in
  let st1 :=
    {| FEEDBACK_FILE := FEEDBACK_FILE st;
       PREDICTIONS_LOG := PREDICTIONS_LOG st;
       LATENCY_LOG := LATENCY_LOG st ++
         [{| lr_ts := now; lr_url := page_url;
             lr_n_texts := Z.of_nat (length texts);
             lr_latency_ms := api_latency_ms |}];
       latencies := deque_append 1000 (latencies st) api_latency_ms;
       req_count := req_count st + 1;
       confidences := confidences st;
       threshold_crossings := threshold_crossings st |} in
  let '(labels, scores, st2) :=
    foldl (predict_step page_url now api_latency_ms) ([], [], st1)
          (zip texts outputs) in
  ({| labels := labels; scores := scores |}, st2).
End Predict.

Section Feedback.
(** [hashlib.sha1(s.encode("utf-8")).hexdigest()] *)
Context (sha1 : string → string).

(** The deduplication key of a submission. *)
Definition rid_of (fb : FeedbackIn) : string :=
  sha1 (default "" (fb_url fb) +:+ "||" +:+ strip (fb_text fb)).

(** The scan of the existing file: the ids of the lines that parse. *)
Definition scan_seen (ls : list line) : gset string :=
  foldl (λ seen l,
           if blank l then seen
           else match line_id l with
                | Some i => {[ i ]} ∪ seen
                | None => seen
                end) ∅ ls.

(** [POST /feedback]: the response body and the file afterwards. *)
Definition feedback (fb : FeedbackIn) (now : datetime)
    (file : option (list line))
  : result (gmap string jval) * option (list line) :=
  let rid := rid_of fb in
  let record :=
    {| id := rid; timestamp := now; url := fb_url fb;
       text := strip (fb_text fb);
       predicted_label := fb_predicted_label fb;
       score := fb_score fb;
       user_label := fb_user_label fb |} in
  match file with
  | None => (Raise (FileNotFoundError "data/feedback.jsonl"), None)
  | Some ls =>
      let seen := scan_seen ls in
      let ls' := if decide (rid ∈ seen) then ls else ls ++ [Entry record] in
      (Ok {[ "ok" := JBool true ]}, Some ls')
  end.
End Feedback.

(** [GET /feedback_count] *)
Definition feedback_count (file : option (list line))
  : result (gmap string jval) :=
  match file with
  | None => Raise (FileNotFoundError "data/feedback.jsonl")
  | Some ls => Ok {[ "ok" := JBool true; "count" := JInt (count_nonblank ls) ]}
  end.

End App.

(** ** [api/autotrain.py]: the retraining job *)

Module Autotrain.
Import Log.

(** *** Policy knobs *)

Record policy := {
  MIN_TOTAL : Z;
  MIN_NEW : Z;
  COOLDOWN : timedelta;
  KEEP_LAST : Z;
}.

Definition default_policy : policy :=
  {| MIN_TOTAL := 30; MIN_NEW := 10; COOLDOWN := hours 24; KEEP_LAST := 5 |}.

(** The module-level override: [os.getenv("AUTOTRAIN_FORCE") == "1"]. *)
Definition policy_of_env (autotrain_force : option string) : policy :=
  if decide (autotrain_force = Some "1") then
    {| MIN_TOTAL := 1; MIN_NEW := 0; COOLDOWN := seconds 0; KEEP_LAST := 5 |}
  else default_policy.

(** *** The persisted run state *)

(** The state dict; a member is [None] when the key is absent. The
    ["last_time"] member is the datetime its ISO string denotes. *)
Record state := {
  last_count : option Z;
  last_time : option datetime;
  last_model : option string;
}.

(** What [json.loads] makes of the text of [train_state.json]. *)
Inductive state_file :=
| NotJson
| NotADict
| Dict (s : state).

(** What [load_state] returns. *)
Inductive loaded :=
| LDict (s : state)
| LOther.

(** A folder entry of [MODELS_DIR]. *)
Record dirent := {
  is_dir : bool;
  st_mtime : Z;
}.

(** Lines printed by the job. *)
Inductive event :=
| PrintTotals (total last_count : Z) (last_time : datetime)
| PrintSkipping
| PrintTrainOutput (out : string)
| PrintReloadOK (body : string)
| PrintReloadWarning (e : string)
| PrintPruned (p : string)
| PrintFailedToPrune (p : string) (e : string)
| PrintPromoted (model_path : string).

(** The files the job reads and writes, and its standard output. A file
    or folder is [None] when it does not exist. *)
Record world := {
  FEEDBACK : option (list line);
  STATE : option state_file;
  MODELS_DIR : option (gmap string dirent);
  stdout : list event;
}.

(** The answer of [requests.post]. *)
Inductive http_outcome :=
| ConnectionFailed (e : string)
| Responded (status : Z) (json_body : option string).

(** What the outside answers during one run. *)
Record run_env := {
  (** [datetime.utcnow()] in [should_train] *)
  now_decide : datetime;
  (** [subprocess.run]: an exception, or the captured output *)
  train_proc : result string;
  (** the folder [models/sarcasm-v<ts>] the subprocess leaves behind, with
      its modification time: [train.py] makes it once the feedback, the
      tokenizer and the base model are loaded, before it trains; [None]
      when the trainer did not come that far *)
  train_folder : option (string * Z);
  (** [requests.post(API_RELOAD, ...)] *)
  reload_http : http_outcome;
  (** [shutil.rmtree(p)]: the error it raises on [p], if any *)
  rmtree_error : string → option string;
  (** [datetime.utcnow()] in the state update *)
  now_persist : datetime;
}.

(** Computations of the job: they change the world and may raise. *)
Definition M (A : Type) : Type := world → result A * world.

Global Instance M_ret : MRet M := λ A a w, (Ok a, w).
Global Instance M_bind : MBind M := λ A B k m w,
  match m w with
  | (Ok a, w') => k a w'
  | (Raise e, w') => (Raise e, w')
  end.

Definition raise {A} (e : exn) : M A := λ w, (Raise e, w).
Definition get_world : M world := λ w, (Ok w, w).
Definition print (e : event) : M unit := λ w,
  (Ok (),
   {| FEEDBACK := FEEDBACK w; STATE := STATE w; MODELS_DIR := MODELS_DIR w;
      stdout := stdout w ++ [e] |}).
Definition write_state (f : state_file) : M unit := λ w,
  (Ok (),
   {| FEEDBACK := FEEDBACK w; STATE := Some f; MODELS_DIR := MODELS_DIR w;
      stdout := stdout w |}).
Definition set_models (d : gmap string dirent) : M unit := λ w,
  (Ok (),
   {| FEEDBACK := FEEDBACK w; STATE := STATE w; MODELS_DIR := Some d;
      stdout := stdout w |}).

(** *** Helpers *)

Section Count.
(** [json.dumps(record, ensure_ascii=False)], which wrote the records *)
Context (dumps : record → string).

(** The pieces of [read_text().splitlines()] that are not blank. *)
Definition read_count (p : option (list line)) : Z :=
  match p with
  | None => 0
  | Some ls =>
      Z.of_nat (length (filter (λ l, truthy (strip l)) (text_lines dumps ls)))
  end.
End Count.

Definition initial_state : state :=
  {| last_count := Some 0; last_time := Some epoch; last_model := Some "" |}.

Definition load_state (f : option state_file) : loaded :=
  match f with
  | Some (Dict s) => LDict s
  | Some NotADict => LOther
  | Some NotJson | None => LDict initial_state
  end.

Definition save_state (s : state) : M unit := write_state (Dict s).

(** *** The scheduler decision *)

Definition should_train (pol : policy) (now : datetime)
    (total : Z) (st : state) : bool :=
  let last_count := default 0 (last_count st) in
  let last_time := default epoch (last_time st) in
  if total <? MIN_TOTAL pol then false
  else
    let new_since := total - last_count in
    let time_since := now - last_time in
    if (new_since <? MIN_NEW pol) && (time_since <? COOLDOWN pol) then false
    else true.

(** *** [run_train]: the path is parsed from the output of the trainer *)

Definition marker : string := "Saved new model to:".

(** [s] without the prefix [p], if it starts with it. *)
Fixpoint strip_prefix (p s : string) : option string :=
  match p, s with
  | EmptyString, _ => Some s
  | String a p', String b s' =>
      if Ascii.eqb a b then strip_prefix p' s' else None
  | String _ _, EmptyString => None
  end.

(** The longest prefix without a line feed: what a greedy [.+] takes. *)
Fixpoint dot_run (s : string) : string :=
  match s with
  | EmptyString => EmptyString
  | String c s' =>
      if Ascii.eqb c newline then EmptyString else String c (dot_run s')
  end.

(** [(.+)] anchored at the head of [s]. *)
Definition match_group (s : string) : option string :=
  if truthy (dot_run s) then Some (dot_run s) else None.

(** [\s*(.+)] anchored at the head of [s]: the star is greedy and gives
    characters back one at a time when the group fails behind it. *)
Fixpoint match_tail (s : string) : option string :=
  match s with
  | EmptyString => None
  | String c s' =>
      if is_space c then
        match match_tail s' with
        | Some g => Some g
        | None => match_group s
        end
      else match_group s
  end.

(** The pattern anchored at the head of [s]. *)
Definition match_here (s : string) : option string :=
  tl ← strip_prefix marker s; match_tail tl.

(** [re.search(r"Saved new model to:\s*(.+)", out)]: the leftmost match;
    the result is [m.group(1)]. *)
Fixpoint re_search (out : string) : option string :=
  match match_here out with
  | Some g => Some g
  | None =>
      match out with
      | EmptyString => None
      | String _ out' => re_search out'
      end
  end.

(** The model folders after the subprocess ran: its output folder is
    new, or touched again if it was there; [mkdir] fails on a plain file
    of that name and nothing changes. *)
Definition trained_models (env : run_env) (d : option (gmap string dirent))
  : option (gmap string dirent) :=
  match train_folder env with
  | None => d
  | Some (name, mtime) =>
      let folder := {| is_dir := true; st_mtime := mtime |} in
      match d with
      | None => Some {[ name := folder ]}
      | Some d' =>
          match d' !! name with
          | Some e => if is_dir e then Some (<[ name := folder ]> d') else d
          | None => Some (<[ name := folder ]> d')
          end
      end
  end.

(** The world after the subprocess ran. *)
Definition trained (env : run_env) (w : world) : world :=
  {| FEEDBACK := FEEDBACK w; STATE := STATE w;
     MODELS_DIR := trained_models env (MODELS_DIR w);
     stdout := stdout w |}.

Definition subprocess_run (env : run_env) : M string := λ w,
  match train_proc env with
  | Raise e => (Raise e, w)
  | Ok out => (Ok out, trained env w)
  end.

Definition run_train (env : run_env) : M string :=
  out ← subprocess_run env;
  print (PrintTrainOutput out);;
  match re_search out with
  | None =>
      raise (RuntimeError
               "Could not find 'Saved new model to:' line in train output.")
  | Some g => mret (strip g)
  end.

(** *** [reload_api]: every failure is caught and printed *)

Definition reload_api (env : run_env) (model_path : string) : M unit :=
  match reload_http env with
  | ConnectionFailed e => print (PrintReloadWarning e)
  | Responded status body =>
      if (400 <=? status) && (status <? 600) then
        print (PrintReloadWarning "HTTPError")
      else
        match body with
        | None => print (PrintReloadWarning "JSONDecodeError")
        | Some b => print (PrintReloadOK b)
        end
  end.

(** *** [prune_old_models] *)

(** [folders.sort(key=mtime, reverse=True)]: a stable sort, newest first;
    folders of equal time keep the order of the listing. *)
Fixpoint insert_desc (x : string * dirent) (l : list (string * dirent))
  : list (string * dirent) :=
  match l with
  | [] => [x]
  | y :: l' =>
      if st_mtime y.2 <=? st_mtime x.2 then x :: y :: l'
      else y :: insert_desc x l'
  end.

Definition sort_desc (l : list (string * dirent)) : list (string * dirent) :=
  foldr insert_desc [] l.

(** [l[keep:]] *)
Definition slice_from {A} (keep : Z) (l : list A) : list A :=
  if 0 <=? keep then drop (Z.to_nat keep) l
  else drop (Z.to_nat (Z.max 0 (Z.of_nat (length l) + keep))) l.

(** [[p for p in MODELS_DIR.iterdir() if p.is_dir()]] *)
Definition folders_of (d : gmap string dirent) : list (string * dirent) :=
  filter (λ p, is_dir p.2 = true) (map_to_list d).

(** The folders the loop tries to remove. *)
Definition prune_targets (keep : Z) (d : gmap string dirent)
  : list (string * dirent) :=
  slice_from keep (sort_desc (folders_of d)).

(** One iteration of the removal loop. *)
Definition prune_one (env : run_env) (p : string) : M unit :=
  match rmtree_error env p with
  | None =>
      w ← get_world;
      set_models (delete p (default ∅ (MODELS_DIR w)));;
      print (PrintPruned p)
  | Some e => print (PrintFailedToPrune p e)
  end.

Fixpoint prune_loop (env : run_env) (ps : list (string * dirent)) : M unit :=
  match ps with
  | [] => mret ()
  | p :: ps' => prune_one env p.1;; prune_loop env ps'
  end.

Definition prune_old_models (env : run_env) (keep : Z) : M unit :=
  w ← get_world;
  match MODELS_DIR w with
  | None => mret ()
  | Some d => prune_loop env (prune_targets keep d)
  end.

(** *** [main] *)

(** [state['last_count']] and [state['last_time']] of the first print. *)
Definition subscripts (l : loaded) : result (state * Z * datetime) :=
  match l with
  | LOther => Raise (TypeError "indices must be integers")
  | LDict s =>
      match last_count s, last_time s with
      | None, _ => Raise (KeyError "last_count")
      | Some _, None => Raise (KeyError "last_time")
      | Some c, Some t => Ok (s, c, t)
      end
  end.

Section Main.
(** [json.dumps(record, ensure_ascii=False)], which wrote the records *)
Context (dumps : record → string).

Definition main (pol : policy) (env : run_env) : M unit :=
  w ← get_world;
  let total := read_count dumps (FEEDBACK w) in
  match subscripts (load_state (STATE w)) with
  | Raise e => raise e
  | Ok (state, c, t) =>
      print (PrintTotals total c t);;
      if negb (should_train pol (now_decide env) total state) then
        print PrintSkipping
      else
        model_path ← run_train env;
        reload_api env model_path;;
        prune_old_models env (KEEP_LAST pol);;
        save_state {| last_count := Some total;
                      last_time := Some (now_persist env);
                      last_model := Some model_path |};;
        print (PrintPromoted model_path)
  end.
End Main.

End Autotrain.

(** ** Vocabulary of the specification

    The notions the specification uses to describe the program, stated
    in its own words; the theorems of Part II relate them to the code. *)

Module Spec.
Import Log.

(** The weight of a feedback row (section 4.3, steps 2 to 5): the number
    of weighted rows it stands for. *)
Definition weight (r : Train.feedback_row) : Z :=
  if decide (Train.user r ≠ Train.pred r) then Train.DISAGREE_DUP
  else
    let p := Train.p_sarcasm_from_row r in
    if ((Train.UNCERT_BAND.1 <=? p) && (p <=? Train.UNCERT_BAND.2))%float
    then Train.UNCERT_DUP
    else 1.

(** The weighted rows a feedback row stands for: [weight r] copies of
    its text under the id of the user's label. *)
Definition expand (r : Train.feedback_row) : list Train.training_row :=
  replicate (Z.to_nat (weight r))
    {| Train.tr_text := Train.text r;
       Train.tr_label := default 0 (Train.label2id !! Train.user r) |}.

(** The scheduler condition of section 4.2. *)
Definition eligible (pol : Autotrain.policy) (now : datetime) (total : Z)
    (st : Autotrain.state) : Prop :=
  Autotrain.MIN_TOTAL pol ≤ total ∧
  (Autotrain.MIN_NEW pol ≤ total - default 0 (Autotrain.last_count st) ∨
   Autotrain.COOLDOWN pol ≤ now - default epoch (Autotrain.last_time st)).

(** The fine-tuning step fails: the subprocess raises, or its output
    carries no parseable success marker. *)
Definition training_fails (env : Autotrain.run_env) : Prop :=
  match Autotrain.train_proc env with
  | Raise _ => True
  | Ok out => Autotrain.re_search out = None
  end.

(** The hot-reload call fails: no connection, or an error status. *)
Definition reload_fails (env : Autotrain.run_env) : Prop :=
  match Autotrain.reload_http env with
  | Autotrain.ConnectionFailed _ => True
  | Autotrain.Responded status _ => 400 ≤ status < 600
  end.

(** The run reaches the fine-tuning step: the state loads and the
    scheduler fires. *)
Definition reaches_training (dumps : record → string)
    (pol : Autotrain.policy) (env : Autotrain.run_env) (w : Autotrain.world)
  : Prop :=
  ∃ st c t,
    Autotrain.subscripts (Autotrain.load_state (Autotrain.STATE w))
      = Ok (st, c, t) ∧
    Autotrain.should_train pol (Autotrain.now_decide env)
      (Autotrain.read_count dumps (Autotrain.FEEDBACK w)) st = true.

(** A successful run: it returns normally and its last line of output
    announces the promoted model. *)
Definition succeeded (r : result unit * Autotrain.world) (path : string)
  : Prop :=
  r.1 = Ok () ∧ last (Autotrain.stdout r.2) = Some (Autotrain.PrintPromoted path).

(** The feedback log only grows between two observations. *)
Definition appended (f1 f2 : option (list line)) : Prop :=
  match f1, f2 with
  | None, _ => True
  | Some l1, Some l2 => l1 `prefix_of` l2
  | Some _, None => False
  end.

(** A text without any of the characters at which [splitlines] breaks. *)
Fixpoint unbroken (s : string) : bool :=
  match s with
  | EmptyString => true
  | String c s' => negb (is_linebreak c) && unbroken s'
  end.

(** A line of the log that [splitlines] leaves in one piece, and that
    both readers take for blank or for a vote alike: no url or text of a
    record holds U+0085, no other line holds a line break. *)
Definition one_piece (dumps : record → string) (l : line) : Prop :=
  unbroken (render dumps l) = true ∧
  blank l = negb (truthy (strip (render dumps l))).

(** The number of model folders strictly newer than time [t]. *)
Definition newer_count (d : gmap string Autotrain.dirent) (t : Z) : Z :=
  Z.of_nat (length (filter (λ p, t < Autotrain.st_mtime p.2)
                           (Autotrain.folders_of d))).

(** The folders have pairwise distinct modification times. *)
Definition distinct_mtimes (d : gmap string Autotrain.dirent) : Prop :=
  NoDup ((λ p, Autotrain.st_mtime p.2) <$> Autotrain.folders_of d).

Global Instance distinct_mtimes_dec d : Decision (distinct_mtimes d).
Proof. unfold distinct_mtimes. apply _. Defined.

(** A folder beyond the [keep] newest ones. *)
Definition stale (keep : Z) (d : gmap string Autotrain.dirent)
    (e : Autotrain.dirent) : Prop :=
  Autotrain.is_dir e = true ∧ keep ≤ newer_count d (Autotrain.st_mtime e).

Global Instance stale_dec keep d e : Decision (stale keep d e).
Proof. unfold stale. apply _. Defined.

End Spec.

(** ** Sample data

    Concrete inputs at which the theorems of Part II are exercised. *)

Module Samples.
Import Log.

(** A stand-in for the digest: the text itself. *)
Definition plain_digest (s : string) : string := s.

Definition fb_first : App.FeedbackIn :=
  {| App.fb_url := Some "a"; App.fb_text := "b";
     App.fb_predicted_label := "SARCASM"; App.fb_score := 0.9%float;
     App.fb_user_label := "NOT_SARCASM" |}.

(** The same url and, once trimmed, the same text. *)
Definition fb_again : App.FeedbackIn :=
  {| App.fb_url := Some "a"; App.fb_text := " b ";
     App.fb_predicted_label := "SARCASM"; App.fb_score := 0.9%float;
     App.fb_user_label := "SARCASM" |}.

Definition fb_other : App.FeedbackIn :=
  {| App.fb_url := None; App.fb_text := "sure, that went well";
     App.fb_predicted_label := "NOT_SARCASM"; App.fb_score := 0.7%float;
     App.fb_user_label := "SARCASM" |}.

(** A pipeline that finds every text mildly sarcastic. *)
Definition constant_pipeline (texts : list string) : list (string * float) :=
  (λ _, ("LABEL_1", 0.3%float)) <$> texts.

Definition app_start : App.state :=
  {| App.FEEDBACK_FILE := Some []; App.PREDICTIONS_LOG := [];
     App.LATENCY_LOG := []; App.latencies := []; App.req_count := 0;
     App.confidences := []; App.threshold_crossings := ∅ |}.

(** A stand-in for the seeded shuffle: the list backwards. *)
Definition reversing_shuffle (seed : Z) (l : list Train.training_row)
  : list Train.training_row := reverse l.

Definition twelve_rows : list Train.training_row :=
  (λ t, {| Train.tr_text := t; Train.tr_label := 1 |})
    <$> ["a"; "b"; "c"; "d"; "e"; "f"; "g"; "h"; "i"; "j"; "k"; "l"].

(** Seven model folders and a plain file. *)
Definition seven_folders : gmap string Autotrain.dirent :=
  {[ "sarcasm-v1" := {| Autotrain.is_dir := true; Autotrain.st_mtime := 100 |};
     "sarcasm-v2" := {| Autotrain.is_dir := true; Autotrain.st_mtime := 200 |};
     "sarcasm-v3" := {| Autotrain.is_dir := true; Autotrain.st_mtime := 300 |};
     "sarcasm-v4" := {| Autotrain.is_dir := true; Autotrain.st_mtime := 400 |};
     "sarcasm-v5" := {| Autotrain.is_dir := true; Autotrain.st_mtime := 500 |};
     "sarcasm-v6" := {| Autotrain.is_dir := true; Autotrain.st_mtime := 600 |};
     "sarcasm-v7" := {| Autotrain.is_dir := true; Autotrain.st_mtime := 700 |};
     "notes.txt" := {| Autotrain.is_dir := false; Autotrain.st_mtime := 50 |} ]}.

Definition stored : record :=
  {| id := "a||b"; timestamp := 5; url := Some "a"; text := "b";
     predicted_label := "SARCASM"; score := 0.9%float;
     user_label := "NOT_SARCASM" |}.

(** A stand-in for the dump of a record: its id and its text between
    braces, the text written as it is. *)
Definition plain_dumps (r : record) : string :=
  "{" +:+ id r +:+ ": " +:+ text r +:+ "}".

(** A vote on a text that holds U+0085. *)
Definition stored_nel : record :=
  {| id := "c||d"; timestamp := 6; url := Some "c";
     text := String "a" (String "133"%char "b");
     predicted_label := "SARCASM"; score := 0.9%float;
     user_label := "SARCASM" |}.

(** Forty votes, a blank line, and no state file yet. *)
Definition first_run : Autotrain.world :=
  {| Autotrain.FEEDBACK := Some (replicate 40 (Entry stored) ++ [Raw "  "]);
     Autotrain.STATE := None;
     Autotrain.MODELS_DIR := Some seven_folders;
     Autotrain.stdout := [] |}.

(** The output of a trainer that went to its end. *)
Definition trainer_output : string :=
  "Loaded 40 raw feedback rows." +:+ String newline
    ("Saved new model to: /srv/models/sarcasm-v8 " +:+ String newline
       "Next steps:").

(** Everything answers. *)
Definition all_well : Autotrain.run_env :=
  {| Autotrain.now_decide := hours 1000;
     Autotrain.train_proc := Ok trainer_output;
     Autotrain.train_folder := Some ("sarcasm-v8", 800);
     Autotrain.reload_http := Autotrain.Responded 200 (Some "{ok: true}");
     Autotrain.rmtree_error := λ _, None;
     Autotrain.now_persist := hours 1001 |}.

(** The trainer crashes with a traceback, its folder already made. *)
Definition trainer_crashes : Autotrain.run_env :=
  {| Autotrain.now_decide := hours 1000;
     Autotrain.train_proc := Ok "Traceback (most recent call last):";
     Autotrain.train_folder := Some ("sarcasm-v8", 800);
     Autotrain.reload_http := Autotrain.Responded 200 (Some "{ok: true}");
     Autotrain.rmtree_error := λ _, None;
     Autotrain.now_persist := hours 1001 |}.

(** The API is down, and the oldest folder cannot be removed. *)
Definition api_down : Autotrain.run_env :=
  {| Autotrain.now_decide := hours 1000;
     Autotrain.train_proc := Ok trainer_output;
     Autotrain.train_folder := Some ("sarcasm-v8", 800);
     Autotrain.reload_http := Autotrain.ConnectionFailed "Connection refused";
     Autotrain.rmtree_error :=
       λ p, if String.eqb p "sarcasm-v1" then Some "Permission denied"
            else None;
     Autotrain.now_persist := hours 1001 |}.

End Samples.

(** ** Outcome of the removal loop, for the statements of Part II *)

Module Outcome.
Import Autotrain.

(** The folder after the removal loop ran over [ps]. *)
Definition pruned_dir (env : run_env) (ps : list (string * dirent))
    (d : gmap string dirent) : gmap string dirent :=
  foldl (λ acc p, match rmtree_error env p.1 with
                  | None => delete p.1 acc
                  | Some _ => acc
                  end) d ps.

(** The lines the removal loop prints over [ps]. *)
Definition pruned_log (env : run_env) (ps : list (string * dirent))
  : list event :=
  (λ p, match rmtree_error env p.1 with
        | None => PrintPruned p.1
        | Some e => PrintFailedToPrune p.1 e
        end) <$> ps.

(** The line [reload_api] prints. *)
Definition reload_log (env : run_env) : event :=
  match reload_http env with
  | ConnectionFailed e => PrintReloadWarning e
  | Responded status body =>
      if (400 <=? status) && (status <? 600) then PrintReloadWarning "HTTPError"
      else match body with
           | None => PrintReloadWarning "JSONDecodeError"
           | Some b => PrintReloadOK b
           end
  end.

(** The world with [evs] appended to the standard output. *)
Definition printed (w : world) (evs : list event) : world :=
  {| FEEDBACK := FEEDBACK w; STATE := STATE w; MODELS_DIR := MODELS_DIR w;
     stdout := stdout w ++ evs |}.

(** The world a run leaves when it promotes the model at [path]: the
    folders the trainer left pruned, the state replaced, the output
    extended. *)
Definition promoted (dumps : Log.record → string) (pol : policy)
    (env : run_env) (w : world)
    (c : Z) (t : datetime) (out path : string) : world :=
  let total := read_count dumps (FEEDBACK w) in
  let listing := trained_models env (MODELS_DIR w) in
  {| FEEDBACK := FEEDBACK w;
     STATE := Some (Dict {| last_count := Some total;
                            last_time := Some (now_persist env);
                            last_model := Some path |});
     MODELS_DIR :=
       (λ d, pruned_dir env (prune_targets (KEEP_LAST pol) d) d) <$> listing;
     stdout :=
       stdout w
       ++ [PrintTotals total c t; PrintTrainOutput out; reload_log env]
       ++ from_option (λ d, pruned_log env (prune_targets (KEEP_LAST pol) d))
            [] listing
       ++ [PrintPromoted path] |}.

(** Newest first, ties allowed. *)
Definition newer_eq (x y : string * dirent) : Prop :=
  st_mtime y.2 ≤ st_mtime x.2.

(** Strictly newest first. *)
Definition newer (x y : string * dirent) : Prop :=
  st_mtime y.2 < st_mtime x.2.

End Outcome.

(** ** Checking a property of the integers of a range by evaluation *)

Module Range.

(** [P] holds at [lo], [lo + 1], ..., [lo + k - 1]. *)
Fixpoint all_from (P : Z → bool) (lo : Z) (k : nat) : bool :=
  match k with
  | O => true
  | S k' => P lo && all_from P (lo + 1) k'
  end.

(** The validation size computed in binary64 is the exact one. *)
Definition n_val_exact (n : Z) : bool :=
  match Train.n_val n with
  | Ok k => k =? Z.max 1 (n / 10)
  | Raise _ => false
  end.

(** The largest number of weighted rows for which [n_val_exact] was
    evaluated. *)
Definition checked_rows : Z := 100000.

(** A mantissa [m] after [j] of the one-digit shifts to the right by
    which the specification of binary64 rounds. *)
Definition shifted (m : Z) (j : nat) : shr_record :=
  Nat.iter j shr_1 {| shr_m := m; shr_r := false; shr_s := false |}.

End Range.

(** ** [train.py]: loading the feedback and the tokenizer *)

Module TrainIO.
Import Log.

(** How a run of the trainer ends when it does not go on: [SystemExit]
    is raised by the program itself, anything else is an exception that
    nothing catches. *)
Inductive abort :=
| SystemExit (msg : string)
| Uncaught (e : exn).

Inductive outcome (A : Type) :=
| Done (a : A)
| Abort (x : abort).
Global Arguments Done {A} a.
Global Arguments Abort {A} x.

(** The row built from the dump of a record. *)
Definition row_of_record (r : record) : Train.feedback_row :=
  {| Train.text := text r; Train.user := user_label r;
     Train.pred := predicted_label r; Train.score := score r |}.

Section ReadFeedback.
(** [json.loads(line)] followed by the four subscripts and [float(...)], on
    the stripped text of a line that is not the dump of a record. *)
Context (loads_row : string → result Train.feedback_row).

(** The loop over the lines of the file. *)
Fixpoint read_lines (rows : list Train.feedback_row) (ls : list line)
  : result (list Train.feedback_row) :=
  match ls with
  | [] => Ok rows
  | l :: ls' =>
      if blank l then read_lines rows ls'
      else
        match l with
        | Entry r => read_lines (rows ++ [row_of_record r]) ls'
        | Raw s =>
            match loads_row (strip s) with
            | Ok row => read_lines (rows ++ [row]) ls'
            | Raise e => Raise e
            end
        end
  end.

(** [read_feedback]; the message of the first [SystemExit] is shortened
    (the source adds the path and a hint to it). *)
Definition read_feedback (path : option (list line))
  : outcome (list Train.feedback_row) :=
  match path with
  | None => Abort (SystemExit "No feedback yet.")
  | Some ls =>
      match read_lines [] ls with
      | Raise e => Abort (Uncaught e)
      | Ok [] => Abort (SystemExit "feedback.jsonl is empty.")
      | Ok rows => Done rows
      end
  end.

(** Steps 1 and 2 of [main]: load, up-weight, shuffle and split. *)
Definition prepare (shuffle : Z → list Train.training_row → list Train.training_row)
    (path : option (list line))
  : outcome (list Train.training_row * list Train.training_row) :=
  match read_feedback path with
  | Abort x => Abort x
  | Done raw =>
      match Train.build_and_split shuffle raw with
      | Raise e => Abort (Uncaught e)
      | Ok parts => Done parts
      end
  end.
End ReadFeedback.

(** The keyword arguments of one call of [AutoTokenizer.from_pretrained]. *)
Record tokenizer_kw := {
  pretrained_model_name_or_path : string;
  use_fast : bool;
  local_files_only : bool;
}.

Definition CURRENT_MODEL : string := "evelinaivanova/sarcasm-extension-model".

Definition tries : list tokenizer_kw :=
  [ {| pretrained_model_name_or_path := CURRENT_MODEL;
       use_fast := true; local_files_only := true |};
    {| pretrained_model_name_or_path := CURRENT_MODEL;
       use_fast := false; local_files_only := true |};
    {| pretrained_model_name_or_path := "distilroberta-base";
       use_fast := true; local_files_only := false |};
    {| pretrained_model_name_or_path := "distilroberta-base";
       use_fast := false; local_files_only := false |} ].

(** Lines printed by [load_tokenizer]. *)
Inductive tokenizer_event :=
| Trying (kw : tokenizer_kw)
| FailedWith (e : exn).

Section LoadTokenizer.
Context {Tokenizer : Type}.
(** [AutoTokenizer.from_pretrained] applied to the keyword arguments *)
Context (from_pretrained : tokenizer_kw → result Tokenizer).
(** [str(e)] *)
Context (str_exn : exn → string).

Fixpoint load_loop (last_err : option exn) (kws : list tokenizer_kw)
  : list tokenizer_event * result Tokenizer :=
  match kws with
  | [] =>
      ([], Raise (RuntimeError
                    ("Could not load any tokenizer. Last error: "
                     +:+ from_option str_exn "None" last_err)))
  | kw :: kws' =>
      match from_pretrained kw with
      | Ok t => ([Trying kw], Ok t)
      | Raise e =>
          let '(evs, r) := load_loop (Some e) kws' in
          (Trying kw :: FailedWith e :: evs, r)
      end
  end.

Definition load_tokenizer : list tokenizer_event * result Tokenizer :=
  load_loop None tries.
End LoadTokenizer.

End TrainIO.

(** ** [api/app.py]: reloading the model and the viewer endpoints *)

Module Serving.
Import Log App.

(** The module-level pipeline and its path. *)
Record serving (Pipeline : Type) := {
  clf : Pipeline;
  MODEL_PATH : string;
}.
Global Arguments clf {Pipeline} s.
Global Arguments MODEL_PATH {Pipeline} s.

(** The request body of [/reload]. *)
Record ReloadIn := {
  model_path : option string;
}.

Section Reload.
Context {Pipeline : Type}.
(** [build_pipeline(model_path)]: loading may raise. *)
Context (build_pipeline : string → result Pipeline).

(** [GET /] *)
Definition root (s : serving Pipeline) : gmap string jval :=
  {[ "ok" := JBool true; "model_path" := JStr (MODEL_PATH s) ]}.

(** [POST /reload]: the path is assigned before the pipeline is built. *)
Definition reload_model (req : ReloadIn) (s : serving Pipeline)
  : result (gmap string jval) * serving Pipeline :=
  let path :=
    match model_path req with
    | Some p => if truthy p then p else MODEL_PATH s
    | None => MODEL_PATH s
    end in
  match build_pipeline path with
  | Raise e => (Raise e, {| clf := clf s; MODEL_PATH := path |})
  | Ok c =>
      (Ok {[ "ok" := JBool true; "model_path" := JStr path ]},
       {| clf := c; MODEL_PATH := path |})
  end.
End Reload.

(** ["\n".join(lines)] *)
Fixpoint join_lines (lines : list string) : string :=
  match lines with
  | [] => ""
  | [l] => l
  | l :: ls => l +:+ String newline (join_lines ls)
  end.

Section Viewer.
(** [json.dumps(record, ensure_ascii=False)], which wrote the records *)
Context (dumps : record → string).

(** [GET /feedback/recent?n=...]: the lines are those of
    [read_text().splitlines()] and the slice is [lines[-n:]]. *)
Definition feedback_recent (n : Z) (file : option (list line)) : string :=
  match file with
  | None => "No feedback yet."
  | Some ls =>
      let lines := text_lines dumps ls in
      match lines with
      | [] => "No feedback entries."
      | _ => join_lines (Autotrain.slice_from (- n) lines)
      end
  end.
End Viewer.

(** [s.split("/")] *)
Fixpoint split_slash (s : string) : list string :=
  match s with
  | EmptyString => [EmptyString]
  | String c s' =>
      if Ascii.eqb c "/" then EmptyString :: split_slash s'
      else
        match split_slash s' with
        | h :: t => String c h :: t
        | [] => [String c EmptyString]
        end
  end.

(** The domain under which [quality_report] files a page: the third
    piece of the url split at the slashes when [m.get("url")] is truthy,
    and "unknown" otherwise. The result is [None] when the subscript [2]
    raises [IndexError]. *)
Definition page_domain (url : option string) : option string :=
  match url with
  | None => Some "unknown"
  | Some u => if truthy u then split_slash u !! 2%nat else Some "unknown"
  end.

End Serving.

(** ** Vocabulary for sequences of requests and for the counters *)

Module Story.
Import Log App.

(** The file after the submissions [fbs], each with its clock reading,
    were handled one after the other. *)
Definition submit_all (sha1 : string → string)
    (fbs : list (FeedbackIn * datetime)) (file : option (list line))
  : option (list line) :=
  foldl (λ f ft, (feedback sha1 ft.1 ft.2 f).2) file fbs.

(** The ids of the records of a file, in file order. *)
Definition stored_ids (ls : list line) : list string := omap line_id ls.

(** The value of a [Counter] at a key. *)
Definition counter_at (k : string) (c : gmap string Z) : Z :=
  default 0 (c !! k).

(** The number of labels equal to SARCASM. *)
Definition sarcasm_count (labels : list string) : Z :=
  Z.of_nat (length (filter (λ l, l = "SARCASM") labels)).

(** The number of ["/"] in a text. *)
Fixpoint slashes (s : string) : nat :=
  match s with
  | EmptyString => O
  | String c s' => if Ascii.eqb c "/" then S (slashes s') else slashes s'
  end.

(** The text [p] occurs in the text [s]. *)
Fixpoint occurs (p s : string) : bool :=
  match Autotrain.strip_prefix p s with
  | Some _ => true
  | None =>
      match s with
      | EmptyString => false
      | String _ s' => occurs p s'
      end
  end.

(** A text has a line feed. *)
Fixpoint has_newline (s : string) : bool :=
  match s with
  | EmptyString => false
  | String c s' => Ascii.eqb c newline || has_newline s'
  end.

(** All characters of a text satisfy [P]. *)
Fixpoint all_chars (P : ascii → bool) (s : string) : bool :=
  match s with
  | EmptyString => true
  | String c s' => P c && all_chars P s'
  end.

End Story.


(** ** Vocabulary for the trainer's input *)

Module Reading.
Import Log.

(** The records of a file, in file order. *)
Definition records (ls : list line) : list record :=
  omap (λ l, match l with Entry r => Some r | Raw _ => None end) ls.

(** A file as the API leaves it: blank lines and dumps of records. *)
Definition api_written (ls : list line) : Prop :=
  Forall (λ l, blank l = true ∨ ∃ r, l = Entry r) ls.

(** The user label of a row is a key of [label2id]. *)
Definition known (r : Train.feedback_row) : Prop :=
  is_Some (Train.label2id !! Train.user r).

(** The configurations tried, read off the printed lines. *)
Definition tried (evs : list TrainIO.tokenizer_event)
  : list TrainIO.tokenizer_kw :=
  omap (λ ev, match ev with
              | TrainIO.Trying kw => Some kw
              | TrainIO.FailedWith _ => None
              end) evs.

End Reading.


(** ** More sample data *)

Module MoreSamples.
Import Log Samples.

(** A JSON reader that rejects every text that is not a dump. *)
Definition rejecting_loads (s : string) : result Train.feedback_row :=
  Raise (ValueError "Expecting value").

(** One record and a blank line. *)
Definition small_log : list line := [Entry stored; Raw "  "].

Definition one_row : list Train.training_row :=
  [{| Train.tr_text := "a"; Train.tr_label := 1 |}].

(** A loader that only knows one folder. *)
Definition only_good (p : string) : result string :=
  if String.eqb p "models/good" then Ok "pipeline of models/good"
  else Raise (OSError "not a model folder").

Definition serving_good : Serving.serving string :=
  {| Serving.clf := "pipeline of models/good";
     Serving.MODEL_PATH := "models/good" |}.

(** One vote and no state file. *)
Definition quiet_run : Autotrain.world :=
  {| Autotrain.FEEDBACK := Some [Entry stored];
     Autotrain.STATE := None;
     Autotrain.MODELS_DIR := Some seven_folders;
     Autotrain.stdout := [] |}.

(** A state file holding a JSON list. *)
Definition list_state_run : Autotrain.world :=
  {| Autotrain.FEEDBACK := Some [Entry stored];
     Autotrain.STATE := Some Autotrain.NotADict;
     Autotrain.MODELS_DIR := Some seven_folders;
     Autotrain.stdout := [] |}.

(** One hour after the state update of [all_well]. *)
Definition an_hour_later : Autotrain.run_env :=
  {| Autotrain.now_decide := hours 1002;
     Autotrain.train_proc := Ok trainer_output;
     Autotrain.train_folder := Some ("sarcasm-v9", 900);
     Autotrain.reload_http := Autotrain.Responded 200 (Some "{ok: true}");
     Autotrain.rmtree_error := λ _, None;
     Autotrain.now_persist := hours 1003 |}.

(** The trainer printed the marker and nothing after it but blanks. *)
Definition blank_marker_output : string :=
  "Loaded 40 raw feedback rows." +:+ String newline
    (Autotrain.marker +:+ "  ").

Definition trainer_blank : Autotrain.run_env :=
  {| Autotrain.now_decide := hours 1000;
     Autotrain.train_proc := Ok blank_marker_output;
     Autotrain.train_folder := Some ("sarcasm-v8", 800);
     Autotrain.reload_http := Autotrain.Responded 200 (Some "{ok: true}");
     Autotrain.rmtree_error := λ _, None;
     Autotrain.now_persist := hours 1001 |}.

End MoreSamples.


(* ===================================================================== *)
(** * Part II: the properties *)
(* ===================================================================== *)

(** ** The scheduler decision *)

Section Scheduler.
Import Autotrain.

Lemma should_train_eligible pol now total st :
  should_train pol now total st = true ↔ Spec.eligible pol now total st.
Proof.
  unfold should_train, Spec.eligible.
  destruct (Z.ltb_spec total (MIN_TOTAL pol)) as [Hlt | Hge].
  - split; [discriminate | lia].
  - destruct (Z.ltb_spec (total - default 0 (last_count st)) (MIN_NEW pol));
      destruct (Z.ltb_spec (now - default epoch (last_time st)) (COOLDOWN pol));
      simpl; split; try discriminate; try reflexivity; try lia.
Qed.

(** C1: the decision is true exactly when the total reaches MIN_TOTAL and
    either enough new votes arrived since the last run or the cooldown has
    elapsed; under the default policy 29 votes never train, 30 votes with
    none counted before train one hour after the last run, 35 votes with
    30 counted before do not train one hour after the last run. *)
Theorem should_train_spec :
  (∀ pol now total st,
      should_train pol now total st = true ↔
      MIN_TOTAL pol ≤ total ∧
      (MIN_NEW pol ≤ total - default 0 (last_count st) ∨
       COOLDOWN pol ≤ now - default epoch (last_time st))) ∧
  (∀ now st, should_train default_policy now 29 st = false) ∧
  (∀ now m,
      should_train default_policy now 30
        {| last_count := Some 0; last_time := Some (now - hours 1);
           last_model := m |} = true) ∧
  (∀ now m,
      should_train default_policy now 35
        {| last_count := Some 30; last_time := Some (now - hours 1);
           last_model := m |} = false).
Proof.
  split; [| split; [| split]].
  - intros. apply should_train_eligible.
  - intros now st. unfold should_train. reflexivity.
  - intros now m. apply should_train_eligible.
    unfold Spec.eligible. simpl. unfold hours. lia.
  - intros now m. apply not_true_is_false.
    rewrite should_train_eligible. unfold Spec.eligible. simpl.
    unfold hours. lia.
Qed.

End Scheduler.

(** ** The training-set builder *)

Section Builder.
Import Train.

Lemma emit_expand r :
  is_Some (label2id !! user r) → emit r = Ok (Spec.expand r).
Proof.
  intros [y Hy]. unfold emit, Spec.expand, Spec.weight. rewrite Hy. simpl.
  destruct (String.eqb_spec (user r) (pred r)) as [Heq | Hne]; simpl.
  - rewrite decide_False by (intros Hn; apply Hn, Heq).
    destruct ((0.45 <=? p_sarcasm_from_row r)%float
              && (p_sarcasm_from_row r <=? 0.65)%float);
      reflexivity.
  - rewrite decide_True by exact Hne. reflexivity.
Qed.

Lemma build_loop_expand rows : ∀ out,
  Forall (λ r, is_Some (label2id !! user r)) rows →
  build_loop out rows = Ok (out ++ (rows ≫= Spec.expand)).
Proof.
  induction rows as [| r rows IH]; intros out Hall.
  - simpl. by rewrite app_nil_r.
  - apply Forall_cons in Hall as [Hr Hall].
    cbn [build_loop]. rewrite (emit_expand r Hr). cbn [mbind result_bind].
    rewrite (IH _ Hall). by rewrite <- app_assoc.
Qed.

(** C3: a feedback row whose labels differ yields exactly DISAGREE_DUP = 3
    rows, an agreeing row whose P(SARCASM) lies in [0.45, 0.65] yields
    exactly UNCERT_DUP = 2 rows, any other row yields exactly one; all of
    them carry the user's label. The three sample rows of the
    specification yield 3, 1 and 2 rows. *)
Theorem build_training_rows_weights :
  (∀ r y,
      label2id !! user r = Some y →
      build_training_rows [r] =
        Ok (replicate
              (if decide (user r ≠ pred r) then 3%nat
               else if ((0.45 <=? p_sarcasm_from_row r)
                        && (p_sarcasm_from_row r <=? 0.65))%float
                    then 2%nat else 1%nat)
              {| tr_text := text r; tr_label := y |})) ∧
  (∀ r, p_sarcasm_from_row r =
        if decide (pred r = "SARCASM") then score r else (1 - score r)%float) ∧
  (∀ rows,
      Forall (λ r, is_Some (label2id !! user r)) rows →
      build_training_rows rows = Ok (rows ≫= Spec.expand)) ∧
  (∀ t,
      build_training_rows
        [{| text := t; user := "SARCASM"; pred := "NOT_SARCASM";
            score := 0.9 |}]
      = Ok (replicate 3 {| tr_text := t; tr_label := 1 |})) ∧
  (∀ t,
      build_training_rows
        [{| text := t; user := "SARCASM"; pred := "SARCASM";
            score := 0.95 |}]
      = Ok [{| tr_text := t; tr_label := 1 |}]) ∧
  (∀ t,
      build_training_rows
        [{| text := t; user := "SARCASM"; pred := "SARCASM";
            score := 0.55 |}]
      = Ok (replicate 2 {| tr_text := t; tr_label := 1 |})).
Proof.
  split_and!.
  - intros r y Hy. unfold build_training_rows.
    rewrite build_loop_expand by (constructor; [by eexists | constructor]).
    simpl. rewrite app_nil_r. unfold Spec.expand, Spec.weight. rewrite Hy.
    simpl. repeat case_match; reflexivity.
  - intros r. unfold p_sarcasm_from_row.
    destruct (String.eqb_spec (pred r) "SARCASM") as [-> | Hne].
    + by rewrite decide_True.
    + by rewrite decide_False.
  - intros rows Hall. unfold build_training_rows.
    by rewrite build_loop_expand.
  - intros t. reflexivity.
  - intros t. reflexivity.
  - intros t. reflexivity.
Qed.

Lemma build_training_rows_weights_witness :
  build_training_rows
    [{| text := "great, another monday"; user := "NOT_SARCASM";
        pred := "NOT_SARCASM"; score := 0.5 |}]
  = Ok (replicate 2 {| tr_text := "great, another monday"; tr_label := 0 |}).
Proof.
  exact (proj1 build_training_rows_weights
           {| text := "great, another monday"; user := "NOT_SARCASM";
              pred := "NOT_SARCASM"; score := 0.5 |} 0 eq_refl).
Defined.

End Builder.

(** ** The feedback store *)

Section FeedbackStore.
Import Log App.
Context (sha1 : string → string).

Lemma scan_seen_acc (ls : list line) : ∀ (acc : gset string) i,
  i ∈ foldl (λ seen l,
               if blank l then seen
               else match line_id l with
                    | Some j => {[ j ]} ∪ seen
                    | None => seen
                    end) acc ls
  ↔ i ∈ acc ∨ ∃ r, Entry r ∈ ls ∧ id r = i.
Proof.
  induction ls as [| l ls IH]; intros acc i; simpl.
  - split; [by left |]. intros [? | (r & Hr & _)]; [done |].
    by apply elem_of_nil in Hr.
  - rewrite IH. destruct l as [s | r0]; simpl.
    + assert (Hraw : ∀ X : gset string,
                 i ∈ X ∨ (∃ r, Entry r ∈ ls ∧ id r = i) ↔
                 i ∈ X ∨ (∃ r, Entry r ∈ Raw s :: ls ∧ id r = i)).
      { intros X. split; intros [? | (r & Hr & Hi)]; try by left.
        - right. exists r. split; [by right | done].
        - right. exists r. split; [| done].
          apply elem_of_cons in Hr as [Hr | Hr]; [discriminate | done]. }
      destruct (truthy (strip s)); simpl; apply Hraw.
    + rewrite elem_of_union, elem_of_singleton. split.
      * intros [[-> | ?] | (r & Hr & Hi)].
        -- right. exists r0. split; [by left | done].
        -- by left.
        -- right. exists r. split; [by right | done].
      * intros [? | (r & Hr & Hi)]; [by left; right |].
        apply elem_of_cons in Hr as [Hr | Hr].
        -- injection Hr as ->. by left; left.
        -- right. by exists r.
Qed.

(** The ids seen by the scan are those of the stored records. *)
Lemma scan_seen_spec ls i :
  i ∈ scan_seen ls ↔ ∃ r, Entry r ∈ ls ∧ id r = i.
Proof.
  unfold scan_seen. rewrite scan_seen_acc. split; [| by right].
  intros [H | H]; [| done]. by apply not_elem_of_empty in H.
Qed.

Lemma count_nonblank_app ls ls' :
  count_nonblank (ls ++ ls') = count_nonblank ls + count_nonblank ls'.
Proof. unfold count_nonblank. rewrite filter_app, length_app. lia. Qed.

Lemma feedback_seen fb now ls :
  rid_of sha1 fb ∈ scan_seen ls →
  feedback sha1 fb now (Some ls) = (Ok {[ "ok" := JBool true ]}, Some ls).
Proof. intros H. unfold feedback. by rewrite decide_True. Qed.

Lemma feedback_fresh fb now ls :
  rid_of sha1 fb ∉ scan_seen ls →
  feedback sha1 fb now (Some ls) =
    (Ok {[ "ok" := JBool true ]},
     Some (ls ++ [Entry {| id := rid_of sha1 fb; timestamp := now;
                           url := fb_url fb; text := strip (fb_text fb);
                           predicted_label := fb_predicted_label fb;
                           score := fb_score fb;
                           user_label := fb_user_label fb |}])).
Proof. intros H. unfold feedback. by rewrite decide_False. Qed.

(** After a submission the id of the submission is in the store. *)
Lemma feedback_stores fb now ls :
  ∃ ls', (feedback sha1 fb now (Some ls)).2 = Some ls' ∧
         ls `prefix_of` ls' ∧ rid_of sha1 fb ∈ scan_seen ls'.
Proof.
  destruct (decide (rid_of sha1 fb ∈ scan_seen ls)) as [Hin | Hout].
  - exists ls. by rewrite feedback_seen.
  - eexists. rewrite feedback_fresh by done. simpl.
    split; [done |]. split; [by apply prefix_app_r |].
    apply scan_seen_spec. eexists. split.
    + apply elem_of_app. right. by apply list_elem_of_singleton.
    + reflexivity.
Qed.

Lemma scan_seen_prefix ls ls' i :
  ls `prefix_of` ls' → i ∈ scan_seen ls → i ∈ scan_seen ls'.
Proof.
  intros [k ->]. rewrite !scan_seen_spec. intros (r & Hr & Hi).
  exists r. split; [| done]. apply elem_of_app. by left.
Qed.

Lemma rid_of_same fb1 fb2 :
  fb_url fb1 = fb_url fb2 →
  strip (fb_text fb1) = strip (fb_text fb2) →
  rid_of sha1 fb1 = rid_of sha1 fb2.
Proof. intros Hu Ht. unfold rid_of. by rewrite Hu, Ht. Qed.

(** C4: of two submissions with the same url and the same trimmed text
    only the first is persisted. The ids are equal, so whatever was
    appended to the log in between, the second submission appends
    nothing; submitting twice into an empty store leaves a count of 1, and
    resubmitting a stored record leaves the count unchanged. *)
Theorem feedback_first_write_wins :
  (∀ fb1 fb2 t1 t2 ls ls1 ls2,
      fb_url fb1 = fb_url fb2 →
      strip (fb_text fb1) = strip (fb_text fb2) →
      (feedback sha1 fb1 t1 (Some ls)).2 = Some ls1 →
      ls1 `prefix_of` ls2 →
      rid_of sha1 fb1 = rid_of sha1 fb2 ∧
      (feedback sha1 fb2 t2 (Some ls2)).2 = Some ls2) ∧
  (∀ fb1 fb2 t1 t2,
      fb_url fb1 = fb_url fb2 →
      strip (fb_text fb1) = strip (fb_text fb2) →
      feedback_count
        (feedback sha1 fb2 t2 (feedback sha1 fb1 t1 (Some [])).2).2
      = Ok {[ "ok" := JBool true; "count" := JInt 1 ]}) ∧
  (∀ fb t ls r,
      Entry r ∈ ls → id r = rid_of sha1 fb →
      (feedback sha1 fb t (Some ls)).2 = Some ls ∧
      feedback_count (feedback sha1 fb t (Some ls)).2
      = feedback_count (Some ls)).
Proof.
  split_and!.
  - intros fb1 fb2 t1 t2 ls ls1 ls2 Hu Ht H1 Hpre.
    pose proof (rid_of_same fb1 fb2 Hu Ht) as Hrid. split; [done |].
    destruct (feedback_stores fb1 t1 ls) as (ls' & Hls' & _ & Hin).
    rewrite H1 in Hls'. injection Hls' as <-.
    rewrite feedback_seen; [done |].
    rewrite <- Hrid. by eapply scan_seen_prefix.
  - intros fb1 fb2 t1 t2 Hu Ht.
    pose proof (rid_of_same fb1 fb2 Hu Ht) as Hrid.
    rewrite (feedback_fresh fb1 t1 []).
    2: { unfold scan_seen. simpl. apply not_elem_of_empty. }
    cbn [snd app]. rewrite feedback_seen.
    + reflexivity.
    + apply scan_seen_spec. eexists. split.
      * by apply list_elem_of_singleton.
      * done.
  - intros fb t ls r Hr Hid.
    assert (rid_of sha1 fb ∈ scan_seen ls) as Hin.
    { apply scan_seen_spec. by exists r. }
    by rewrite feedback_seen.
Qed.

(** C5, as the code has it: the response body is [{"ok": true}] whether
    or not the id is already stored, and it has no [accepted] member; the
    file is left as it is when a stored record carries the id, and gets the
    new record appended otherwise. *)
Theorem feedback_response :
  ∀ fb now ls,
    let rid := rid_of sha1 fb in
    let record :=
      {| id := rid; timestamp := now; url := fb_url fb;
         text := strip (fb_text fb);
         predicted_label := fb_predicted_label fb;
         score := fb_score fb; user_label := fb_user_label fb |} in
    ((∃ r, Entry r ∈ ls ∧ id r = rid) →
     feedback sha1 fb now (Some ls) = (Ok {[ "ok" := JBool true ]}, Some ls)) ∧
    ((¬ ∃ r, Entry r ∈ ls ∧ id r = rid) →
     feedback sha1 fb now (Some ls)
     = (Ok {[ "ok" := JBool true ]}, Some (ls ++ [Entry record]))) ∧
    (∀ resp, (feedback sha1 fb now (Some ls)).1 = Ok resp →
             resp !! "accepted" = None ∧ resp !! "ok" = Some (JBool true)).
Proof.
  intros fb now ls rid record. split_and!.
  - intros H. apply feedback_seen. by apply scan_seen_spec.
  - intros H. apply feedback_fresh. by rewrite scan_seen_spec.
  - intros resp. unfold feedback. simpl. intros [= <-]. done.
Qed.

End FeedbackStore.

Section FeedbackStoreSamples.
Import Log App Samples.

Lemma feedback_first_write_wins_witness :
  rid_of plain_digest fb_first = rid_of plain_digest fb_again ∧
  (feedback plain_digest fb_again 7
     (Some ((default [] (feedback plain_digest fb_first 5 (Some [])).2)
            ++ [Raw ""]))).2
  = Some ((default [] (feedback plain_digest fb_first 5 (Some [])).2)
          ++ [Raw ""]).
Proof.
  apply (proj1 (feedback_first_write_wins plain_digest)
           fb_first fb_again 5 7 []
           (default [] (feedback plain_digest fb_first 5 (Some [])).2)).
  - reflexivity.
  - reflexivity.
  - reflexivity.
  - by apply prefix_app_r.
Defined.

(** The claim of an [accepted] flag fails on a fresh submission as on a
    duplicate: the response has no such member. *)
Lemma feedback_accepted_counterexample :
  ¬ (∀ resp, (feedback plain_digest fb_first 5 (Some [])).1 = Ok resp →
             resp !! "accepted" = Some (JBool true)) ∧
  ¬ (∀ resp,
        (feedback plain_digest fb_again 7
           (feedback plain_digest fb_first 5 (Some [])).2).1 = Ok resp →
        resp !! "accepted" = Some (JBool false)).
Proof.
  split; intros H; specialize (H _ eq_refl); discriminate H.
Qed.

Lemma feedback_response_witness :
  feedback plain_digest fb_again 7
    (Some [Entry {| id := "a||b"; timestamp := 5; url := Some "a";
                    text := "b"; predicted_label := "SARCASM";
                    score := 0.9; user_label := "NOT_SARCASM" |}])
  = (Ok {[ "ok" := JBool true ]},
     Some [Entry {| id := "a||b"; timestamp := 5; url := Some "a";
                    text := "b"; predicted_label := "SARCASM";
                    score := 0.9; user_label := "NOT_SARCASM" |}]).
Proof.
  apply (proj1 (feedback_response plain_digest fb_again 7 _)).
  eexists. split.
  - by apply list_elem_of_singleton.
  - reflexivity.
Defined.

End FeedbackStoreSamples.

(** ** The prediction endpoint *)

Section Predict.
Import App.
Context (clf : list string → list (string * float)).

Lemma predict_fold page_url now lat (tos : list (string * (string * float))) :
  ∀ ls ss st,
    (foldl (predict_step page_url now lat) (ls, ss, st) tos).1
    = (ls ++ ((λ to, map_label to.2.1 to.2.2) <$> tos),
       ss ++ ((λ to, to.2.2) <$> tos)).
Proof.
  induction tos as [| [text [raw score]] tos IH]; intros ls ss st.
  - simpl. by rewrite !app_nil_r.
  - cbn [foldl]. unfold predict_step at 2. rewrite IH. simpl.
    by rewrite <- !app_assoc.
Qed.

Lemma predict_out texts page_url now lat st :
  (predict clf texts page_url now lat st).1
  = {| labels := (λ o, map_label o.1 o.2) <$> (zip texts (clf texts)).*2;
       scores := snd <$> (zip texts (clf texts)).*2 |}.
Proof.
  unfold predict.
  match goal with
  | |- context [foldl ?f ?a ?l] =>
      pose proof (predict_fold page_url now lat l [] [] (a.2)) as H;
      destruct (foldl f a l) as [[ls ss] st2] eqn:E
  end.
  simpl in H. rewrite E in H. simpl in H. injection H as -> ->. simpl.
  by rewrite <- !list_fmap_compose.
Qed.

Lemma map_label_sarcasm raw score :
  map_label raw score = "SARCASM" → (score <? THRESHOLD)%float = false.
Proof.
  unfold map_label.
  destruct (String.eqb_spec (default raw (LABEL_MAP !! raw)) "SARCASM")
    as [Heq | Hne]; simpl.
  - destruct (score <? THRESHOLD)%float; [discriminate | done].
  - intros H. by destruct Hne.
Qed.

(** C10: when the pipeline answers one output per text, the response has
    one label and one score per text, in the order of the texts; a text
    whose mapped label is SARCASM with a score below THRESHOLD = 0.50 is
    returned as NOT_SARCASM, so no SARCASM label of the response comes
    with a score below 0.50. *)
Theorem predict_thresholded texts page_url now lat st :
  length (clf texts) = length texts →
  let out := (predict clf texts page_url now lat st).1 in
  length (labels out) = length texts ∧
  length (scores out) = length texts ∧
  (∀ i raw score,
      clf texts !! i = Some (raw, score) →
      labels out !! i = Some (map_label raw score) ∧
      scores out !! i = Some score) ∧
  (∀ raw score,
      default raw (LABEL_MAP !! raw) = "SARCASM" →
      (score <? 0.50)%float = true →
      map_label raw score = "NOT_SARCASM") ∧
  (∀ i s,
      labels out !! i = Some "SARCASM" →
      scores out !! i = Some s →
      (s <? 0.50)%float = false).
Proof.
  intros Hlen out. subst out. rewrite predict_out.
  rewrite snd_zip by lia. cbn [labels scores].
  split_and!.
  - rewrite length_fmap. done.
  - rewrite length_fmap. done.
  - intros i raw score Hi. rewrite !list_lookup_fmap, Hi. done.
  - intros raw score Hm Hs. unfold map_label, THRESHOLD.
    rewrite Hm, Hs. reflexivity.
  - intros i s Hl Hs.
    rewrite list_lookup_fmap in Hl. rewrite list_lookup_fmap in Hs.
    destruct (clf texts !! i) as [[raw score] |]; [| discriminate].
    simpl in Hl, Hs. injection Hl as Hl. injection Hs as <-.
    by apply map_label_sarcasm in Hl.
Qed.

End Predict.

(** ** Retention of model folders *)

Section Pruning.
Import Autotrain Outcome.

Lemma insert_desc_perm x l : insert_desc x l ≡ₚ x :: l.
Proof.
  induction l as [| y l IH]; simpl; [done |].
  destruct (st_mtime y.2 <=? st_mtime x.2); [done |].
  rewrite IH. apply Permutation_swap.
Qed.

Lemma sort_desc_perm l : sort_desc l ≡ₚ l.
Proof.
  induction l as [| x l IH]; simpl; [done |].
  by rewrite insert_desc_perm, IH.
Qed.

Lemma insert_desc_sorted x l :
  StronglySorted newer_eq l → StronglySorted newer_eq (insert_desc x l).
Proof.
  induction 1 as [| y l Hs IH Hall]; simpl.
  - repeat constructor.
  - destruct (Z.leb_spec (st_mtime y.2) (st_mtime x.2)) as [Hle | Hgt].
    + constructor; [by constructor |].
      constructor; [done |].
      eapply Forall_impl; [exact Hall |].
      unfold newer_eq. intros z Hz. simpl in *. lia.
    + constructor; [done |].
      rewrite insert_desc_perm. constructor; [| done].
      unfold newer_eq. lia.
Qed.

Lemma sort_desc_sorted l : StronglySorted newer_eq (sort_desc l).
Proof.
  induction l as [| x l IH]; simpl; [constructor |].
  by apply insert_desc_sorted.
Qed.

(** With distinct times the order is strict. *)
Lemma sorted_strict l :
  StronglySorted newer_eq l →
  NoDup ((λ p, st_mtime p.2) <$> l) →
  StronglySorted newer l.
Proof.
  induction 1 as [| y l Hs IH Hall]; intros Hnd; [constructor |].
  rewrite fmap_cons in Hnd. apply NoDup_cons in Hnd as [Hy Hnd].
  constructor; [by apply IH |].
  apply Forall_forall. intros z Hz.
  rewrite Forall_forall in Hall. specialize (Hall z Hz).
  unfold newer, newer_eq in *.
  assert (st_mtime z.2 ≠ st_mtime y.2); [| lia].
  intros Heq. apply Hy. rewrite <- Heq.
  apply (list_elem_of_fmap_2 (λ p : string * dirent, st_mtime p.2)), Hz.
Qed.

Lemma filter_none {A} (P : A → Prop) `{∀ x, Decision (P x)} (l : list A) :
  Forall (λ x, ¬ P x) l → filter P l = [].
Proof.
  induction 1 as [| x l Hx _ IH]; [done |].
  by rewrite filter_cons_False.
Qed.

(** In a strictly sorted listing the folders newer than the one at
    index [i] are those in front of it. *)
Lemma newer_is_prefix l : ∀ i x,
  StronglySorted newer l →
  l !! i = Some x →
  filter (λ p, st_mtime x.2 < st_mtime p.2) l = take i l.
Proof.
  induction l as [| y l IH]; intros i x Hs Hi; [done |].
  apply StronglySorted_inv in Hs as [Hs Hall].
  rewrite Forall_forall in Hall.
  destruct i as [| i]; simpl in Hi.
  - injection Hi as ->. rewrite filter_cons_False by lia.
    simpl. apply filter_none, Forall_forall.
    intros z Hz. specialize (Hall z Hz). unfold newer in Hall. lia.
  - assert (newer y x) as Hyx.
    { apply Hall. by eapply list_elem_of_lookup_2. }
    rewrite filter_cons_True by exact Hyx.
    simpl. f_equal. by apply IH.
Qed.

Lemma folders_of_spec d p :
  p ∈ folders_of d ↔ d !! p.1 = Some p.2 ∧ is_dir p.2 = true.
Proof.
  unfold folders_of. rewrite list_elem_of_filter.
  destruct p as [name e]. rewrite elem_of_map_to_list. simpl. tauto.
Qed.

(** The position of a folder in the sorted listing is the number of
    folders newer than it. *)
Lemma sorted_index_newer_count d i p :
  Spec.distinct_mtimes d →
  sort_desc (folders_of d) !! i = Some p →
  Spec.newer_count d (st_mtime p.2) = Z.of_nat i.
Proof.
  intros Hnd Hi. unfold Spec.newer_count.
  rewrite <- (sort_desc_perm (folders_of d)).
  rewrite (newer_is_prefix _ i p); [| | exact Hi].
  - rewrite length_take. apply lookup_lt_Some in Hi. lia.
  - apply sorted_strict; [apply sort_desc_sorted |].
    unfold Spec.distinct_mtimes in Hnd. by rewrite sort_desc_perm.
Qed.

(** The folders the loop visits are the stale ones. *)
Lemma prune_targets_spec keep d p :
  0 ≤ keep →
  Spec.distinct_mtimes d →
  p ∈ prune_targets keep d ↔ d !! p.1 = Some p.2 ∧ Spec.stale keep d p.2.
Proof.
  intros Hkeep Hnd. unfold prune_targets, slice_from, Spec.stale.
  rewrite (proj2 (Z.leb_le 0 keep) Hkeep). split.
  - intros Hp. apply list_elem_of_lookup in Hp as [j Hj].
    rewrite lookup_drop in Hj.
    assert (p ∈ folders_of d) as Hin.
    { rewrite <- (sort_desc_perm (folders_of d)).
      by eapply list_elem_of_lookup_2. }
    apply folders_of_spec in Hin as [Hl Hd].
    rewrite (sorted_index_newer_count d _ p Hnd Hj). split_and!; [done.. |].
    lia.
  - intros (Hl & Hd & Hn).
    assert (p ∈ sort_desc (folders_of d)) as Hin.
    { rewrite sort_desc_perm. by apply folders_of_spec. }
    apply list_elem_of_lookup in Hin as [i Hi].
    rewrite (sorted_index_newer_count d i p Hnd Hi) in Hn.
    apply list_elem_of_lookup. exists (i - Z.to_nat keep)%nat.
    rewrite lookup_drop. rewrite <- Hi. f_equal. lia.
Qed.

Lemma pruned_dir_lookup env ps : ∀ d name,
  pruned_dir env ps d !! name =
    if decide (rmtree_error env name = None ∧ name ∈ ps.*1) then None
    else d !! name.
Proof.
  unfold pruned_dir.
  induction ps as [| p ps IH]; intros d name; cbn [foldl].
  - rewrite decide_False; [done |]. intros [_ H]. by apply elem_of_nil in H.
  - rewrite IH, fmap_cons.
    destruct (decide (rmtree_error env name = None ∧ name ∈ ps.*1))
      as [[Herr Hin] | Hn].
    + rewrite decide_True; [done |]. split; [done | by right].
    + destruct (decide (name = p.1)) as [-> | Hne].
      * destruct (rmtree_error env p.1) as [e |] eqn:Herr.
        -- rewrite decide_False; [done |]. intros [H _]. discriminate.
        -- rewrite decide_True; [| split; [done | by left]].
           by rewrite lookup_delete_eq.
      * rewrite decide_False.
        -- destruct (rmtree_error env p.1); [done |].
           by rewrite lookup_delete_ne.
        -- intros [Herr Hin]. apply Hn. split; [done |].
           apply elem_of_cons in Hin as [? | ?]; [done | done].
Qed.

Lemma prune_loop_spec env ps : ∀ w d,
  MODELS_DIR w = Some d →
  prune_loop env ps w =
    (Ok (),
     {| FEEDBACK := FEEDBACK w; STATE := STATE w;
        MODELS_DIR := Some (pruned_dir env ps d);
        stdout := stdout w ++ pruned_log env ps |}).
Proof.
  induction ps as [| p ps IH]; intros w d Hd.
  - destruct w as [f s m o]. simpl in *. subst m.
    unfold mret, M_ret. by rewrite app_nil_r.
  - cbn [prune_loop]. unfold mbind, M_bind, prune_one.
    destruct (rmtree_error env p.1) as [e |] eqn:Herr.
    + unfold print. cbn [fst snd].
      erewrite IH by (simpl; exact Hd). simpl.
      rewrite Herr. by rewrite <- app_assoc.
    + unfold get_world, set_models, print, mbind, M_bind.
      erewrite IH by (simpl; reflexivity). simpl.
      rewrite Herr, Hd. simpl. by rewrite <- app_assoc.
Qed.

Lemma prune_old_models_spec env keep w d :
  MODELS_DIR w = Some d →
  prune_old_models env keep w =
    (Ok (),
     {| FEEDBACK := FEEDBACK w; STATE := STATE w;
        MODELS_DIR := Some (pruned_dir env (prune_targets keep d) d);
        stdout := stdout w ++ pruned_log env (prune_targets keep d) |}).
Proof.
  intros Hd. unfold prune_old_models, mbind, M_bind, get_world.
  rewrite Hd. by apply prune_loop_spec.
Qed.

(** C7: with distinct modification times, pruning removes exactly the
    folders that have at least [keep] newer folders (the claim has
    keep = KEEP_LAST = 5), except those whose removal fails; a failed
    removal is printed and the loop goes on, and the call never raises.
    Files that are not folders and the newest [keep] folders stay. *)
Theorem prune_keeps_newest env keep w d :
  MODELS_DIR w = Some d →
  0 ≤ keep →
  Spec.distinct_mtimes d →
  let r := prune_old_models env keep w in
  r.1 = Ok () ∧
  (∃ d',
      MODELS_DIR r.2 = Some d' ∧
      (∀ name,
          d' !! name =
            match d !! name with
            | Some e =>
                if decide (Spec.stale keep d e ∧ rmtree_error env name = None)
                then None else Some e
            | None => None
            end)) ∧
  (∀ name e err,
      d !! name = Some e → Spec.stale keep d e →
      rmtree_error env name = Some err →
      PrintFailedToPrune name err ∈ stdout r.2) ∧
  (∀ name e,
      d !! name = Some e → Spec.stale keep d e →
      rmtree_error env name = None →
      PrintPruned name ∈ stdout r.2) ∧
  STATE r.2 = STATE w ∧ FEEDBACK r.2 = FEEDBACK w.
Proof.
  intros Hd Hkeep Hnd r. subst r.
  rewrite (prune_old_models_spec env keep w d Hd). cbn [fst snd].
  assert (Htargets : ∀ name,
             name ∈ (prune_targets keep d).*1 ↔
             ∃ e, d !! name = Some e ∧ Spec.stale keep d e).
  { intros name. rewrite list_elem_of_fmap. split.
    - intros ([n e] & -> & Hp).
      apply prune_targets_spec in Hp as [Hl Hs]; [| done..]. by exists e.
    - intros (e & Hl & Hs). exists (name, e). split; [done |].
      by apply prune_targets_spec. }
  split_and!; [done | | | | done | done].
  - eexists. split; [reflexivity |]. intros name.
    rewrite pruned_dir_lookup.
    destruct (d !! name) as [e |] eqn:Hl.
    + destruct (decide (Spec.stale keep d e ∧ rmtree_error env name = None))
        as [[Hs Herr] | Hn].
      * rewrite decide_True; [done |]. split; [done |].
        apply Htargets. by exists e.
      * rewrite decide_False; [done |]. intros [Herr Hin].
        apply Htargets in Hin as (e' & He' & Hs).
        rewrite Hl in He'. injection He' as <-. by apply Hn.
    + by case_decide.
  - intros name e err Hl Hs Herr. apply elem_of_app. right.
    unfold pruned_log. apply list_elem_of_fmap.
    exists (name, e). simpl. rewrite Herr. split; [done |].
    by apply prune_targets_spec.
  - intros name e Hl Hs Herr. apply elem_of_app. right.
    unfold pruned_log. apply list_elem_of_fmap.
    exists (name, e). simpl. rewrite Herr. split; [done |].
    by apply prune_targets_spec.
Qed.

End Pruning.

(** ** The lines of the feedback log *)

Section Lines.
Import Log.
Context (dumps : record → string).

Lemma string_app_assoc (a b c : string) : (a +:+ b) +:+ c = a +:+ (b +:+ c).
Proof.
  induction a as [| x a IH]; [reflexivity |].
  change (String x ((a +:+ b) +:+ c) = String x (a +:+ (b +:+ c))).
  by rewrite IH.
Qed.

Lemma string_app_nil_r (s : string) : s +:+ "" = s.
Proof.
  induction s as [| c s IH]; [done |].
  change (String c (s +:+ "") = String c s). by rewrite IH.
Qed.

Lemma lines_go_cons c s : lines_go false (String c s) ≠ [].
Proof.
  cbn [lines_go andb]. destruct (is_linebreak c); [done |].
  by destruct (lines_go false s).
Qed.

(** A line feed ends a piece: the text after it is split on its own. *)
Lemma lines_go_app_newline a : ∀ cr b,
  lines_go cr (a +:+ String newline b)
  = lines_go cr (a +:+ String newline "") ++ splitlines b.
Proof.
  induction a as [| c a IH]; intros cr b.
  - change ("" +:+ String newline b) with (String newline b).
    change ("" +:+ String newline "") with (String newline "").
    cbn [lines_go]. change (Ascii.eqb newline newline) with true.
    change (is_linebreak newline) with true.
    change (Ascii.eqb newline carriage_return) with false.
    by destruct cr.
  - change (String c a +:+ String newline b)
      with (String c (a +:+ String newline b)).
    change (String c a +:+ String newline "")
      with (String c (a +:+ String newline "")).
    cbn [lines_go].
    destruct (cr && Ascii.eqb c newline); [apply IH |].
    destruct (is_linebreak c).
    + by rewrite IH.
    + rewrite IH.
      destruct (lines_go false (a +:+ String newline "")) as [| p ps] eqn:Hl;
        [| done].
      exfalso. destruct a as [| x a]; by apply lines_go_cons in Hl.
Qed.

Lemma read_text_app l1 l2 :
  read_text dumps (l1 ++ l2) = read_text dumps l1 +:+ read_text dumps l2.
Proof.
  induction l1 as [| l l1 IH]; [done |].
  cbn [app read_text foldr]. fold (read_text dumps (l1 ++ l2)).
  fold (read_text dumps l1). rewrite IH, string_app_assoc. reflexivity.
Qed.

Lemma text_lines_cons l ls :
  text_lines dumps (l :: ls)
  = splitlines (render dumps l +:+ String newline "") ++ text_lines dumps ls.
Proof.
  unfold text_lines, splitlines. cbn [read_text foldr].
  apply lines_go_app_newline.
Qed.

Lemma text_lines_app l1 l2 :
  text_lines dumps (l1 ++ l2) = text_lines dumps l1 ++ text_lines dumps l2.
Proof.
  induction l1 as [| l l1 IH]; [done |].
  cbn [app]. by rewrite !text_lines_cons, IH, app_assoc.
Qed.

(** A text without line breaks, followed by its line feed, is one piece. *)
Lemma splitlines_unbroken s :
  Spec.unbroken s = true → splitlines (s +:+ String newline "") = [s].
Proof.
  unfold splitlines. induction s as [| c s IH]; [done |].
  change (String c s +:+ String newline "")
    with (String c (s +:+ String newline "")).
  cbn [Spec.unbroken lines_go andb]. intros [Hc Hs]%andb_prop.
  apply negb_true_iff in Hc. rewrite Hc, IH by done. reflexivity.
Qed.

Lemma text_lines_one_piece ls :
  Forall (Spec.one_piece dumps) ls → text_lines dumps ls = render dumps <$> ls.
Proof.
  induction 1 as [| l ls [Hl _] _ IH]; [done |].
  by rewrite text_lines_cons, splitlines_unbroken, IH.
Qed.

Lemma read_count_nonneg f : 0 ≤ Autotrain.read_count dumps f.
Proof. destruct f; simpl; lia. Qed.

Lemma read_count_app l1 l2 :
  Autotrain.read_count dumps (Some (l1 ++ l2))
  = Autotrain.read_count dumps (Some l1) + Autotrain.read_count dumps (Some l2).
Proof.
  unfold Autotrain.read_count.
  rewrite text_lines_app, filter_app, length_app. lia.
Qed.

Lemma read_count_appended f1 f2 :
  Spec.appended f1 f2 →
  Autotrain.read_count dumps f1 ≤ Autotrain.read_count dumps f2.
Proof.
  destruct f1 as [l1 |], f2 as [l2 |]; try done.
  - intros [k ->]. rewrite read_count_app.
    pose proof (read_count_nonneg (Some k)). lia.
  - intros _. apply (read_count_nonneg (Some l2)).
Qed.

(** On a log whose lines are single pieces the job counts what the API
    counts. *)
Lemma read_count_one_piece ls :
  Forall (Spec.one_piece dumps) ls →
  Autotrain.read_count dumps (Some ls) = count_nonblank ls.
Proof.
  intros Hall. unfold Autotrain.read_count, count_nonblank.
  rewrite text_lines_one_piece by done. f_equal.
  induction Hall as [| l ls [_ Hb] _ IH]; [done |].
  cbn [fmap list_fmap].
  destruct (blank l) eqn:Hbl.
  - symmetry in Hb. apply negb_true_iff in Hb.
    rewrite filter_cons_False by (rewrite Hb; simpl; tauto).
    rewrite filter_cons_False by (rewrite Hbl; simpl; tauto). exact IH.
  - symmetry in Hb. apply negb_false_iff in Hb.
    rewrite filter_cons_True by (rewrite Hb; simpl; tauto).
    rewrite filter_cons_True by (rewrite Hbl; simpl; tauto).
    simpl. by rewrite IH.
Qed.

End Lines.

(** ** The retraining job *)

Section Job.
Import Autotrain Outcome.
Context (dumps : Log.record → string).

Lemma printed_nil w : printed w [] = w.
Proof. destruct w. unfold printed. simpl. by rewrite app_nil_r. Qed.

Lemma print_spec e w : print e w = (Ok (), printed w [e]).
Proof. reflexivity. Qed.

Lemma reload_api_spec env path w :
  reload_api env path w = (Ok (), printed w [reload_log env]).
Proof.
  unfold reload_api, reload_log.
  destruct (reload_http env) as [e | status body]; [done |].
  destruct ((400 <=? status) && (status <? 600)); [done |].
  by destruct body.
Qed.

Lemma prune_old_models_total env keep w :
  prune_old_models env keep w =
    (Ok (),
     {| FEEDBACK := FEEDBACK w; STATE := STATE w;
        MODELS_DIR :=
          (λ d, pruned_dir env (prune_targets keep d) d) <$> MODELS_DIR w;
        stdout :=
          stdout w ++ from_option
                        (λ d, pruned_log env (prune_targets keep d)) []
                        (MODELS_DIR w) |}).
Proof.
  destruct (MODELS_DIR w) as [d |] eqn:Hd.
  - by rewrite (prune_old_models_spec env keep w d Hd).
  - unfold prune_old_models, mbind, M_bind, get_world. rewrite Hd.
    destruct w. simpl in *. subst. unfold mret, M_ret.
    by rewrite app_nil_r.
Qed.

(** Run the next statements of the job symbolically. *)
Ltac job_step :=
  simpl; unfold mbind, M_bind, mret, M_ret, get_world, raise;
  rewrite ?print_spec; unfold printed; simpl.

Ltac job_done := rewrite <- ?app_assoc; reflexivity.

(** The state does not load: the run raises before anything happens. *)
Lemma main_bad_state pol env w e :
  subscripts (load_state (STATE w)) = Raise e →
  main dumps pol env w = (Raise e, w).
Proof.
  intros H. unfold main. job_step. by rewrite H.
Qed.

(** The scheduler does not fire: two lines are printed. *)
Lemma main_skips pol env w st c t :
  subscripts (load_state (STATE w)) = Ok (st, c, t) →
  should_train pol (now_decide env) (read_count dumps (FEEDBACK w)) st = false →
  main dumps pol env w =
    (Ok (), printed w [PrintTotals (read_count dumps (FEEDBACK w)) c t;
                       PrintSkipping]).
Proof.
  intros H Hs. unfold main. job_step. rewrite H. job_step.
  rewrite Hs. job_step. job_done.
Qed.

(** The subprocess raises. *)
Lemma main_train_raises pol env w st c t e :
  subscripts (load_state (STATE w)) = Ok (st, c, t) →
  should_train pol (now_decide env) (read_count dumps (FEEDBACK w)) st = true →
  train_proc env = Raise e →
  main dumps pol env w =
    (Raise e, printed w [PrintTotals (read_count dumps (FEEDBACK w)) c t]).
Proof.
  intros H Hs Ht. unfold main. job_step. rewrite H. job_step.
  rewrite Hs. job_step. unfold run_train, subprocess_run. rewrite Ht.
  job_step. job_done.
Qed.

(** The output has no marker: the folder of the trainer stays. *)
Lemma main_train_unparsed pol env w st c t out :
  subscripts (load_state (STATE w)) = Ok (st, c, t) →
  should_train pol (now_decide env) (read_count dumps (FEEDBACK w)) st = true →
  train_proc env = Ok out →
  re_search out = None →
  main dumps pol env w =
    (Raise (RuntimeError
              "Could not find 'Saved new model to:' line in train output."),
     printed (trained env w)
       [PrintTotals (read_count dumps (FEEDBACK w)) c t;
        PrintTrainOutput out]).
Proof.
  intros H Hs Ht Hr. unfold main. job_step. rewrite H. job_step.
  rewrite Hs. job_step. unfold run_train, subprocess_run. rewrite Ht.
  job_step. rewrite Hr. job_step. job_done.
Qed.

(** The marker is found: the run goes to its end. *)
Lemma main_promotes pol env w st c t out g :
  subscripts (load_state (STATE w)) = Ok (st, c, t) →
  should_train pol (now_decide env) (read_count dumps (FEEDBACK w)) st = true →
  train_proc env = Ok out →
  re_search out = Some g →
  main dumps pol env w = (Ok (), promoted dumps pol env w c t out (strip g)).
Proof.
  intros H Hs Ht Hr. unfold main. job_step. rewrite H. job_step.
  rewrite Hs. job_step. unfold run_train, subprocess_run. rewrite Ht.
  job_step. rewrite Hr. job_step.
  rewrite reload_api_spec. job_step.
  rewrite prune_old_models_total. job_step.
  unfold save_state, write_state, promoted. job_step. job_done.
Qed.

(** The cases of a run. *)
Lemma main_cases pol env w :
  (∃ e, subscripts (load_state (STATE w)) = Raise e ∧
        main dumps pol env w = (Raise e, w)) ∨
  (∃ st c t,
      subscripts (load_state (STATE w)) = Ok (st, c, t) ∧
      let total := read_count dumps (FEEDBACK w) in
      (should_train pol (now_decide env) total st = false ∧
       main dumps pol env w
       = (Ok (), printed w [PrintTotals total c t; PrintSkipping])) ∨
      (should_train pol (now_decide env) total st = true ∧
       ((∃ e, train_proc env = Raise e ∧
              main dumps pol env w
              = (Raise e, printed w [PrintTotals total c t])) ∨
        (∃ out, train_proc env = Ok out ∧ re_search out = None ∧
                ∃ e, main dumps pol env w
                     = (Raise e, printed (trained env w)
                                   [PrintTotals total c t;
                                    PrintTrainOutput out])) ∨
        (∃ out g, train_proc env = Ok out ∧ re_search out = Some g ∧
                  main dumps pol env w
                  = (Ok (), promoted dumps pol env w c t out (strip g)))))).
Proof.
  destruct (subscripts (load_state (STATE w))) as [[[st c] t] | e] eqn:H.
  2: { left. exists e. split; [done |]. by apply main_bad_state. }
  right. exists st, c, t. split; [done |]. intros total. subst total.
  destruct (should_train pol (now_decide env)
              (read_count dumps (FEEDBACK w)) st) eqn:Hs.
  2: { left. split; [done |]. by apply main_skips with st. }
  right. split; [done |].
  destruct (train_proc env) as [out | e] eqn:Ht.
  2: { left. exists e. split; [done |]. by apply main_train_raises with st. }
  right. destruct (re_search out) as [g |] eqn:Hr.
  - right. exists out, g. split_and!; [done.. |].
    by apply main_promotes with st.
  - left. exists out. split_and!; [done.. |]. eexists.
    by apply main_train_unparsed with st.
Qed.

(** C2: when the fine-tuning step fails (the subprocess raises, or its
    output has no parseable success marker) a run that reached the step
    ends with an exception, and the run leaves the persisted state and
    the feedback log exactly as they were: the state file is not written.
    Nothing is pruned either: the model folders are as before, or as the
    trainer left them when it had made its output folder before it
    failed. *)
Theorem failed_training_keeps_state pol env w :
  Spec.training_fails env →
  let r := main dumps pol env w in
  STATE r.2 = STATE w ∧
  FEEDBACK r.2 = FEEDBACK w ∧
  (Spec.reaches_training dumps pol env w → ∃ e, r.1 = Raise e) ∧
  (MODELS_DIR r.2 = MODELS_DIR w ∨
   MODELS_DIR r.2 = trained_models env (MODELS_DIR w)).
Proof.
  intros Hfail r. subst r. unfold Spec.training_fails in Hfail.
  destruct (main_cases pol env w)
    as [(e & Hsub & ->)
       | (st & c & t & Hsub &
          [[Hs ->]
          | [Hs [(e & Ht & ->)
                | [(out & Ht & Hr & e & ->)
                  | (out & g & Ht & Hr & _)]]]])].
  - split_and!; [done | done | | by left].
    intros (st & c & t & Hsub' & _). congruence.
  - split_and!; [done | done | | by left].
    intros (st' & c' & t' & Hsub' & Hs').
    rewrite Hsub in Hsub'. injection Hsub' as <- <- <-. congruence.
  - split_and!; [done | done | | by left]. intros _. by exists e.
  - split_and!; [done | done | | by right]. intros _. by exists e.
  - rewrite Ht in Hfail. congruence.
Qed.

(** C6: when the fine-tuning step succeeds and the reload call fails (no
    connection, or an error status), the failure is printed as a warning
    and the run returns normally; the folders, the new one of the trainer
    among them, are pruned as by [prune_old_models], and the state is
    replaced by the feedback count read at the start, the time of the
    update and the path of the new model. *)
Theorem reload_failure_still_concludes pol env w out g :
  Spec.reaches_training dumps pol env w →
  train_proc env = Ok out →
  re_search out = Some g →
  Spec.reload_fails env →
  let r := main dumps pol env w in
  r.1 = Ok () ∧
  (∃ e, PrintReloadWarning e ∈ stdout r.2) ∧
  (∀ body, PrintReloadOK body ∉ drop (length (stdout w)) (stdout r.2)) ∧
  MODELS_DIR r.2
  = MODELS_DIR (prune_old_models env (KEEP_LAST pol) (trained env w)).2 ∧
  (∀ d, trained_models env (MODELS_DIR w) = Some d →
        pruned_log env (prune_targets (KEEP_LAST pol) d) ⊆ stdout r.2) ∧
  STATE r.2
  = Some (Dict {| last_count := Some (read_count dumps (FEEDBACK w));
                  last_time := Some (now_persist env);
                  last_model := Some (strip g) |}).
Proof.
  intros (st & c & t & Hsub & Hs) Ht Hr Hfail r. subst r.
  rewrite (main_promotes pol env w st c t out g Hsub Hs Ht Hr).
  rewrite prune_old_models_total. cbn [fst snd].
  assert (∃ e, reload_log env = PrintReloadWarning e) as [e He].
  { unfold Spec.reload_fails in Hfail. unfold reload_log.
    destruct (reload_http env) as [e | status body]; [by exists e |].
    rewrite (proj2 (Z.leb_le 400 status)) by lia.
    rewrite (proj2 (Z.ltb_lt status 600)) by lia. by eexists. }
  unfold promoted, trained. cbn [stdout MODELS_DIR STATE].
  split_and!; [done | | | done | | done].
  - exists e. rewrite He. set_solver.
  - intros body. rewrite drop_app_length, He.
    rewrite !elem_of_app, !elem_of_cons, elem_of_nil.
    intros [[Hx | [Hx | [Hx | []]]] | [Hin | [Hx | []]]]; try discriminate Hx.
    destruct (trained_models env (MODELS_DIR w)) as [d |]; simpl in Hin.
    + unfold pruned_log in Hin. apply list_elem_of_fmap in Hin as (p & Hp & _).
      by destruct (rmtree_error env p.1).
    + by apply elem_of_nil in Hin.
  - intros d Hd x Hx. rewrite Hd. cbn [from_option].
    rewrite !elem_of_app. right. right. left. exact Hx.
Qed.

Lemma succeeded_inv pol env w path :
  Spec.succeeded (main dumps pol env w) path →
  ∃ c t out g,
    path = strip g ∧
    main dumps pol env w = (Ok (), promoted dumps pol env w c t out path).
Proof.
  intros [Hok Hlast].
  destruct (main_cases pol env w)
    as [(e & Hsub & Hm)
       | (st & c & t & Hsub &
          [[Hs Hm]
          | [Hs [(e & Ht & Hm)
                | [(out & Ht & Hr & e & Hm)
                  | (out & g & Ht & Hr & Hm)]]]])];
    rewrite Hm in Hok, Hlast; cbn [fst snd] in Hok, Hlast;
    try discriminate Hok.
  - unfold printed in Hlast. cbn [stdout] in Hlast.
    change [PrintTotals (read_count dumps (FEEDBACK w)) c t; PrintSkipping]
      with ([PrintTotals (read_count dumps (FEEDBACK w)) c t]
              ++ [PrintSkipping]) in Hlast.
    rewrite app_assoc, last_snoc in Hlast. discriminate.
  - unfold promoted in Hlast. cbn [stdout] in Hlast.
    rewrite !app_assoc, last_snoc in Hlast. injection Hlast as <-.
    exists c, t, out, g. by rewrite Hm.
Qed.

(** C8: a successful run persists, as last feedback count, the count it
    read from the log when it started: the number of pieces of the text
    of the log, split as [splitlines] does, that are not blank. That
    number is never negative; it is 0 for a missing log; and on a log in
    which no line holds a line break inside (no stored url or text with
    U+0085) it is the number of non-blank lines, the count of the API.
    Of two successful runs the later one, started on a log that only
    grew, persists a count at least as large. *)
Theorem successful_run_records_count :
  (∀ pol env w path,
      Spec.succeeded (main dumps pol env w) path →
      ∃ s total,
        STATE (main dumps pol env w).2 = Some (Dict s) ∧
        last_count s = Some total ∧
        total = read_count dumps (FEEDBACK w) ∧
        0 ≤ total ∧
        (FEEDBACK w = None → total = 0) ∧
        (∀ ls, FEEDBACK w = Some ls →
               total = Z.of_nat (length (filter (λ l, truthy (strip l))
                                           (Log.text_lines dumps ls))) ∧
               (Forall (Spec.one_piece dumps) ls →
                total = Log.count_nonblank ls))) ∧
  (∀ pol1 env1 w1 path1 pol2 env2 w2 path2,
      Spec.succeeded (main dumps pol1 env1 w1) path1 →
      Spec.succeeded (main dumps pol2 env2 w2) path2 →
      Spec.appended (FEEDBACK w1) (FEEDBACK w2) →
      ∃ s1 s2 c1 c2,
        STATE (main dumps pol1 env1 w1).2 = Some (Dict s1) ∧
        STATE (main dumps pol2 env2 w2).2 = Some (Dict s2) ∧
        last_count s1 = Some c1 ∧ last_count s2 = Some c2 ∧ c1 ≤ c2).
Proof.
  split.
  - intros pol env w path Hok.
    apply succeeded_inv in Hok as (c & t & out & g & _ & ->).
    eexists _, _. split_and!; [reflexivity | reflexivity | reflexivity | | |].
    + apply read_count_nonneg.
    + by intros ->.
    + intros ls ->. split; [reflexivity |]. apply read_count_one_piece.
  - intros pol1 env1 w1 path1 pol2 env2 w2 path2 H1 H2 Happ.
    apply succeeded_inv in H1 as (c1 & t1 & out1 & g1 & _ & ->).
    apply succeeded_inv in H2 as (c2 & t2 & out2 & g2 & _ & ->).
    do 4 eexists. split_and!; [reflexivity.. |].
    by apply read_count_appended.
Qed.

End Job.

(** ** The train/validation split *)

Section Split.
Import Train Range.
Context (shuffle : Z → list training_row → list training_row).

(** *** Rounding in binary64: the product [0.1 * n] *)

Lemma digits2_pos_gt p : Z.pos p < 2 ^ Z.pos (digits2_pos p).
Proof.
  induction p as [p IH | p IH |]; cbn [digits2_pos]; [| | done];
    rewrite Pos2Z.inj_succ, Z.pow_succ_r by lia; lia.
Qed.

Lemma digits2_pos_le p : ∀ D, Z.pos p < 2 ^ D → Z.pos (digits2_pos p) ≤ D.
Proof.
  induction p as [p IH | p IH |]; intros D HD; cbn [digits2_pos].
  1,2: assert (0 < D) by
         (destruct (decide (0 < D)); [done |];
          assert (2 ^ D ≤ 1) by
            (destruct (decide (D = 0)) as [-> | ?];
             [done | rewrite Z.pow_neg_r by lia; lia]); lia);
       replace D with (Z.succ (D - 1)) in HD by lia;
       rewrite Z.pow_succ_r in HD by lia;
       rewrite Pos2Z.inj_succ; specialize (IH (D - 1)); lia.
  destruct (decide (1 ≤ D)); [done |].
  assert (2 ^ D ≤ 1); [| lia].
  destruct (decide (D = 0)) as [-> | ?]; [done |].
  rewrite Z.pow_neg_r by lia; lia.
Qed.

Lemma Zdigits2_le m D : 0 ≤ D → 0 ≤ m < 2 ^ D → Zdigits2 m ≤ D.
Proof.
  intros HD [Hm Hlt]. destruct m as [| p | p]; [done | | lia].
  by apply digits2_pos_le.
Qed.

Lemma shr_1_bound mrs :
  0 ≤ shr_m mrs → 0 ≤ shr_m (shr_1 mrs) ≤ shr_m mrs.
Proof.
  destruct mrs as [m r s]. cbn [shr_m]. intros Hm.
  destruct m as [| [p | p |] | p]; cbn [shr_1 shr_m]; lia.
Qed.

Lemma iter_shr_1_bound p : ∀ mrs,
  0 ≤ shr_m mrs → 0 ≤ shr_m (SpecFloat.iter_pos shr_1 p mrs) ≤ shr_m mrs.
Proof.
  induction p as [p IH | p IH |]; intros mrs Hm; cbn [SpecFloat.iter_pos].
  - pose proof (shr_1_bound mrs Hm) as H1.
    pose proof (IH (shr_1 mrs) (proj1 H1)) as H2.
    pose proof (IH _ (proj1 H2)) as H3. lia.
  - pose proof (IH mrs Hm) as H2.
    pose proof (IH _ (proj1 H2)) as H3. lia.
  - by apply shr_1_bound.
Qed.

Lemma fexp_mono a b : a ≤ b → fexp prec emax a ≤ fexp prec emax b.
Proof. unfold fexp. lia. Qed.

Lemma shr_fexp_bound m e l D E :
  0 ≤ D → 0 ≤ m < 2 ^ D → e ≤ E →
  0 ≤ shr_m (shr_fexp prec emax m e l).1 ≤ m ∧
  (shr_fexp prec emax m e l).2 ≤ Z.max E (fexp prec emax (D + E)).
Proof.
  intros HD Hm He. unfold shr_fexp, shr.
  pose proof (Zdigits2_le m D HD Hm) as Hd.
  pose proof (fexp_mono (Zdigits2 m + e) (D + E) ltac:(lia)) as Hf.
  assert (shr_m (shr_record_of_loc m l) = m) as Hrec.
  { by destruct l as [| []]. }
  destruct (fexp prec emax (Zdigits2 m + e) - e) as [| p | p] eqn:Hn;
    cbn [fst snd]; rewrite ?Hrec; try lia.
  pose proof (iter_shr_1_bound p (shr_record_of_loc m l)) as Hb.
  rewrite Hrec in Hb. lia.
Qed.

Lemma round_nearest_even_bound m l :
  m ≤ round_nearest_even m l ≤ m + 1.
Proof.
  destruct l as [| []]; cbn [round_nearest_even]; try lia.
  destruct (Z.even m); lia.
Qed.

(** Rounding a non-negative mantissa below [2 ^ D] at an exponent of at most
    [E] gives a zero or a finite number when the exponents stay small. *)
Lemma binary_round_aux_finite sx mx ex lx D E :
  0 ≤ D → 0 ≤ mx < 2 ^ D → ex ≤ E →
  let e1 := Z.max E (fexp prec emax (D + E)) in
  let e2 := Z.max e1 (fexp prec emax (D + 1 + e1)) in
  e2 ≤ emax - prec →
  binary_round_aux prec emax sx mx ex lx = S754_zero sx ∨
  ∃ m e, binary_round_aux prec emax sx mx ex lx = S754_finite sx m e ∧
         Z.pos m < 2 ^ (D + 1) ∧ e ≤ e2.
Proof.
  intros HD Hm He e1 e2 Hfin. unfold binary_round_aux.
  pose proof (shr_fexp_bound mx ex lx D E HD Hm He) as [Hm1 He1].
  destruct (shr_fexp prec emax mx ex lx) as [mrs1 e'] eqn:H1.
  cbn [fst snd] in Hm1, He1. fold e1 in He1.
  pose proof (round_nearest_even_bound (shr_m mrs1) (loc_of_shr_record mrs1))
    as Hr.
  set (mr := round_nearest_even (shr_m mrs1) (loc_of_shr_record mrs1)) in *.
  assert (0 ≤ mr < 2 ^ (D + 1)) as Hmr.
  { rewrite Z.pow_add_r by lia. lia. }
  pose proof (shr_fexp_bound mr e' loc_Exact (D + 1) e1 ltac:(lia) Hmr He1)
    as [Hm2 He2].
  destruct (shr_fexp prec emax mr e' loc_Exact) as [mrs2 e''] eqn:H2.
  cbn [fst snd] in Hm2, He2. fold e2 in He2.
  destruct (shr_m mrs2) as [| m | m] eqn:Hm''; [by left | | lia].
  right. exists m, e''.
  rewrite (proj2 (Z.leb_le e'' (emax - prec))) by lia.
  split_and!; [done | lia | done].
Qed.

Lemma shift_pos_eq p d : Z.pos (Pos.iter xO p d) = Z.pos p * 2 ^ Z.pos d.
Proof.
  change (Pos.iter xO p d) with (shift_pos d p).
  rewrite shift_pos_correct. change (Z.pow_pos 2 d) with (2 ^ Z.pos d). lia.
Qed.

(** The float of a positive integer below [2 ^ 63]. *)
Lemma binary_normalize_pos p :
  Z.pos p < 2 ^ 63 →
  binary_normalize prec emax (Z.pos p) 0 false = S754_zero false ∨
  ∃ m e, binary_normalize prec emax (Z.pos p) 0 false = S754_finite false m e ∧
         Z.pos m < 2 ^ 64 ∧ e ≤ 21.
Proof.
  intros Hp. cbn [binary_normalize]. unfold binary_round.
  destruct (shl_align p 0 (fexp prec emax (Z.pos (digits2_pos p) + 0)))
    as [mz ez] eqn:Hal.
  assert (Z.pos mz < 2 ^ 63 ∧ ez ≤ 0) as [Hmz Hez].
  { revert Hal. unfold shl_align.
    destruct (fexp prec emax (Z.pos (digits2_pos p) + 0) - 0)
      as [| d | d] eqn:Hd; intros [= <- <-]; [lia | lia |].
    rewrite shift_pos_eq. pose proof (digits2_pos_gt p) as Hg.
    unfold fexp, prec, emax, emin in *.
    assert (2 ^ Z.pos (digits2_pos p) * 2 ^ Z.pos d ≤ 2 ^ 53) as Hle.
    { rewrite <- Z.pow_add_r by lia. apply Z.pow_le_mono_r; lia. }
    split; [| lia].
    assert (Z.pos p * 2 ^ Z.pos d < 2 ^ Z.pos (digits2_pos p) * 2 ^ Z.pos d)
      by (apply Z.mul_lt_mono_pos_r; [apply Z.pow_pos_nonneg |]; lia).
    assert (2 ^ 53 < 2 ^ 63) by done. lia. }
  apply (binary_round_aux_finite false (Z.pos mz) ez loc_Exact 63 0);
    [lia | lia | lia | done].
Qed.

(** [int(0.1 * n)] returns, for every length a list can have. *)
Lemma int_of_tenth n :
  0 ≤ n ≤ maxsize →
  ∃ f, int_of_float (0.1 * float_of_int n) = Ok f ∧ 0 ≤ f.
Proof.
  intros Hn. unfold int_of_float, float_of_int.
  rewrite mul_spec, of_uint63_spec, Uint63.of_Z_spec.
  rewrite Z.mod_small by (unfold maxsize in Hn; change wB with (2 ^ 63); lia).
  change (Prim2SF 0.1) with (S754_finite false 7205759403792794 (-56)).
  unfold SF64mul.
  destruct n as [| p | p]; [by exists 0 | | lia].
  destruct (binary_normalize_pos p) as [-> | (m & e & -> & Hm & He)];
    [unfold maxsize in Hn; lia | |].
  { by exists 0. }
  cbn [SFmul xorb].
  destruct (binary_round_aux_finite false
              (Z.pos (7205759403792794 * m)) (-56 + e) loc_Exact 117 (-35))
    as [-> | (m' & e' & -> & Hm' & He')]; [lia | | lia | done | |].
  - rewrite Pos2Z.inj_mul.
    assert (Z.pos 7205759403792794 * Z.pos m < 2 ^ 53 * 2 ^ 64); [| done].
    apply Z.mul_lt_mono_nonneg; lia.
  - by exists 0.
  - eexists. split; [reflexivity |].
    destruct (0 <=? e').
    + apply Z.mul_nonneg_nonneg; [lia | apply Z.pow_nonneg; lia].
    + apply Z_div_nonneg_nonneg; [lia | apply Z.pow_nonneg; lia].
Qed.



Lemma iter_pos_nat {A} (f : A → A) p : ∀ x,
  SpecFloat.iter_pos f p x = Nat.iter (Pos.to_nat p) f x.
Proof.
  induction p as [p IH | p IH |]; intros x; cbn [SpecFloat.iter_pos].
  - rewrite !IH, Pos2Nat.inj_xI.
    replace (S (2 * Pos.to_nat p)) with (Pos.to_nat p + (Pos.to_nat p + 1))%nat
      by lia.
    rewrite !Nat.iter_add. reflexivity.
  - rewrite !IH, Pos2Nat.inj_xO.
    replace (2 * Pos.to_nat p)%nat with (Pos.to_nat p + Pos.to_nat p)%nat
      by lia.
    rewrite Nat.iter_add. reflexivity.
  - reflexivity.
Qed.

Lemma shr_1_spec mrs :
  0 ≤ shr_m mrs →
  shr_m (shr_1 mrs) = shr_m mrs / 2 ∧ shr_r (shr_1 mrs) = Z.odd (shr_m mrs).
Proof.
  destruct mrs as [m r s]. cbn [shr_m]. intros Hm.
  destruct m as [| [p | p |] | p]; cbn [shr_1 shr_m shr_r]; try lia;
    split; try reflexivity.
  - rewrite Pos2Z.inj_xI. apply Z.div_unique with 1; lia.
  - rewrite Pos2Z.inj_xO. apply Z.div_unique with 0; lia.
Qed.

(** [j] shifts to the right: the quotient, and a round bit that is set
    only when the remainder is at least half. *)
Lemma shr_iter m j :
  0 ≤ m →
  shr_m (shifted m j) = m / 2 ^ Z.of_nat j ∧
  (shr_r (shifted m j) = true → 2 ^ (Z.of_nat j - 1) ≤ m mod 2 ^ Z.of_nat j).
Proof.
  intros Hm. induction j as [| j [IHm IHr]].
  - cbn. split; [by rewrite Z.div_1_r | done].
  - change (shifted m (S j)) with (shr_1 (shifted m j)).
    set (mrs := shifted m j) in *.
    assert (0 < 2 ^ Z.of_nat j) as Hpow by (apply Z.pow_pos_nonneg; lia).
    assert (0 ≤ shr_m mrs) as Hnn by (rewrite IHm; apply Z.div_pos; lia).
    destruct (shr_1_spec mrs Hnn) as [H1 H2].
    rewrite Nat2Z.inj_succ, Z.pow_succ_r by lia.
    split.
    + rewrite H1, IHm, Z.div_div by lia. f_equal. lia.
    + rewrite H2, IHm. intros Hodd.
      replace (Z.succ (Z.of_nat j) - 1) with (Z.of_nat j) by lia.
      rewrite (Z.mul_comm 2), Z.rem_mul_r by lia.
      apply Z.odd_spec in Hodd as [k Hk]. rewrite Hk.
      replace ((2 * k + 1) mod 2) with 1
        by (apply Z.mod_unique with k; lia).
      pose proof (Z.mod_pos_bound m (2 ^ Z.of_nat j) Hpow). lia.
Qed.



Lemma digits2_pos_lower p : 2 ^ (Z.pos (digits2_pos p) - 1) ≤ Z.pos p.
Proof.
  induction p as [p IH | p IH |]; cbn [digits2_pos]; [| | done];
    rewrite Pos2Z.inj_succ;
    replace (Z.succ (Z.pos (digits2_pos p)) - 1)
      with (Z.succ (Z.pos (digits2_pos p) - 1)) by lia;
    rewrite Z.pow_succ_r by lia; lia.
Qed.

Lemma digits2_pos_eq p k :
  2 ^ (k - 1) ≤ Z.pos p < 2 ^ k → Z.pos (digits2_pos p) = k.
Proof.
  intros [Hlo Hhi].
  pose proof (digits2_pos_le p k Hhi) as Hle.
  pose proof (digits2_pos_gt p) as Hgt.
  destruct (decide (Z.pos (digits2_pos p) = k)) as [| Hne]; [done |].
  exfalso.
  assert (2 ^ Z.pos (digits2_pos p) ≤ 2 ^ (k - 1))
    by (apply Z.pow_le_mono_r; lia).
  lia.
Qed.

(** A mantissa of 53 digits at an exponent in range is left as it is. *)
Lemma binary_round_aux_canonical m e :
  2 ^ 52 ≤ Z.pos m < 2 ^ 53 → -1074 ≤ e ≤ 971 →
  binary_round_aux prec emax false (Z.pos m) e loc_Exact
  = S754_finite false m e.
Proof.
  intros Hm He. unfold binary_round_aux, shr_fexp.
  cbn [Zdigits2]. rewrite (digits2_pos_eq m 53) by done.
  replace (fexp prec emax (53 + e) - e) with 0
    by (unfold fexp, prec, emax, emin; lia).
  cbn [shr shr_record_of_loc shr_m loc_of_shr_record round_nearest_even
       Zdigits2].
  rewrite (digits2_pos_eq m 53) by done.
  replace (fexp prec emax (53 + e) - e) with 0
    by (unfold fexp, prec, emax, emin; lia).
  cbn [shr shr_m shr_record_of_loc].
  by rewrite (proj2 (Z.leb_le e (emax - prec))) by (unfold emax, prec; lia).
Qed.

(** The float of a positive integer below [2 ^ 53] is the integer. *)
Lemma binary_normalize_exact p :
  Z.pos p < 2 ^ 53 →
  let d := Z.pos (digits2_pos p) in
  ∃ mz, binary_normalize prec emax (Z.pos p) 0 false
        = S754_finite false mz (d - 53) ∧
        Z.pos mz = Z.pos p * 2 ^ (53 - d) ∧
        2 ^ 52 ≤ Z.pos mz < 2 ^ 53 ∧ 1 ≤ d ≤ 53.
Proof.
  intros Hp d.
  pose proof (digits2_pos_le p 53 Hp) as Hd.
  pose proof (digits2_pos_gt p) as Hgt. fold d in Hd, Hgt.
  pose proof (digits2_pos_lower p) as Hlo. fold d in Hlo.
  assert (1 ≤ d) as Hd1 by (unfold d; lia).
  cbn [binary_normalize]. unfold binary_round, shl_align. fold d.
  replace (fexp prec emax (d + 0)) with (d - 53)
    by (unfold fexp, prec, emax, emin; lia).
  assert (2 ^ 52 ≤ Z.pos p * 2 ^ (53 - d) < 2 ^ 53) as Hmz.
  { assert (2 ^ 52 = 2 ^ (d - 1) * 2 ^ (53 - d)) as ->
      by (rewrite <- Z.pow_add_r by lia; f_equal; lia).
    assert (2 ^ 53 = 2 ^ d * 2 ^ (53 - d)) as ->
      by (rewrite <- Z.pow_add_r by lia; f_equal; lia).
    assert (0 < 2 ^ (53 - d)) by (apply Z.pow_pos_nonneg; lia).
    split; [apply Z.mul_le_mono_nonneg_r | apply Z.mul_lt_mono_pos_r]; lia. }
  destruct (d - 53 - 0) as [| k | k] eqn:Hk; [| lia |].
  - assert (d = 53) as Hd53 by lia. rewrite Hd53 in *.
    exists p. change (2 ^ (53 - 53)) with 1 in *. rewrite Z.mul_1_r in *.
    split; [| split_and!; try done; lia].
    replace (53 - 53) with 0 by done.
    apply binary_round_aux_canonical; lia.
  - exists (Pos.iter xO p k).
    assert (Z.pos (Pos.iter xO p k) = Z.pos p * 2 ^ (53 - d)) as Heq.
    { rewrite shift_pos_eq. do 2 f_equal. lia. }
    split; [| split_and!; try done; lia].
    apply binary_round_aux_canonical; lia.
Qed.



(** Rounding a mantissa of more than 53 digits: the quotient by the
    power of two that leaves 53 digits, or one more when the remainder is
    at least half; if that carries to [2 ^ 53], the exponent goes up. *)
Lemma binary_round_aux_round mx E D :
  54 ≤ D →
  2 ^ (D - 1) ≤ Z.pos mx < 2 ^ D →
  -1074 ≤ E + (D - 53) → E + (D - 53) + 1 ≤ 971 →
  let sh := D - 53 in
  ∃ m e mr,
    binary_round_aux prec emax false (Z.pos mx) E loc_Exact
    = S754_finite false m e ∧
    (mr = Z.pos mx / 2 ^ sh ∨
     (mr = Z.pos mx / 2 ^ sh + 1 ∧ 2 ^ (sh - 1) ≤ Z.pos mx mod 2 ^ sh)) ∧
    ((e = E + sh ∧ Z.pos m = mr) ∨ (e = E + sh + 1 ∧ 2 * Z.pos m = mr)).
Proof.
  intros HD Hmx Hlo Hhi sh.
  unfold binary_round_aux, shr_fexp. cbn [Zdigits2].
  rewrite (digits2_pos_eq mx D) by done.
  replace (fexp prec emax (D + E) - E) with sh
    by (unfold fexp, prec, emax, emin, sh; lia).
  destruct sh as [| shp | shp] eqn:Hsh; [unfold sh in *; lia | | unfold sh in *; lia].
  cbn [shr shr_record_of_loc]. rewrite iter_pos_nat.
  fold (shifted (Z.pos mx) (Pos.to_nat shp)).
  destruct (shr_iter (Z.pos mx) (Pos.to_nat shp)) as [Hq Hr]; [lia |].
  rewrite positive_nat_Z in Hq, Hr.
  set (mrs := shifted (Z.pos mx) (Pos.to_nat shp)) in *.
  set (q := Z.pos mx / 2 ^ Z.pos shp) in *.
  assert (2 ^ 52 ≤ q < 2 ^ 53) as Hqb.
  { unfold q. assert (0 < 2 ^ Z.pos shp) by (apply Z.pow_pos_nonneg; lia).
    assert (2 ^ (D - 1) = 2 ^ 52 * 2 ^ Z.pos shp) as Hl
      by (rewrite <- Z.pow_add_r by lia; f_equal; lia).
    assert (2 ^ D = 2 ^ 53 * 2 ^ Z.pos shp) as Hh
      by (rewrite <- Z.pow_add_r by lia; f_equal; lia).
    split.
    - apply Z.div_le_lower_bound; lia.
    - apply Z.div_lt_upper_bound; lia. }
  set (mr := round_nearest_even (shr_m mrs) (loc_of_shr_record mrs)).
  assert (mr = q ∨ (mr = q + 1 ∧ 2 ^ (Z.pos shp - 1) ≤ Z.pos mx mod 2 ^ Z.pos shp))
    as Hmr.
  { unfold mr. destruct mrs as [m r b]. cbn [shr_m shr_r] in *.
    destruct r, b; cbn [loc_of_shr_record round_nearest_even];
      [right | | left; done | left; done].
    - split; [lia | by apply Hr].
    - destruct (Z.even m); [by left | right]. split; [lia | by apply Hr]. }
  assert (2 ^ 52 ≤ mr ≤ 2 ^ 53) as Hmrb by lia.
  destruct (decide (mr = 2 ^ 53)) as [Hc | Hnc].
  - rewrite Hc. exists 4503599627370496%positive, (E + Z.pos shp + 1), mr.
    change (Zdigits2 (2 ^ 53)) with 54.
    replace (fexp prec emax (54 + (E + Z.pos shp)) - (E + Z.pos shp)) with 1
      by (unfold fexp, prec, emax, emin; lia).
    cbn [shr SpecFloat.iter_pos shr_record_of_loc].
    change (shr_m (shr_1 {| shr_m := 2 ^ 53; shr_r := false; shr_s := false |}))
      with (Z.pos 4503599627370496).
    cbv iota beta.
    rewrite (proj2 (Z.leb_le _ (emax - prec))) by (unfold emax, prec; lia).
    split_and!; [done | done |]. right. split; [done |]. rewrite Hc. done.
  - destruct mr as [| pm | pm] eqn:Hpm; [lia | | lia].
    exists pm, (E + Z.pos shp), (Z.pos pm).
    cbn [Zdigits2]. rewrite (digits2_pos_eq pm 53) by lia.
    replace (fexp prec emax (53 + (E + Z.pos shp)) - (E + Z.pos shp)) with 0
      by (unfold fexp, prec, emax, emin; lia).
    cbn [shr shr_m shr_record_of_loc].
    rewrite (proj2 (Z.leb_le _ (emax - prec))) by (unfold emax, prec; lia).
    split_and!; [done | done |]. by left.
Qed.



(** The arithmetic behind [int(0.1 * n)]: with [c] the mantissa of 0.1
    ([10 * c = 2 ^ 56 + 4]), the product [c * p * u] cut down to 53 digits
    and rounded, then cut down to an integer, is [p / 10]. *)
Lemma tenth_arith p u P q mr sh K :
  0 < p < 2 ^ 52 → 2 ≤ u →
  P = 7205759403792794 * p * u →
  (sh = 52 ∧ K = 16 ∨ sh = 53 ∧ K = 8) →
  q = P / 2 ^ sh →
  (mr = q ∨ (mr = q + 1 ∧ 2 ^ (sh - 1) ≤ P mod 2 ^ sh)) →
  mr / (K * u) = p / 10.
Proof.
  intros Hp Hu HP Hsh Hq Hmr.
  set (Q := p / 10).
  assert (10 * Q ≤ p < 10 * Q + 10) as HQ.
  { unfold Q. pose proof (Z.div_mod p 10 ltac:(lia)).
    pose proof (Z.mod_pos_bound p 10 ltac:(lia)). lia. }
  set (a := 7205759403792794 * p).
  assert (Q * 2 ^ 56 ≤ a ≤ (Q + 1) * 2 ^ 56 - 2 ^ 52) as Ha.
  { unfold a. change (2 ^ 56) with 72057594037927936.
    change (2 ^ 52) with 4503599627370496.
    change (2 ^ 52) with 4503599627370496 in Hp. lia. }
  assert (Q * 2 ^ 56 * u ≤ a * u) as Hlo
    by (apply Z.mul_le_mono_nonneg_r; lia).
  assert (a * u ≤ ((Q + 1) * 2 ^ 56 - 2 ^ 52) * u) as Hhi
    by (apply Z.mul_le_mono_nonneg_r; lia).
  assert (P = a * u) as HPa by (unfold a; lia).
  assert (0 < 2 ^ sh) as Hpow by (destruct Hsh as [[-> _] | [-> _]]; done).
  pose proof (Z.div_mod P (2 ^ sh) ltac:(lia)) as Hdm.
  pose proof (Z.mod_pos_bound P (2 ^ sh) Hpow) as Hmb.
  rewrite <- Hq in Hdm.
  symmetry. apply Z.div_unique with (mr - K * u * Q).
  2: lia.
  left.
  change (2 ^ 56) with 72057594037927936 in *.
  change (2 ^ 52) with 4503599627370496 in *.
  destruct Hsh as [[-> ->] | [-> ->]].
  - change (2 ^ 52) with 4503599627370496 in *.
    change (2 ^ (52 - 1)) with 2251799813685248 in *.
    destruct Hmr as [-> | [-> Hr]]; lia.
  - change (2 ^ 53) with 9007199254740992 in *.
    change (2 ^ (53 - 1)) with 4503599627370496 in *.
    destruct Hmr as [-> | [-> Hr]]; lia.
Qed.



(** [int(0.1 * n)] is [n // 10] for every [n] below [2 ^ 52]. *)
Lemma int_of_tenth_exact n :
  0 ≤ n < 2 ^ 52 → int_of_float (0.1 * float_of_int n) = Ok (n / 10).
Proof.
  intros Hn. unfold int_of_float, float_of_int.
  rewrite mul_spec, of_uint63_spec, Uint63.of_Z_spec.
  rewrite Z.mod_small
    by (change wB with (2 ^ 63); assert (2 ^ 52 < 2 ^ 63) by done; lia).
  change (Prim2SF 0.1) with (S754_finite false 7205759403792794 (-56)).
  unfold SF64mul.
  destruct n as [| p | p]; [done | | lia].
  assert (Z.pos p < 2 ^ 53) as Hp53 by (assert (2 ^ 52 < 2 ^ 53) by done; lia).
  destruct (binary_normalize_exact p Hp53) as (mz & -> & Hmz & Hmzb & Hd).
  pose proof (digits2_pos_le p 52 ltac:(lia)) as Hd52.
  set (d := Z.pos (digits2_pos p)) in *.
  cbn [SFmul xorb].
  set (P := (7205759403792794 * mz)%positive).
  assert (Z.pos P = 7205759403792794 * Z.pos mz) as HP by done.
  assert (2 ^ 104 ≤ Z.pos P < 2 ^ 106) as HPb.
  { rewrite HP. change (2 ^ 104) with (2 ^ 52 * 2 ^ 52).
    change (2 ^ 106) with (2 ^ 53 * 2 ^ 53).
    change (2 ^ 52) with 4503599627370496 in *.
    change (2 ^ 53) with 9007199254740992 in *. lia. }
  set (D := Z.pos (digits2_pos P)).
  pose proof (digits2_pos_le P 106 ltac:(lia)) as HD1. fold D in HD1.
  pose proof (digits2_pos_gt P) as HD2. fold D in HD2.
  pose proof (digits2_pos_lower P) as HD3. fold D in HD3.
  assert (105 ≤ D) as HD4.
  { destruct (decide (105 ≤ D)); [done |]. exfalso.
    assert (2 ^ D ≤ 2 ^ 104) by (apply Z.pow_le_mono_r; lia). lia. }
  destruct (binary_round_aux_round P (-56 + (d - 53)) D)
    as (m & e & mr & -> & Hmr & He); [lia | lia | lia | lia |].
  assert (e < 0) as He0 by lia.
  rewrite (proj2 (Z.leb_gt 0 e)) by done.
  f_equal.
  set (u := 2 ^ (53 - d)) in *.
  assert (2 ≤ u) as Hu.
  { unfold u. change 2 with (2 ^ 1) at 1. apply Z.pow_le_mono_r; lia. }
  assert (D = 105 ∨ D = 106) as HDc by lia.
  assert (∃ K, (D - 53 = 52 ∧ K = 16 ∨ D - 53 = 53 ∧ K = 8) ∧
               2 ^ (- (-56 + (d - 53) + (D - 53))) = K * u) as (K & HK & Ht).
  { destruct HDc as [HDe | HDe]; rewrite HDe in *.
    - exists 16. split; [by left |]. unfold u.
      change 16 with (2 ^ 4). rewrite <- Z.pow_add_r by lia. f_equal. lia.
    - exists 8. split; [by right |]. unfold u.
      change 8 with (2 ^ 3). rewrite <- Z.pow_add_r by lia. f_equal. lia. }
  assert (mr / (K * u) = Z.pos p / 10) as Hfin.
  { apply (tenth_arith (Z.pos p) u (Z.pos P) (Z.pos P / 2 ^ (D - 53)) mr
             (D - 53) K); [lia | done | | done | done | done].
    rewrite HP, Hmz. lia. }
  rewrite <- Hfin, <- Ht.
  destruct He as [[-> ->] | [-> Hm2]]; [done |].
  rewrite <- Hm2.
  replace (- (-56 + (d - 53) + (D - 53)))
    with (Z.succ (- (-56 + (d - 53) + (D - 53) + 1))) by lia.
  rewrite Z.pow_succ_r by lia.
  rewrite Z.div_mul_cancel_l; [done | | lia].
  apply Z.pow_nonzero; lia.
Qed.

(** *** The size of the validation set on the lengths evaluated *)

Lemma all_from_spec P : ∀ k lo n,
  all_from P lo k = true → lo ≤ n < lo + Z.of_nat k → P n = true.
Proof.
  induction k as [| k IH]; intros lo n Hall Hn; [lia |].
  simpl in Hall. apply andb_prop in Hall as [Hlo Hall].
  destruct (decide (n = lo)) as [-> | Hne]; [done |].
  apply (IH (lo + 1)); [done | lia].
Qed.

(** Evaluated for every length up to [checked_rows]. *)
Lemma n_val_table :
  all_from n_val_exact 0 (Z.to_nat (checked_rows + 1)) = true.
Proof. vm_compute. reflexivity. Qed.

Lemma n_val_floor n :
  0 ≤ n ≤ checked_rows → n_val n = Ok (Z.max 1 (n / 10)).
Proof.
  intros Hn.
  pose proof (all_from_spec _ _ 0 n n_val_table) as H.
  unfold n_val_exact in H.
  destruct (n_val n) as [k | e].
  - f_equal. apply Z.eqb_eq, H. unfold checked_rows in *. lia.
  - discriminate H. unfold checked_rows in *. lia.
Qed.

(** C9: the weighted rows are shuffled under the seed 31415, by a
    function of the seed and the list, so equal lists give equal
    shuffles. For every list that is not empty (a list has at most
    [sys.maxsize] elements) [int(0.1 * n)] returns a number [f] that is
    not negative; the first max(1, f) rows of the shuffled list are the
    validation set, which is not empty, the rest is the training set,
    and both together are the weighted rows, each exactly once. The
    product is the binary64 one of the program: [f] is the exact
    floor(n / 10), and the two sets have max(1, floor(n / 10)) rows and
    the remaining ones, for every length below [2 ^ 52]. *)
Theorem split_head_is_validation rows :
  (∀ l, shuffle 31415 l ≡ₚ l) →
  rows ≠ [] →
  Z.of_nat (length rows) ≤ maxsize →
  let n := Z.of_nat (length rows) in
  let shuffled := shuffle SEED rows in
  ∃ f,
    int_of_float (0.1 * float_of_int n) = Ok f ∧
    0 ≤ f ∧
    let k := Z.to_nat (Z.max 1 f) in
    split shuffle rows = Ok (take k shuffled, drop k shuffled) ∧
    take k shuffled ≠ [] ∧
    take k shuffled ++ drop k shuffled ≡ₚ rows ∧
    (n < 2 ^ 52 →
     f = n / 10 ∧
     length (take k shuffled) = k ∧
     length (drop k shuffled) = (length rows - k)%nat).
Proof.
  intros Hperm Hne Hlen n shuffled.
  assert (length shuffled = length rows) as Hl.
  { unfold shuffled, SEED. by rewrite Hperm. }
  assert (0 < n) as Hpos.
  { unfold n. destruct rows; [done | simpl; lia]. }
  destruct (int_of_tenth n) as (f & Hf & Hf0); [lia |].
  exists f. split_and!; [done | done |]. intros k. split_and!.
  - unfold split, n_val. fold shuffled. rewrite Hl. fold n.
    rewrite Hf. reflexivity.
  - destruct shuffled as [| x xs] eqn:Hs.
    + simpl in Hl. lia.
    + unfold k. replace (Z.to_nat (Z.max 1 f))
        with (S (Z.to_nat (Z.max 1 f) - 1)) by lia. done.
  - rewrite take_drop. unfold shuffled, SEED. apply Hperm.
  - intros Hn.
    pose proof (int_of_tenth_exact n ltac:(lia)) as Hv.
    rewrite Hf in Hv. injection Hv as Hv.
    assert (n / 10 < n) by (apply Z.div_lt; lia).
    assert (0 ≤ n / 10) by (apply Z.div_pos; lia).
    split_and!; [done | |].
    + rewrite length_take, Hl. unfold k. fold n. lia.
    + by rewrite length_drop, Hl.
Qed.

End Split.

(** ** The theorems at sample inputs *)

Section Samples.
Import Samples.

Lemma predict_thresholded_witness :
  App.labels
    (App.predict constant_pipeline ["oh great"; "nice weather"] None 0 12.5
       app_start).1 !! 1%nat
  = Some "NOT_SARCASM".
Proof.
  pose proof (predict_thresholded constant_pipeline
                ["oh great"; "nice weather"] None 0 12.5%float app_start
                eq_refl) as (_ & _ & H & _).
  destruct (H 1%nat "LABEL_1" 0.3%float eq_refl) as [-> _].
  reflexivity.
Defined.

Lemma split_head_is_validation_witness :
  Train.split reversing_shuffle twelve_rows
  = Ok (take 1 (reverse twelve_rows), drop 1 (reverse twelve_rows)).
Proof.
  destruct (split_head_is_validation reversing_shuffle twelve_rows)
    as (f & Hf & _ & Hsplit & _).
  - intros l. apply reverse_Permutation.
  - discriminate.
  - vm_compute. discriminate.
  - injection Hf as <-. exact Hsplit.
Defined.

Lemma failed_training_keeps_state_witness :
  Autotrain.STATE
    (Autotrain.main plain_dumps Autotrain.default_policy trainer_crashes
       first_run).2
  = Autotrain.STATE first_run.
Proof.
  refine (proj1 (failed_training_keeps_state plain_dumps
                   Autotrain.default_policy trainer_crashes first_run _)).
  vm_compute. reflexivity.
Defined.

Lemma reload_failure_still_concludes_witness :
  (Autotrain.main plain_dumps Autotrain.default_policy api_down first_run).1
  = Ok ().
Proof.
  refine (proj1 (reload_failure_still_concludes plain_dumps
                   Autotrain.default_policy api_down first_run trainer_output
                   "/srv/models/sarcasm-v8 " _ _ _ _)).
  - exists Autotrain.initial_state, 0, epoch.
    split; vm_compute; reflexivity.
  - reflexivity.
  - vm_compute. reflexivity.
  - exact I.
Defined.

Lemma prune_keeps_newest_witness :
  Autotrain.PrintFailedToPrune "sarcasm-v1" "Permission denied"
  ∈ Autotrain.stdout (Autotrain.prune_old_models api_down 5 first_run).2.
Proof.
  assert (0 ≤ 5) as Hkeep by lia.
  assert (Spec.distinct_mtimes seven_folders) as Hnd.
  { compute_done. }
  destruct (prune_keeps_newest api_down 5 first_run seven_folders
              eq_refl Hkeep Hnd) as (_ & _ & H & _).
  apply (H "sarcasm-v1" {| Autotrain.is_dir := true;
                           Autotrain.st_mtime := 100 |}).
  - vm_compute. reflexivity.
  - compute_done.
  - reflexivity.
Defined.

Lemma successful_run_records_count_witness :
  ∃ s, Autotrain.STATE
         (Autotrain.main plain_dumps Autotrain.default_policy all_well
            first_run).2
       = Some (Autotrain.Dict s) ∧
       Autotrain.last_count s = Some 40.
Proof.
  assert (Spec.succeeded
            (Autotrain.main plain_dumps Autotrain.default_policy all_well
               first_run)
            "/srv/models/sarcasm-v8") as Hok.
  { split; vm_compute; reflexivity. }
  destruct (proj1 (successful_run_records_count plain_dumps)
              Autotrain.default_policy all_well first_run
              "/srv/models/sarcasm-v8" Hok)
    as (s & total & Hs & Hc & _ & _ & _ & Hlog).
  exists s. split; [exact Hs |]. rewrite Hc. f_equal.
  destruct (Hlog _ eq_refl) as [_ Hcount]. rewrite Hcount; [reflexivity |].
  apply Forall_app. split; [apply Forall_replicate |]; by repeat constructor.
Defined.

(** Seven folders, KEEP_LAST = 5, nothing fails: the two oldest go, the
    five newest and the plain file stay. *)
Example prune_seven_keeps_five :
  Autotrain.prune_old_models all_well 5 first_run
  = (Ok (),
     {| Autotrain.FEEDBACK := Autotrain.FEEDBACK first_run;
        Autotrain.STATE := None;
        Autotrain.MODELS_DIR :=
          Some (delete "sarcasm-v1" (delete "sarcasm-v2" seven_folders));
        Autotrain.stdout := [Autotrain.PrintPruned "sarcasm-v2";
                             Autotrain.PrintPruned "sarcasm-v1"] |}).
Proof. vm_compute. reflexivity. Qed.

(** The trainer made its folder and crashed: the run raises, the state
    file is still missing, and the new folder is there. *)
Example crash_leaves_folder :
  Autotrain.main plain_dumps Autotrain.default_policy trainer_crashes first_run
  = (Raise (RuntimeError
              "Could not find 'Saved new model to:' line in train output."),
     {| Autotrain.FEEDBACK := Autotrain.FEEDBACK first_run;
        Autotrain.STATE := None;
        Autotrain.MODELS_DIR :=
          Some (<[ "sarcasm-v8" := {| Autotrain.is_dir := true;
                                      Autotrain.st_mtime := 800 |} ]>
                  seven_folders);
        Autotrain.stdout :=
          [Autotrain.PrintTotals 40 0 epoch;
           Autotrain.PrintTrainOutput "Traceback (most recent call last):"] |}).
Proof. vm_compute. reflexivity. Qed.

(** A run that promotes prunes the listing with the new folder in it:
    of eight folders the three oldest go. *)
Example promotion_prunes_new_listing :
  Autotrain.MODELS_DIR
    (Autotrain.main plain_dumps Autotrain.default_policy all_well first_run).2
  = Some (delete "sarcasm-v1"
            (delete "sarcasm-v2"
               (delete "sarcasm-v3"
                  (<[ "sarcasm-v8" := {| Autotrain.is_dir := true;
                                         Autotrain.st_mtime := 800 |} ]>
                     seven_folders)))).
Proof. vm_compute. reflexivity. Qed.

(** A stored text with U+0085 is one line for the API and the trainer,
    and two pieces for the job. *)
Example nel_splits_a_vote :
  Log.count_nonblank [Log.Entry stored_nel] = 1 ∧
  Autotrain.read_count plain_dumps (Some [Log.Entry stored_nel]) = 2.
Proof. split; vm_compute; reflexivity. Qed.

(** In binary64 [int(0.1 * n)] is floor(n / 10) for every [n] below
    [2 ^ 52], and one more at some lengths between that and [2 ^ 53]. *)
Example tenth_of_a_huge_length :
  Train.n_val 6755399441055749 = Ok 675539944105575 ∧
  6755399441055749 / 10 = 675539944105574.
Proof. split; vm_compute; reflexivity. Qed.

(** A marker followed by blanks only is still parsed: the group is one
    blank, and the path returned is empty. *)
Example marker_without_path :
  Autotrain.re_search "Saved new model to: " = Some " " ∧
  strip " " = "".
Proof. split; reflexivity. Qed.

(** An agreeing row scored 0.55 for NOT_SARCASM: in binary64
    [1.0 - 0.55] falls just below 0.45, and the row is not up-weighted. *)
Example band_edge_rounding :
  Train.build_training_rows
    [{| Train.text := "t"; Train.user := "NOT_SARCASM";
        Train.pred := "NOT_SARCASM"; Train.score := 0.55 |}]
  = Ok [{| Train.tr_text := "t"; Train.tr_label := 0 |}].
Proof. reflexivity. Qed.

End Samples.

(* ===================================================================== *)
(** * Part III: further properties of the code *)
(* ===================================================================== *)

(** ** The trainer: building the rows *)

Section BuilderMore.
Import Train Reading.

Lemma label2id_values u y : label2id !! u = Some y → y = 0 ∨ y = 1.
Proof.
  unfold label2id. intros H.
  apply lookup_insert_Some in H as [[_ <-] | [_ H]]; [by left |].
  apply lookup_singleton_Some in H as [_ <-]. by right.
Qed.

Lemma weight_range r : 1 ≤ Spec.weight r ≤ 3.
Proof.
  unfold Spec.weight, DISAGREE_DUP, UNCERT_DUP.
  repeat case_match; lia.
Qed.

Lemma length_expand r : Z.of_nat (length (Spec.expand r)) = Spec.weight r.
Proof.
  unfold Spec.expand. rewrite length_replicate.
  pose proof (weight_range r). lia.
Qed.

(** Either every label is known and the loop returns, or it raises at the
    first row whose label is not. *)
Lemma build_loop_cases rows : ∀ out,
  (Forall known rows ∧
   build_loop out rows = Ok (out ++ (rows ≫= Spec.expand))) ∨
  (∃ pre r post,
      rows = pre ++ r :: post ∧ Forall known pre ∧
      label2id !! user r = None ∧
      build_loop out rows = Raise (KeyError (user r))).
Proof.
  induction rows as [| r rows IH]; intros out.
  - left. split; [constructor |]. simpl. by rewrite app_nil_r.
  - destruct (label2id !! user r) as [y |] eqn:Hy.
    + assert (known r) as Hk by (by exists y).
      cbn [build_loop]. rewrite (emit_expand r Hk). cbn [mbind result_bind].
      destruct (IH (out ++ Spec.expand r))
        as [[Hall Hok] | (pre & r' & post & -> & Hpre & Hr' & Hraise)].
      * left. split; [by constructor |].
        rewrite Hok. by rewrite <- app_assoc.
      * right. exists (r :: pre), r', post.
        split_and!; [done | by constructor | done | done].
    + right. exists [], r, rows. split_and!; [done | constructor | done |].
      cbn [build_loop]. unfold emit. by rewrite Hy.
Qed.

(** X1: when it returns, the builder gives between one and three rows per
    feedback row, in the order of the feedback; every weighted row has
    label 0 or 1 and repeats the text of a feedback row under the id of
    its user label. *)
Theorem build_training_rows_bounds rows out :
  build_training_rows rows = Ok out →
  out = rows ≫= Spec.expand ∧
  (length rows ≤ length out ≤ 3 * length rows)%nat ∧
  (rows ≠ [] → out ≠ []) ∧
  Forall (λ tr, tr_label tr = 0 ∨ tr_label tr = 1) out ∧
  Forall (λ tr, ∃ r, r ∈ rows ∧ tr_text tr = text r ∧
                     label2id !! user r = Some (tr_label tr)) out.
Proof.
  unfold build_training_rows. intros Hok.
  destruct (build_loop_cases rows [])
    as [[Hall Hb] | (pre & r & post & _ & _ & _ & Hb)];
    rewrite Hb in Hok; [| discriminate].
  injection Hok as <-. simpl.
  assert (Hlen : (length rows ≤ length (rows ≫= Spec.expand)
                  ≤ 3 * length rows)%nat).
  { clear Hall Hb. induction rows as [| r rows IH]; [simpl; lia |].
    rewrite bind_cons, length_app. cbn [length].
    pose proof (length_expand r). pose proof (weight_range r). lia. }
  split_and!; [done | lia | lia | | |].
  - intros Hne Hnil. apply (f_equal length) in Hnil.
    destruct rows; [done |]. simpl in Hlen, Hnil. lia.
  - apply Forall_forall. intros tr Htr.
    apply list_elem_of_bind in Htr as (r & Htr & Hr).
    rewrite Forall_forall in Hall. destruct (Hall r Hr) as [y Hy].
    unfold Spec.expand in Htr. apply elem_of_replicate in Htr as [-> _].
    simpl. rewrite Hy. simpl. by eapply label2id_values.
  - apply Forall_forall. intros tr Htr.
    apply list_elem_of_bind in Htr as (r & Htr & Hr).
    rewrite Forall_forall in Hall. destruct (Hall r Hr) as [y Hy].
    unfold Spec.expand in Htr. apply elem_of_replicate in Htr as [-> _].
    exists r. simpl. by rewrite Hy.
Qed.

(** X2: the builder raises exactly when some user label is not a key of
    [label2id]; the exception is the [KeyError] of the first such row, and
    no partial list is returned. *)
Theorem build_training_rows_key_error rows :
  (is_ok (build_training_rows rows) = true ↔ Forall known rows) ∧
  (∀ e, build_training_rows rows = Raise e →
        ∃ pre r post,
          rows = pre ++ r :: post ∧ Forall known pre ∧
          label2id !! user r = None ∧ e = KeyError (user r)).
Proof.
  unfold build_training_rows.
  destruct (build_loop_cases rows [])
    as [[Hall Hb] | (pre & r & post & Hrows & Hpre & Hr & Hb)];
    rewrite Hb.
  - split; [done |]. intros e He. discriminate.
  - split.
    + split; [discriminate |]. intros Hall. exfalso.
      rewrite Hrows in Hall. apply Forall_app in Hall as [_ Hall].
      apply Forall_cons in Hall as [[y Hy] _]. congruence.
    + intros e [= <-]. by exists pre, r, post.
Qed.

Lemma build_training_rows_bounds_witness :
  (length [{| text := "t"; user := "SARCASM"; pred := "NOT_SARCASM";
              score := 0.9 |}]
   ≤ length (replicate 3 {| tr_text := "t"; tr_label := 1 |})
   ≤ 3 * length [{| text := "t"; user := "SARCASM"; pred := "NOT_SARCASM";
                    score := 0.9 |}])%nat.
Proof.
  exact (proj1 (proj2 (build_training_rows_bounds
                         [{| text := "t"; user := "SARCASM";
                             pred := "NOT_SARCASM"; score := 0.9 |}]
                         (replicate 3 {| tr_text := "t"; tr_label := 1 |})
                         eq_refl))).
Defined.

End BuilderMore.

Lemma build_training_rows_key_error_witness :
  ∃ pre r post,
    [{| Train.text := "a"; Train.user := "SARCASM"; Train.pred := "SARCASM";
        Train.score := 0.9 |};
     {| Train.text := "b"; Train.user := "sarcasm"; Train.pred := "SARCASM";
        Train.score := 0.9 |}] = pre ++ r :: post ∧
    Forall Reading.known pre ∧
    Train.label2id !! Train.user r = None ∧
    KeyError "sarcasm" = KeyError (Train.user r).
Proof.
  exact (proj2 (build_training_rows_key_error
                  [{| Train.text := "a"; Train.user := "SARCASM";
                      Train.pred := "SARCASM"; Train.score := 0.9 |};
                   {| Train.text := "b"; Train.user := "sarcasm";
                      Train.pred := "SARCASM"; Train.score := 0.9 |}])
               (KeyError "sarcasm") eq_refl).
Defined.

(** ** The trainer: reading the feedback *)

Section ReadFeedback.
Import Log Train TrainIO Reading.
Context (loads_row : string → result feedback_row).
Context (dumps : record → string).


Lemma read_lines_api ls : ∀ rows,
  api_written ls →
  read_lines loads_row rows ls = Ok (rows ++ (row_of_record <$> records ls)).
Proof.
  unfold records.
  induction ls as [| l ls IH]; intros rows Hall; simpl.
  - by rewrite app_nil_r.
  - apply Forall_cons in Hall as [Hl Hall].
    destruct l as [s | r]; simpl.
    + destruct Hl as [Hb | [r Hr]]; [| discriminate].
      simpl in Hb. rewrite Hb. by apply IH.
    + rewrite IH by done. by rewrite <- app_assoc.
Qed.

Lemma records_count ls :
  api_written ls → Z.of_nat (length (records ls)) = count_nonblank ls.
Proof.
  unfold records, count_nonblank.
  induction 1 as [| l ls Hl _ IH]; [done |].
  destruct l as [s | r].
  - destruct Hl as [Hb | [r Hr]]; [| discriminate].
    rewrite filter_cons_False by (rewrite Hb; simpl; tauto). done.
  - rewrite filter_cons_True by (simpl; tauto). csimpl. lia.
Qed.


(** X4: on a file as the API leaves it (blank lines and dumps of records)
    with at least one record, [read_feedback] returns the records in file
    order, each with its stored text, user label, predicted label and
    score, whatever the JSON reader does on other text. *)
Theorem read_feedback_api_written ls :
  api_written ls →
  records ls ≠ [] →
  read_feedback loads_row (Some ls) = Done (row_of_record <$> records ls).
Proof.
  intros Hall Hne. unfold read_feedback.
  rewrite read_lines_api by done. simpl.
  destruct (records ls) as [| r rs]; [done |]. reflexivity.
Qed.

End ReadFeedback.

(** ** The trainer: the tokenizer fallback *)

Section LoadTokenizer.
Import TrainIO Reading.
Context {Tokenizer : Type}.
Context (from_pretrained : tokenizer_kw → result Tokenizer).
Context (str_exn : exn → string).

Lemma load_loop_spec kws : ∀ last_err,
  match list_find (λ kw, is_ok (from_pretrained kw) = true) kws with
  | Some (i, kw) =>
      (load_loop from_pretrained str_exn last_err kws).2 = from_pretrained kw ∧
      tried (load_loop from_pretrained str_exn last_err kws).1 = take (S i) kws
  | None =>
      (∃ msg, (load_loop from_pretrained str_exn last_err kws).2
              = Raise (RuntimeError msg)) ∧
      tried (load_loop from_pretrained str_exn last_err kws).1 = kws
  end.
Proof.
  induction kws as [| kw kws IH]; intros last_err.
  - simpl. split; [by eexists | done].
  - cbn [list_find load_loop].
    destruct (from_pretrained kw) as [t | e] eqn:Hkw; simpl.
    + by rewrite take_0.
    + specialize (IH (Some e)).
      destruct (load_loop from_pretrained str_exn (Some e) kws) as [evs r].
      destruct (list_find _ kws) as [[i kw'] |]; simpl in *.
      * destruct IH as [-> ->]. done.
      * destruct IH as [Hr ->]. done.
Qed.

(** X5: [load_tokenizer] returns what the first of the four
    configurations that loads gives (local fast, local slow, base fast,
    base slow) and tries none after it; it raises, with a [RuntimeError],
    only when all four fail. *)
Theorem load_tokenizer_first_success :
  match list_find (λ kw, is_ok (from_pretrained kw) = true) tries with
  | Some (i, kw) =>
      (load_tokenizer from_pretrained str_exn).2 = from_pretrained kw ∧
      is_ok (from_pretrained kw) = true ∧
      tried (load_tokenizer from_pretrained str_exn).1 = take (S i) tries
  | None =>
      (∃ msg, (load_tokenizer from_pretrained str_exn).2
              = Raise (RuntimeError msg)) ∧
      tried (load_tokenizer from_pretrained str_exn).1 = tries ∧
      Forall (λ kw, is_ok (from_pretrained kw) = false) tries
  end.
Proof.
  pose proof (load_loop_spec tries None) as H. unfold load_tokenizer.
  destruct (list_find _ tries) as [[i kw] |] eqn:Hfind.
  - destruct H as [H1 H2]. split_and!; [done | | done].
    by apply list_find_Some in Hfind as (_ & ? & _).
  - destruct H as [H1 H2]. split_and!; [done | done |].
    apply list_find_None in Hfind.
    eapply Forall_impl; [exact Hfind |]. intros kw Hkw. simpl in Hkw.
    by destruct (is_ok (from_pretrained kw)).
Qed.

End LoadTokenizer.

(** ** The trainer: sizes of the two sets *)

Section SplitSizes.
Import Train Range.
Context (shuffle : Z → list training_row → list training_row).

(** X6: for up to [checked_rows] weighted rows, the split returns two
    lists that together are the rows; the validation set is empty only
    when there is no row, and the training set is empty exactly when there
    is at most one row: a single weighted row goes to validation and
    nothing is left to train on. *)
Theorem split_sizes rows :
  (∀ l, shuffle SEED l ≡ₚ l) →
  Z.of_nat (length rows) ≤ checked_rows →
  ∃ val tr,
    split shuffle rows = Ok (val, tr) ∧
    val ++ tr ≡ₚ rows ∧
    (val = [] ↔ rows = []) ∧
    (tr = [] ↔ (length rows ≤ 1)%nat).
Proof.
  intros Hperm Hlen.
  set (n := Z.of_nat (length rows)).
  set (k := Z.to_nat (Z.max 1 (n / 10))).
  assert (length (shuffle SEED rows) = length rows) as Hl by (by rewrite Hperm).
  exists (take k (shuffle SEED rows)), (drop k (shuffle SEED rows)).
  assert (n = 0 ∨ (0 < n ∧ n / 10 < n)) as Hn.
  { destruct (decide (n = 0)); [by left | right].
    split; [lia |]. apply Z.div_lt; lia. }
  split_and!.
  - unfold split. rewrite Hl. fold n.
    rewrite n_val_floor by (unfold n; lia). reflexivity.
  - rewrite take_drop. apply Hperm.
  - split.
    + intros Hnil. apply (f_equal length) in Hnil.
      rewrite length_take, Hl in Hnil. simpl in Hnil.
      destruct rows; [done |]. simpl in *. lia.
    + intros ->. destruct (shuffle SEED []) eqn:E; [by rewrite take_nil |].
      simpl in Hl. lia.
  - split.
    + intros Hnil. apply (f_equal length) in Hnil.
      rewrite length_drop, Hl in Hnil. simpl in Hnil.
      assert (n / 10 = 0 ∨ 10 ≤ n) as [H0 | H10].
      { destruct (decide (n < 10)); [left; apply Z.div_small | right]; lia. }
      * unfold k, n in *. lia.
      * assert (n / 10 < n) by (apply Z.div_lt; lia). unfold k, n in *. lia.
    + intros Hle. apply length_zero_iff_nil.
      rewrite length_drop, Hl. unfold k, n. lia.
Qed.

End SplitSizes.

(** ** The feedback store over many submissions *)

Section FeedbackMore.
Import Log App Story.
Context (sha1 : string → string).


Lemma stored_ids_spec ls i : i ∈ stored_ids ls ↔ i ∈ scan_seen ls.
Proof.
  unfold stored_ids. rewrite list_elem_of_omap, scan_seen_spec. split.
  - intros ([s | r] & Hl & Hi); [discriminate |].
    injection Hi as <-. by exists r.
  - intros (r & Hr & <-). by exists (Entry r).
Qed.

Lemma scan_seen_snoc ls r : scan_seen (ls ++ [Entry r]) = scan_seen ls ∪ {[ id r ]}.
Proof.
  apply set_eq. intros i.
  rewrite elem_of_union, elem_of_singleton, !scan_seen_spec. split.
  - intros (r' & Hr' & <-). apply elem_of_app in Hr' as [Hr' | Hr'].
    + left. by exists r'.
    + right. apply list_elem_of_singleton in Hr'. by injection Hr' as ->.
  - intros [(r' & Hr' & <-) | ->].
    + exists r'. split; [| done]. apply elem_of_app. by left.
    + exists r. split; [| done]. apply elem_of_app. right.
      by apply list_elem_of_singleton.
Qed.

Lemma feedback_append_spec fb now ls :
  ∃ ls',
    (feedback sha1 fb now (Some ls)).2 = Some ls' ∧
    ls `prefix_of` ls' ∧
    (NoDup (stored_ids ls) → NoDup (stored_ids ls')) ∧
    count_nonblank ls' =
      count_nonblank ls
      + (if decide (rid_of sha1 fb ∈ stored_ids ls) then 0 else 1) ∧
    rid_of sha1 fb ∈ stored_ids ls'.
Proof.
  destruct (decide (rid_of sha1 fb ∈ scan_seen ls)) as [Hin | Hout].
  - exists ls. rewrite feedback_seen by done.
    rewrite decide_True by (by apply stored_ids_spec).
    split_and!; [done | done | done | lia | by apply stored_ids_spec].
  - eexists. rewrite feedback_fresh by done.
    rewrite decide_False by (by rewrite stored_ids_spec).
    split_and!; [done | by apply prefix_app_r | | |].
    + intros Hnd. unfold stored_ids. rewrite omap_app. apply NoDup_app.
      split_and!; [done | | apply NoDup_singleton].
      intros i Hi Hi'. apply list_elem_of_singleton in Hi'. subst i.
      by apply Hout, stored_ids_spec.
    + rewrite count_nonblank_app. reflexivity.
    + apply stored_ids_spec. rewrite scan_seen_snoc.
      apply elem_of_union. right. by apply elem_of_singleton.
Qed.

(** X7: a submission into an existing file only appends; it keeps the ids
    of the stored records pairwise distinct; the count grows by one when
    the id was not stored and by nothing otherwise; afterwards the id is
    stored. *)
Theorem feedback_keeps_ids_distinct fb now ls :
  ∃ ls',
    (feedback sha1 fb now (Some ls)).2 = Some ls' ∧
    ls `prefix_of` ls' ∧
    (NoDup (stored_ids ls) → NoDup (stored_ids ls')) ∧
    count_nonblank ls' =
      count_nonblank ls
      + (if decide (rid_of sha1 fb ∈ stored_ids ls) then 0 else 1) ∧
    rid_of sha1 fb ∈ stored_ids ls'.
Proof.
  destruct (feedback_append_spec fb now ls) as (ls' & H1 & H2 & H3 & H4 & H5).
  exists ls'. split_and!; assumption.
Qed.

Lemma feedback_step fb now ls :
  ∃ ls',
    (feedback sha1 fb now (Some ls)).2 = Some ls' ∧
    ls `prefix_of` ls' ∧
    scan_seen ls' = scan_seen ls ∪ {[ rid_of sha1 fb ]} ∧
    count_nonblank ls' =
      count_nonblank ls
      + Z.of_nat (size (({[ rid_of sha1 fb ]} : gset string) ∖ scan_seen ls)).
Proof.
  destruct (decide (rid_of sha1 fb ∈ scan_seen ls)) as [Hin | Hout].
  - exists ls. rewrite feedback_seen by done.
    assert (scan_seen ls = scan_seen ls ∪ {[rid_of sha1 fb]}) as Hsame.
    { apply set_eq. intros i. rewrite elem_of_union, elem_of_singleton.
      split; [by left | by intros [? | ->]]. }
    assert ((({[rid_of sha1 fb]} : gset string) ∖ scan_seen ls) = ∅) as ->.
    { apply set_eq. intros i.
      rewrite elem_of_difference, elem_of_singleton.
      split; [by intros [-> ?] | by intros ?%not_elem_of_empty]. }
    split_and!; [done | done | done |].
    rewrite size_empty. lia.
  - eexists. rewrite feedback_fresh by done.
    split_and!; [done | by apply prefix_app_r | by rewrite scan_seen_snoc |].
    rewrite count_nonblank_app.
    assert ((({[rid_of sha1 fb]} : gset string) ∖ scan_seen ls)
            = {[rid_of sha1 fb]}) as ->.
    { apply set_eq. intros i.
      rewrite elem_of_difference, elem_of_singleton.
      split; [by intros [-> ?] | by intros ->]. }
    rewrite size_singleton. reflexivity.
Qed.

Lemma submit_all_spec fbs : ∀ ls,
  ∃ ls',
    submit_all sha1 fbs (Some ls) = Some ls' ∧
    ls `prefix_of` ls' ∧
    scan_seen ls' =
      scan_seen ls ∪ list_to_set ((λ ft, rid_of sha1 ft.1) <$> fbs) ∧
    count_nonblank ls' =
      count_nonblank ls
      + Z.of_nat (size ((list_to_set ((λ ft, rid_of sha1 ft.1) <$> fbs)
                         : gset string) ∖ scan_seen ls)).
Proof.
  unfold submit_all.
  induction fbs as [| [fb t] fbs IH]; intros ls.
  - exists ls. rewrite fmap_nil, list_to_set_nil.
    rewrite (right_id_L ∅ (∪)), empty_difference_L, size_empty.
    split_and!; [done | done | done | lia].
  - destruct (feedback_step fb t ls) as (ls1 & H1 & Hp1 & Hs1 & Hc1).
    destruct (IH ls1) as (ls' & H' & Hp' & Hs' & Hc').
    exists ls'. cbn [foldl fst snd]. rewrite H1.
    split_and!; [done | by etrans | |].
    + rewrite Hs', Hs1, fmap_cons, list_to_set_cons. cbn [fst].
      by rewrite (assoc_L (∪)).
    + rewrite Hc', Hc1, Hs1, fmap_cons, list_to_set_cons. cbn [fst].
      set (R := list_to_set ((λ ft, rid_of sha1 ft.1) <$> fbs) : gset string).
      set (S0 := scan_seen ls). set (x := rid_of sha1 fb).
      assert ((({[x]} ∪ R) ∖ S0) = (({[x]} ∖ S0) ∪ (R ∖ (S0 ∪ {[x]})))) as ->.
      { apply set_eq. intros i.
        rewrite !elem_of_union, !elem_of_difference, !elem_of_union,
          !elem_of_singleton.
        destruct (decide (i = x)); tauto. }
      assert (({[x]} ∖ S0) ## (R ∖ (S0 ∪ {[x]}))) as Hdisj.
      { intros i.
        rewrite !elem_of_difference, elem_of_union, elem_of_singleton. tauto. }
      rewrite (size_union _ _ Hdisj). lia.
Qed.

(** X8: after any sequence of submissions into an empty file, the count
    is the number of distinct ids among the submissions, and the ids
    stored are exactly those ids. *)
Theorem submit_all_counts_distinct_ids fbs :
  ∃ ls',
    submit_all sha1 fbs (Some []) = Some ls' ∧
    feedback_count (Some ls')
    = Ok {[ "ok" := JBool true;
            "count" := JInt (Z.of_nat
                               (size (list_to_set
                                        ((λ ft, rid_of sha1 ft.1) <$> fbs)
                                      : gset string))) ]} ∧
    NoDup (stored_ids ls') ∧
    (∀ i, i ∈ stored_ids ls' ↔ ∃ ft, ft ∈ fbs ∧ rid_of sha1 ft.1 = i).
Proof.
  destruct (submit_all_spec fbs []) as (ls' & H & _ & Hs & Hc).
  exists ls'. split_and!; [done | | |].
  - unfold feedback_count.
    replace (scan_seen []) with (∅ : gset string) in Hc by done.
    change (count_nonblank []) with 0 in Hc.
    rewrite difference_empty_L, Z.add_0_l in Hc. by rewrite Hc.
  - clear Hs Hc. revert ls' H. unfold submit_all.
    assert (∀ ls ls', NoDup (stored_ids ls) →
              foldl (λ f ft, (feedback sha1 ft.1 ft.2 f).2) (Some ls) fbs
              = Some ls' → NoDup (stored_ids ls')) as Hgen.
    { induction fbs as [| [fb t] fbs IH]; intros ls ls' Hnd Hf.
      - by injection Hf as <-.
      - cbn [foldl fst snd] in Hf.
        destruct (feedback_append_spec fb t ls)
          as (ls1 & H1 & _ & Hnd1 & _).
        rewrite H1 in Hf. by apply (IH ls1 ls' (Hnd1 Hnd)). }
    intros ls'. apply Hgen. constructor.
  - intros i. rewrite stored_ids_spec, Hs.
    replace (scan_seen []) with (∅ : gset string) by done.
    rewrite elem_of_union, elem_of_list_to_set, list_elem_of_fmap.
    split.
    + intros [H0 | (ft & -> & Hft)]; [by apply not_elem_of_empty in H0 |].
      by exists ft.
    + intros (ft & Hft & <-). right. by exists ft.
Qed.

Lemma rstrip_cons_nonspace c s :
  is_space c = false → rstrip (String c s) = String c (rstrip s).
Proof. intros Hc. cbn [rstrip]. rewrite Hc. by destruct (rstrip s). Qed.

(** X9: the key is not one-to-one on (url, text): an absent url and an
    empty url give the same id, and a separator moved from the end of the
    url to the head of the text gives the same id; and whenever two
    submissions have the same id, however they differ, the second is
    dropped. *)
Theorem feedback_key_collisions :
  (∀ t pl sc ul,
      rid_of sha1 {| fb_url := None; fb_text := t; fb_predicted_label := pl;
                     fb_score := sc; fb_user_label := ul |}
      = rid_of sha1 {| fb_url := Some ""; fb_text := t;
                       fb_predicted_label := pl; fb_score := sc;
                       fb_user_label := ul |}) ∧
  (∀ u t pl sc ul,
      lstrip t = t →
      rid_of sha1 {| fb_url := Some (u +:+ "||"); fb_text := t;
                     fb_predicted_label := pl; fb_score := sc;
                     fb_user_label := ul |}
      = rid_of sha1 {| fb_url := Some u; fb_text := "||" +:+ t;
                       fb_predicted_label := pl; fb_score := sc;
                       fb_user_label := ul |}) ∧
  (∀ fb1 fb2 t1 t2 ls,
      rid_of sha1 fb1 = rid_of sha1 fb2 →
      (feedback sha1 fb2 t2 (feedback sha1 fb1 t1 (Some ls)).2).2
      = (feedback sha1 fb1 t1 (Some ls)).2).
Proof.
  split_and!.
  - intros. reflexivity.
  - intros u t pl sc ul Ht. unfold rid_of. cbn [fb_url fb_text default].
    unfold Datatypes.id. f_equal. rewrite string_app_assoc. do 2 f_equal.
    unfold strip. rewrite Ht.
    change (lstrip ("||" +:+ t)) with ("||" +:+ t).
    change ("||" +:+ t) with (String "|" (String "|" t)).
    by rewrite !rstrip_cons_nonspace.
  - intros fb1 fb2 t1 t2 ls Heq.
    destruct (feedback_append_spec fb1 t1 ls)
      as (ls1 & H1 & _ & _ & _ & Hin).
    rewrite H1. rewrite feedback_seen; [done |].
    rewrite <- Heq. by apply stored_ids_spec.
Qed.

End FeedbackMore.

(** ** The prediction endpoint: metrics and shape of the response *)

Section PredictMore.
Import App Story.
Context (clf : list string → list (string * float)).

Lemma counter_at_incr k k' c :
  counter_at k' (counter_incr k c)
  = counter_at k' c + (if decide (k = k') then 1 else 0).
Proof.
  unfold counter_at, counter_incr. destruct (decide (k = k')) as [-> | Hne].
  - by rewrite lookup_insert_eq.
  - rewrite lookup_insert_ne by done. lia.
Qed.

Lemma sarcasm_count_cons l ls :
  sarcasm_count (l :: ls)
  = (if String.eqb l "SARCASM" then 1 else 0) + sarcasm_count ls.
Proof.
  unfold sarcasm_count. destruct (String.eqb_spec l "SARCASM") as [-> | Hne].
  - rewrite filter_cons_True by done. simpl. lia.
  - rewrite filter_cons_False by done. lia.
Qed.

Lemma predict_fold_state page_url now lat tos : ∀ ls ss st,
  let r := foldl (predict_step page_url now lat) (ls, ss, st) tos in
  let new := (λ to : string * (string * float), map_label to.2.1 to.2.2) <$> tos in
  FEEDBACK_FILE r.2 = FEEDBACK_FILE st ∧
  LATENCY_LOG r.2 = LATENCY_LOG st ∧
  latencies r.2 = latencies st ∧
  req_count r.2 = req_count st ∧
  confidences r.2 = confidences st ++ ((λ to, to.2.2) <$> tos) ∧
  length (PREDICTIONS_LOG r.2) = (length (PREDICTIONS_LOG st) + length tos)%nat ∧
  counter_at "sarcasm" (threshold_crossings r.2)
  = counter_at "sarcasm" (threshold_crossings st) + sarcasm_count new ∧
  counter_at "non_sarcasm" (threshold_crossings r.2)
  = counter_at "non_sarcasm" (threshold_crossings st)
    + (Z.of_nat (length new) - sarcasm_count new).
Proof.
  induction tos as [| [text [raw score]] tos IH]; intros ls ss st.
  - simpl. rewrite app_nil_r. unfold sarcasm_count. simpl.
    split_and!; (done || lia).
  - cbn [foldl].
    destruct (predict_step page_url now lat (ls, ss, st) (text, (raw, score)))
      as [[ls1 ss1] st1] eqn:Hstep.
    specialize (IH ls1 ss1 st1). cbv zeta in IH |- *.
    set (X := foldl (predict_step page_url now lat) (ls1, ss1, st1) tos) in *.
    destruct IH as (H1 & H2 & H3 & H4 & H5 & H6 & H7 & H8).
    unfold predict_step in Hstep. injection Hstep as <- <- <-.
    cbn [confidences PREDICTIONS_LOG threshold_crossings FEEDBACK_FILE
         LATENCY_LOG latencies req_count] in H1, H2, H3, H4, H5, H6, H7, H8.
    rewrite !counter_at_incr in H7, H8.
    rewrite length_app in H6.
    rewrite !fmap_cons, sarcasm_count_cons. cbn [fst snd length] in *.
    split_and!; [done | done | done | done | | lia | |].
    + rewrite H5. by rewrite <- app_assoc.
    + rewrite H7.
      destruct (String.eqb (map_label raw score) "SARCASM"); simpl; lia.
    + rewrite H8.
      destruct (String.eqb (map_label raw score) "SARCASM"); simpl; lia.
Qed.

(** X10: a request adds each served score to [confidences] and counts
    each returned label once: the "sarcasm" counter grows by the number of
    SARCASM labels of the response and the "non_sarcasm" counter by the
    number of the others, so both together always grow by the number of
    scores added. *)
Theorem predict_counts_labels texts page_url now lat st :
  let r := predict clf texts page_url now lat st in
  confidences r.2 = confidences st ++ scores r.1 ∧
  counter_at "sarcasm" (threshold_crossings r.2)
  = counter_at "sarcasm" (threshold_crossings st) + sarcasm_count (labels r.1) ∧
  counter_at "non_sarcasm" (threshold_crossings r.2)
  = counter_at "non_sarcasm" (threshold_crossings st)
    + (Z.of_nat (length (labels r.1)) - sarcasm_count (labels r.1)) ∧
  length (PREDICTIONS_LOG r.2)
  = (length (PREDICTIONS_LOG st) + length (labels r.1))%nat.
Proof.
  intros r. subst r. unfold predict.
  match goal with
  | |- context [foldl ?f (?a, ?b, ?s) ?l] =>
      pose proof (predict_fold_state page_url now lat l a b s) as Hs;
      pose proof (predict_fold page_url now lat l a b s) as Ho;
      destruct (foldl f (a, b, s) l) as [[ls ss] st2]
  end.
  cbv zeta in Hs. cbn [fst snd] in Hs, Ho.
  destruct Hs as (_ & _ & _ & _ & H5 & H6 & H7 & H8).
  injection Ho as -> ->. cbn [fst snd labels scores app] in *.
  cbn [confidences threshold_crossings PREDICTIONS_LOG] in *.
  rewrite H5, H6, H7, H8, length_fmap. done.
Qed.

Lemma last_drop_lt {A} (l : list A) n :
  (n < length l)%nat → last (drop n l) = last l.
Proof.
  intros Hn. rewrite !last_lookup, lookup_drop, length_drop. f_equal. lia.
Qed.

(** X11: a request increments the request counter, adds one line to the
    latency log, leaves the feedback file alone, and keeps at most the
    last 1000 latencies, the newest being the one just measured. *)
Theorem predict_latency_window texts page_url now lat st :
  let st' := (predict clf texts page_url now lat st).2 in
  req_count st' = req_count st + 1 ∧
  length (LATENCY_LOG st') = S (length (LATENCY_LOG st)) ∧
  FEEDBACK_FILE st' = FEEDBACK_FILE st ∧
  length (latencies st') = Nat.min (length (latencies st) + 1) 1000 ∧
  last (latencies st') = Some lat ∧
  latencies st' `suffix_of` (latencies st ++ [lat]).
Proof.
  intros st'. subst st'. unfold predict.
  match goal with
  | |- context [foldl ?f (?a, ?b, ?s) ?l] =>
      pose proof (predict_fold_state page_url now lat l a b s) as Hs;
      destruct (foldl f (a, b, s) l) as [[ls ss] st2]
  end.
  cbv zeta in Hs. cbn [fst snd] in Hs.
  destruct Hs as (H1 & H2 & H3 & H4 & _).
  cbn [fst snd FEEDBACK_FILE LATENCY_LOG latencies req_count] in *.
  rewrite H1, H2, H3, H4. unfold deque_append.
  rewrite length_app, length_drop, length_app. cbn [length].
  split_and!; [done | lia | done | lia | |].
  - rewrite last_drop_lt by (rewrite length_app; simpl; lia).
    apply last_snoc.
  - apply suffix_drop.
Qed.

Lemma snd_zip_take {A B} (l : list A) (k : list B) :
  (zip l k).*2 = take (length l) k.
Proof.
  revert k. induction l as [| x l IH]; intros [| y k]; simpl; [done.. |].
  by rewrite IH.
Qed.

(** X12: the handler pairs texts and outputs with [zip]: when the
    pipeline returns fewer outputs than texts the response is shorter than
    the request, when it returns more the surplus is ignored; the entry at
    each position comes from the output at that position. *)
Theorem predict_response_length texts page_url now lat st :
  let out := (predict clf texts page_url now lat st).1 in
  length (labels out) = Nat.min (length texts) (length (clf texts)) ∧
  length (scores out) = Nat.min (length texts) (length (clf texts)) ∧
  (∀ i raw score,
      (i < length texts)%nat → clf texts !! i = Some (raw, score) →
      labels out !! i = Some (map_label raw score) ∧
      scores out !! i = Some score).
Proof.
  intros out. subst out. rewrite predict_out. cbn [labels scores].
  rewrite snd_zip_take, !length_fmap, length_take.
  split_and!; [done | done |].
  intros i raw score Hi Ho.
  rewrite !list_lookup_fmap, lookup_take_lt by done. by rewrite Ho.
Qed.

Lemma LABEL_MAP_values raw m :
  LABEL_MAP !! raw = Some m → m = "SARCASM" ∨ m = "NOT_SARCASM".
Proof.
  assert (map_Forall (λ _ v, v = "SARCASM" ∨ v = "NOT_SARCASM") LABEL_MAP)
    as Hall by compute_done.
  apply Hall.
Qed.

(** X13: when every raw label of the pipeline is a key of [LABEL_MAP],
    every label of the response is SARCASM or NOT_SARCASM; a raw label
    that is not a key is passed through unchanged, unless it is SARCASM
    itself with a score below the threshold. *)
Theorem predict_labels_well_formed texts page_url now lat st :
  (Forall (λ o, is_Some (LABEL_MAP !! o.1)) (clf texts) →
   Forall (λ l, l = "SARCASM" ∨ l = "NOT_SARCASM")
     (labels (predict clf texts page_url now lat st).1)) ∧
  (∀ raw score,
      LABEL_MAP !! raw = None → raw ≠ "SARCASM" → map_label raw score = raw).
Proof.
  split.
  - intros Hall. rewrite predict_out. cbn [labels].
    rewrite snd_zip_take. apply Forall_fmap, Forall_take.
    eapply Forall_impl; [exact Hall |].
    intros [raw score] [m Hm]. simpl in *. unfold map_label. rewrite Hm.
    simpl. pose proof (LABEL_MAP_values raw m Hm) as [-> | ->].
    + destruct (score <? THRESHOLD)%float; simpl; auto.
    + simpl. auto.
  - intros raw score Hnone Hne. unfold map_label. rewrite Hnone. simpl.
    destruct (String.eqb_spec raw "SARCASM"); [done | reflexivity].
Qed.

End PredictMore.

(** ** Reloading the model *)

Section Reload.
Import App Serving.
Context {Pipeline : Type}.
Context (build_pipeline : string → result Pipeline).

(** X14: when loading the requested path fails, the old pipeline keeps
    serving but [MODEL_PATH] already names the new path: [GET /] reports
    it, and a later reload without a path tries the same path again and
    fails in the same way instead of going back to the model in use. A
    request with no path or an empty path reloads the current path. After
    a reload that answers normally, the pipeline in use is the one built
    from the path the answer reports. *)
Theorem reload_failure_keeps_pipeline_not_path :
  (∀ (s : serving Pipeline) p e,
      truthy p = true →
      build_pipeline p = Raise e →
      let r := reload_model build_pipeline {| model_path := Some p |} s in
      r.1 = Raise e ∧
      clf r.2 = clf s ∧
      root r.2 !! "model_path" = Some (JStr p) ∧
      reload_model build_pipeline {| model_path := None |} r.2 = (Raise e, r.2)) ∧
  (∀ (s : serving Pipeline),
      reload_model build_pipeline {| model_path := Some "" |} s
      = reload_model build_pipeline {| model_path := None |} s ∧
      MODEL_PATH (reload_model build_pipeline {| model_path := None |} s).2
      = MODEL_PATH s) ∧
  (∀ (s : serving Pipeline) req body,
      (reload_model build_pipeline req s).1 = Ok body →
      build_pipeline (MODEL_PATH (reload_model build_pipeline req s).2)
      = Ok (clf (reload_model build_pipeline req s).2) ∧
      body !! "model_path"
      = Some (JStr (MODEL_PATH (reload_model build_pipeline req s).2))).
Proof.
  split_and!.
  - intros s p e Hp He r. subst r. unfold reload_model.
    cbn [model_path]. rewrite Hp, He. cbn [fst snd clf MODEL_PATH].
    rewrite He. split_and!; done.
  - intros s. unfold reload_model. cbn [model_path truthy].
    split; [done |]. by destruct (build_pipeline (MODEL_PATH s)).
  - intros s req body. unfold reload_model.
    destruct (build_pipeline _) as [c' | e] eqn:Hb; [| discriminate].
    cbn [fst snd clf MODEL_PATH]. intros [= <-]. split; [exact Hb | done].
Qed.

End Reload.

(** ** The viewer endpoints *)

Section Viewer.
Import Log Serving Story.
Context (dumps : record → string).

(** X15: the lines [/feedback/recent] slices are the pieces
    [splitlines] makes of the text of the log; a log that is not empty has
    at least one. The endpoint returns the last [n] of them for a positive
    [n] (all of them when there are fewer), all of them for [n = 0], and
    all but the first [-n] for a negative [n]. The pieces are the lines as
    they were written when no line holds a line break inside; a stored
    text with U+0085 is cut there. *)
Theorem feedback_recent_slices n ls :
  ls ≠ [] →
  let lines := text_lines dumps ls in
  lines ≠ [] ∧
  (0 < n →
   feedback_recent dumps n (Some ls)
   = join_lines (drop (length lines - Z.to_nat n) lines) ∧
   length (drop (length lines - Z.to_nat n) lines)
   = Nat.min (Z.to_nat n) (length lines)) ∧
  (n = 0 → feedback_recent dumps n (Some ls) = join_lines lines) ∧
  (n < 0 →
   feedback_recent dumps n (Some ls)
   = join_lines (drop (Z.to_nat (- n)) lines)) ∧
  (Forall (Spec.one_piece dumps) ls → lines = render dumps <$> ls).
Proof.
  intros Hne lines.
  assert (lines ≠ []) as Hlines.
  { unfold lines. destruct ls as [| l ls]; [done |].
    unfold text_lines, splitlines. cbn [read_text foldr].
    destruct (render dumps l) as [| c r]; apply lines_go_cons. }
  assert (feedback_recent dumps n (Some ls)
          = join_lines (Autotrain.slice_from (- n) lines)) as ->.
  { unfold feedback_recent. fold lines. by destruct lines. }
  unfold Autotrain.slice_from.
  split_and!; [done | | | |].
  - intros Hn. rewrite (proj2 (Z.leb_gt 0 (- n))) by lia.
    rewrite length_drop. split; [| lia].
    do 2 f_equal. lia.
  - intros ->. reflexivity.
  - intros Hn. by rewrite (proj2 (Z.leb_le 0 (- n))) by lia.
  - apply text_lines_one_piece.
Qed.

Lemma split_slash_length s : length (split_slash s) = S (slashes s).
Proof.
  induction s as [| c s IH]; [done |]. simpl.
  destruct (Ascii.eqb c "/"); simpl; [by rewrite IH |].
  destruct (split_slash s); simpl in *; lia.
Qed.

Lemma split_slash_plain s : slashes s = 0%nat → split_slash s = [s].
Proof.
  induction s as [| c s IH]; [done |]. simpl.
  destruct (Ascii.eqb c "/"); [discriminate |].
  intros Hs. by rewrite IH.
Qed.

Lemma split_slash_app a b :
  slashes a = 0%nat →
  split_slash (a +:+ String "/" b) = a :: split_slash b.
Proof.
  induction a as [| c a IH]; [done |].
  change (String c a +:+ String "/" b) with (String c (a +:+ String "/" b)).
  simpl. destruct (Ascii.eqb c "/"); [discriminate |].
  intros Ha. by rewrite IH.
Qed.

(** X16: the domain of a page is "unknown" when the url is absent or
    empty; for a url of the form scheme, two slashes, host and an optional
    path it is the host; and the lookup raises [IndexError] exactly when a
    non-empty url has fewer than two slashes. *)
Theorem page_domain_spec :
  page_domain None = Some "unknown" ∧
  page_domain (Some "") = Some "unknown" ∧
  (∀ u, u ≠ "" → (page_domain (Some u) = None ↔ (slashes u < 2)%nat)) ∧
  (∀ scheme host path,
      slashes scheme = 0%nat → slashes host = 0%nat →
      page_domain (Some (scheme +:+ "//" +:+ host)) = Some host ∧
      page_domain (Some (scheme +:+ "//" +:+ host +:+ String "/" path))
      = Some host).
Proof.
  split_and!; [done | done | |].
  - intros u Hu. unfold page_domain.
    destruct u as [| c u]; [done |]. cbn [truthy].
    rewrite lookup_ge_None, split_slash_length. lia.
  - intros scheme host path Hs Hh.
    assert (∀ rest, truthy (scheme +:+ "//" +:+ rest) = true) as Htruthy.
    { intros rest. by destruct scheme. }
    unfold page_domain. rewrite !Htruthy.
    change "//" with (String "/" (String "/" "")).
    change (String "/" (String "/" "") +:+ host)
      with (String "/" (String "/" host)).
    change (String "/" (String "/" "") +:+ host +:+ String "/" path)
      with (String "/" (String "/" (host +:+ String "/" path))).
    rewrite !split_slash_app by done.
    change (split_slash (String "/" ?x)) with ("" :: split_slash x).
    rewrite split_slash_plain by done.
    split; [done |].
    change (split_slash (String "/" (host +:+ String "/" path)))
      with ("" :: split_slash (host +:+ String "/" path)).
    by rewrite split_slash_app.
Qed.

End Viewer.

(** ** The scheduler: profiles and monotonicity *)

Section SchedulerMore.
Import Autotrain.

(** X17: only the value "1" of AUTOTRAIN_FORCE changes the policy; with
    it a run trains as soon as there is one vote, unless the stored count
    exceeds the total and the stored time lies in the future. *)
Theorem force_profile :
  (∀ v, v ≠ Some "1" → policy_of_env v = default_policy) ∧
  (∀ now total st,
      should_train (policy_of_env (Some "1")) now total st = true ↔
      1 ≤ total ∧
      (default 0 (last_count st) ≤ total ∨ default epoch (last_time st) ≤ now)).
Proof.
  split.
  - intros v Hv. unfold policy_of_env. by rewrite decide_False.
  - intros now total st. rewrite should_train_eligible.
    unfold Spec.eligible, policy_of_env. rewrite decide_True by done.
    cbn [MIN_TOTAL MIN_NEW COOLDOWN]. unfold seconds. lia.
Qed.

(** X18: the decision is monotone: once a run would train, it would
    still train at any later time and with any larger total, the stored
    state being the same. *)
Theorem should_train_monotone pol now now' total total' st :
  should_train pol now total st = true →
  now ≤ now' → total ≤ total' →
  should_train pol now' total' st = true.
Proof.
  rewrite !should_train_eligible. unfold Spec.eligible.
  intros [Ht [Hn | Hc]] Hnow Htotal; split; lia.
Qed.

End SchedulerMore.

(** ** The job: what a run may change *)

Section JobMore.
Import Autotrain Outcome.
Context (dumps : Log.record → string).

Lemma promoted_succeeded pol env w c t out path :
  Spec.succeeded (Ok (), promoted dumps pol env w c t out path) path.
Proof.
  split; [done |]. unfold promoted. cbn [snd stdout].
  by rewrite !app_assoc, last_snoc.
Qed.

(** X19: no run writes the feedback log, and a run only adds lines to its
    output; the state file differs after a run only if the run returned
    normally and ended by announcing a promotion; the model folders
    differ only if the run started the training subprocess. *)
Theorem main_frame pol env w :
  let r := main dumps pol env w in
  FEEDBACK r.2 = FEEDBACK w ∧
  stdout w `prefix_of` stdout r.2 ∧
  (STATE r.2 ≠ STATE w → ∃ path, Spec.succeeded r path) ∧
  (MODELS_DIR r.2 ≠ MODELS_DIR w →
   Spec.reaches_training dumps pol env w ∧ ∃ out, train_proc env = Ok out).
Proof.
  intros r. subst r.
  destruct (main_cases dumps pol env w)
    as [(e & Hsub & ->)
       | (st & c & t & Hsub &
          [[Hs ->]
          | [Hs [(e & Ht & ->)
                | [(out & Ht & Hr & e & ->)
                  | (out & g & Ht & Hr & ->)]]]])];
    cbn [fst snd printed promoted trained FEEDBACK STATE MODELS_DIR stdout].
  1-3: split_and!; [done | by apply prefix_app_r || done | done | done].
  - split_and!; [done | by apply prefix_app_r | done |].
    intros _. split; [by exists st, c, t | by exists out].
  - split_and!; [done | by apply prefix_app_r | |].
    + intros _. eexists. apply promoted_succeeded.
    + intros _. split; [by exists st, c, t | by exists out].
Qed.

(** X20: when the state loads and the scheduler condition fails, the run
    returns normally, prints the totals and the skip notice, and changes
    nothing else. *)
Theorem skip_is_a_no_op pol env w st c t :
  subscripts (load_state (STATE w)) = Ok (st, c, t) →
  ¬ Spec.eligible pol (now_decide env) (read_count dumps (FEEDBACK w)) st →
  main dumps pol env w
  = (Ok (), printed w [PrintTotals (read_count dumps (FEEDBACK w)) c t;
                       PrintSkipping]).
Proof.
  intros Hsub Hne. apply main_skips with st; [done |].
  apply not_true_is_false. by rewrite should_train_eligible.
Qed.

(** X21: a missing state file and one that is not JSON are both taken for
    a first run: the run trains exactly when the total reaches MIN_TOTAL
    and either reaches MIN_NEW as well or the clock is COOLDOWN past the
    epoch. *)
Theorem unreadable_state_is_first_run pol env w :
  STATE w = None ∨ STATE w = Some NotJson →
  Spec.reaches_training dumps pol env w ↔
  MIN_TOTAL pol ≤ read_count dumps (FEEDBACK w) ∧
  (MIN_NEW pol ≤ read_count dumps (FEEDBACK w) ∨
   COOLDOWN pol ≤ now_decide env).
Proof.
  intros Hstate. unfold Spec.reaches_training.
  assert (subscripts (load_state (STATE w)) = Ok (initial_state, 0, epoch))
    as Hsub by (by destruct Hstate as [-> | ->]).
  rewrite Hsub. split.
  - intros (st & c & t & [= <- <- <-] & Hs).
    apply should_train_eligible in Hs. unfold Spec.eligible in Hs.
    cbn in Hs. unfold epoch in Hs. lia.
  - intros H. exists initial_state, 0, epoch. split; [done |].
    apply should_train_eligible. unfold Spec.eligible. cbn. unfold epoch. lia.
Qed.

(** X22: a state file that holds JSON other than a dict with both
    [last_count] and [last_time] makes the run raise ([TypeError], or
    [KeyError] on the first missing key) before it prints anything; the
    files and the output are as before, so every later run fails alike. *)
Theorem malformed_state_blocks_the_job pol env w :
  (STATE w = Some NotADict →
   ∃ msg, main dumps pol env w = (Raise (TypeError msg), w)) ∧
  (∀ s, STATE w = Some (Dict s) → last_count s = None →
        main dumps pol env w = (Raise (KeyError "last_count"), w)) ∧
  (∀ s, STATE w = Some (Dict s) → is_Some (last_count s) →
        last_time s = None →
        main dumps pol env w = (Raise (KeyError "last_time"), w)).
Proof.
  split_and!.
  - intros Hs. eexists. apply main_bad_state. by rewrite Hs.
  - intros s Hs Hc. apply main_bad_state. rewrite Hs. simpl. by rewrite Hc.
  - intros s Hs [c Hc] Ht. apply main_bad_state. rewrite Hs. simpl.
    by rewrite Hc, Ht.
Qed.

(** X23: after a successful run, a run that finds the state as it was
    left, fewer than MIN_NEW new votes and a clock less than COOLDOWN past
    the time of the state update does not train: it returns normally with
    the skip notice as its last line and changes no file. *)
Theorem no_retrain_within_cooldown pol1 env1 w1 path pol2 env2 w2 :
  Spec.succeeded (main dumps pol1 env1 w1) path →
  STATE w2 = STATE (main dumps pol1 env1 w1).2 →
  read_count dumps (FEEDBACK w2) - read_count dumps (FEEDBACK w1)
  < MIN_NEW pol2 →
  now_decide env2 - now_persist env1 < COOLDOWN pol2 →
  ∃ evs,
    main dumps pol2 env2 w2 = (Ok (), printed w2 evs) ∧
    last evs = Some PrintSkipping.
Proof.
  intros Hok Hstate Hnew Hcool.
  apply succeeded_inv in Hok as (c & t & out & g & _ & Hm).
  rewrite Hm in Hstate. cbn [snd promoted STATE] in Hstate.
  eexists. split.
  - eapply main_skips.
    + rewrite Hstate. reflexivity.
    + apply not_true_is_false. rewrite should_train_eligible.
      unfold Spec.eligible. cbn [last_count last_time default from_option].
      unfold Datatypes.id. lia.
  - reflexivity.
Qed.

End JobMore.

(** ** The trainer's success marker *)

Section Marker.
Import Autotrain Outcome Story.

Lemma strip_prefix_spec p : ∀ s r, strip_prefix p s = Some r ↔ s = p +:+ r.
Proof.
  induction p as [| a p IH]; intros s r.
  - simpl. split; [by intros [= ->] | by intros ->].
  - destruct s as [| b s]; simpl.
    + split; [discriminate | ]. intros H. discriminate H.
    + change (String a p +:+ r) with (String a (p +:+ r)).
      destruct (Ascii.eqb_spec a b) as [-> | Hne].
      * rewrite IH. split; [by intros -> | by intros [= ->]].
      * split; [discriminate | intros [= ? ?]; done].
Qed.


(** If [p] is a prefix of [x +:+ y], then [p] is a prefix of [x] or [p]
    reaches into [y]. *)
Lemma prefix_of_app p : ∀ x y r,
  x +:+ y = p +:+ r →
  (∃ z, x = p +:+ z) ∨ (∃ z, p = x +:+ z ∧ y = z +:+ r).
Proof.
  induction p as [| a p IH]; intros x y r H.
  - left. by exists x.
  - destruct x as [| b x].
    + right. exists (String a p). split; [done |]. exact H.
    + change (String b (x +:+ y) = String a (p +:+ r)) in H.
      injection H as -> H.
      destruct (IH x y r H) as [[z ->] | (z & -> & ->)].
      * left. by exists z.
      * right. by exists z.
Qed.

Lemma has_newline_app a b :
  has_newline (a +:+ b) = has_newline a || has_newline b.
Proof.
  induction a as [| c a IH]; [done |].
  change (String c a +:+ b) with (String c (a +:+ b)). simpl.
  by rewrite IH, orb_assoc.
Qed.

(** A match cannot begin in a text without the marker when a line feed
    follows that text. *)
Lemma match_here_before_newline pre s :
  pre ≠ "" →
  (∀ a b, pre ≠ a +:+ marker +:+ b) →
  match_here (pre +:+ String newline s) = None.
Proof.
  intros Hne Hno. unfold match_here.
  destruct (strip_prefix marker (pre +:+ String newline s)) as [r |] eqn:Hp;
    [| done].
  exfalso. apply strip_prefix_spec in Hp.
  apply prefix_of_app in Hp as [[z Hz] | (z & Hm & Hz)].
  - apply (Hno "" z). exact Hz.
  - destruct z as [| c z].
    + apply (Hno "" ""). rewrite string_app_nil_r in Hm.
      change (pre = marker). by rewrite Hm.
    + change (String newline s = String c (z +:+ r)) in Hz.
      injection Hz as <- _.
      apply (f_equal has_newline) in Hm. rewrite has_newline_app in Hm.
      simpl in Hm. change (has_newline marker) with false in Hm.
      by destruct (has_newline pre).
Qed.

Lemma re_search_skip pre : ∀ s,
  (∀ a b, pre ≠ a +:+ marker +:+ b) →
  re_search (pre +:+ String newline s) = re_search (String newline s).
Proof.
  induction pre as [| c pre IH]; intros s Hno; [done |].
  change (String c pre +:+ String newline s)
    with (String c (pre +:+ String newline s)).
  cbn [re_search].
  change (String c (pre +:+ String newline s))
    with (String c pre +:+ String newline s).
  rewrite match_here_before_newline by done.
  apply IH. intros a b Hab. apply (Hno (String c a) b). by rewrite Hab.
Qed.

Lemma re_search_after_newline s :
  re_search (String newline s) = re_search s.
Proof. reflexivity. Qed.

Lemma re_search_head s g : match_here s = Some g → re_search s = Some g.
Proof. intros H. destruct s; cbn [re_search]; by rewrite H. Qed.

Lemma dot_run_line path post :
  has_newline path = false →
  dot_run (path +:+ String newline post) = path.
Proof.
  induction path as [| c path IH]; intros Hp.
  - reflexivity.
  - change (String c path +:+ String newline post)
      with (String c (path +:+ String newline post)).
    simpl in *. apply orb_false_elim in Hp as [-> Hp]. by rewrite IH.
Qed.

Lemma re_search_none out :
  (∀ a b, out ≠ a +:+ marker +:+ b) → re_search out = None.
Proof.
  induction out as [| c out IH]; intros Hno.
  - reflexivity.
  - cbn [re_search].
    assert (match_here (String c out) = None) as ->.
    { unfold match_here.
      destruct (strip_prefix marker (String c out)) as [r |] eqn:Hp; [| done].
      apply strip_prefix_spec in Hp. by destruct (Hno "" r). }
    apply IH. intros a b Hab. apply (Hno (String c a) b). by rewrite Hab.
Qed.

Lemma occurs_false p s :
  occurs p s = false → ∀ a b, s ≠ a +:+ p +:+ b.
Proof.
  induction s as [| c s IH]; intros Hocc a b Hs.
  - cbn [occurs] in Hocc.
    destruct (strip_prefix p "") as [r |] eqn:Hp; [discriminate |].
    destruct a; [| discriminate].
    by rewrite (proj2 (strip_prefix_spec p "" b) Hs) in Hp.
  - cbn [occurs] in Hocc.
    destruct (strip_prefix p (String c s)) as [r |] eqn:Hp; [discriminate |].
    destruct a as [| x a].
    + by rewrite (proj2 (strip_prefix_spec p _ b) Hs) in Hp.
    + change (String c s = String x (a +:+ p +:+ b)) in Hs.
      injection Hs as -> Hs. by apply (IH Hocc a b).
Qed.

(** X24: when the output of the trainer does not contain the text
    "Saved new model to:" at all, [run_train] prints the output and raises
    [RuntimeError]. The world is then the one the subprocess left (its
    output folder is among the model folders if the trainer had made it),
    with that one line printed. *)
Theorem run_train_without_marker env w out :
  train_proc env = Ok out →
  (∀ a b, out ≠ a +:+ marker +:+ b) →
  ∃ msg,
    run_train env w
    = (Raise (RuntimeError msg),
       printed (trained env w) [PrintTrainOutput out]).
Proof.
  intros Ht Hno. unfold run_train, subprocess_run. rewrite Ht.
  unfold mbind, M_bind. rewrite print_spec, (re_search_none out Hno).
  by eexists.
Qed.

(** X25: what the trainer prints is what the job reads. When the output
    is some text without the marker, then the line the trainer prints (a
    line feed, the marker, a blank, the path, a line feed), then anything,
    and the path is one line that does not begin with a blank, [run_train]
    returns the path without its trailing blanks, in the world the
    subprocess left, with the output printed. *)
Theorem run_train_reads_printed_path env w pre c path post :
  (∀ a b, pre ≠ a +:+ marker +:+ b) →
  is_space c = false →
  has_newline path = false →
  train_proc env
  = Ok (pre +:+ String newline
          (marker +:+ String " " (String c path +:+ String newline post))) →
  run_train env w
  = (Ok (rstrip (String c path)),
     printed (trained env w)
       [PrintTrainOutput
          (pre +:+ String newline
             (marker +:+ String " "
                (String c path +:+ String newline post)))]).
Proof.
  intros Hno Hc Hp Ht. unfold run_train, subprocess_run. rewrite Ht.
  unfold mbind, M_bind. rewrite print_spec.
  rewrite re_search_skip by done. rewrite re_search_after_newline.
  assert (c ≠ newline) as Hcn by (by intros ->).
  assert (has_newline (String c path) = false) as Hp'.
  { simpl. rewrite Hp. by destruct (Ascii.eqb_spec c newline). }
  rewrite (re_search_head _ (String c path)).
  - unfold mret, M_ret, strip. cbn [lstrip]. by rewrite Hc.
  - unfold match_here.
    rewrite (proj2 (strip_prefix_spec marker _ _) eq_refl).
    cbn [mbind option_bind].
    change (match_tail (String " " (String c path +:+ String newline post))
            = Some (String c path)).
    change (String c path +:+ String newline post)
      with (String c (path +:+ String newline post)).
    cbn [match_tail]. change (is_space " ") with true. cbv iota.
    rewrite Hc. unfold match_group.
    change (String c (path +:+ String newline post))
      with (String c path +:+ String newline post).
    rewrite dot_run_line by done. reflexivity.
Qed.

Lemma match_tail_newlines ws :
  all_chars (λ c, Ascii.eqb c newline) ws = true →
  match_tail ws = None ∧ dot_run ws = "".
Proof.
  induction ws as [| c ws IH]; [done |]. simpl.
  intros [Hc Hws]%andb_prop. apply Ascii.eqb_eq in Hc as ->.
  destruct (IH Hws) as [-> _]. done.
Qed.

Lemma match_tail_blanks ws :
  all_chars is_space ws = true →
  all_chars (λ c, Ascii.eqb c newline) ws = false →
  ∃ c, match_tail ws = Some (String c "") ∧ is_space c = true.
Proof.
  induction ws as [| c ws IH]; [done |]. cbn [all_chars match_tail].
  intros [Hc Hws]%andb_prop Hnl. rewrite Hc.
  destruct (all_chars (λ c, Ascii.eqb c newline) ws) eqn:Hrest.
  - destruct (match_tail_newlines ws Hrest) as [-> Hdot].
    rewrite andb_true_r in Hnl. unfold match_group. cbn [dot_run].
    rewrite Hnl, Hdot. by exists c.
  - destruct (IH Hws eq_refl) as (c' & -> & Hc'). by exists c'.
Qed.

(** X26: a marker followed by blanks only, at least one of them not a
    line feed, still counts as a success: the parsed group is one blank
    and [run_train] returns the empty path instead of raising, in the
    world the subprocess left, with the output printed. *)
Theorem run_train_accepts_blank_path env w pre ws :
  (∀ a b, pre ≠ a +:+ marker +:+ b) →
  all_chars is_space ws = true →
  all_chars (λ c, Ascii.eqb c newline) ws = false →
  train_proc env = Ok (pre +:+ String newline (marker +:+ ws)) →
  run_train env w
  = (Ok "", printed (trained env w)
              [PrintTrainOutput (pre +:+ String newline (marker +:+ ws))]).
Proof.
  intros Hno Hws Hnl Ht. unfold run_train, subprocess_run. rewrite Ht.
  unfold mbind, M_bind. rewrite print_spec.
  rewrite re_search_skip by done. rewrite re_search_after_newline.
  destruct (match_tail_blanks ws Hws Hnl) as (c & Hc & Hsp).
  rewrite (re_search_head _ (String c "")).
  - unfold mret, M_ret, strip. cbn [lstrip rstrip]. by rewrite Hsp.
  - unfold match_here.
    rewrite (proj2 (strip_prefix_spec marker _ _) eq_refl).
    cbn [mbind option_bind]. exact Hc.
Qed.

End Marker.

(** ** Retention of model folders, ties allowed *)

Section PruningMore.
Import Autotrain Outcome.

Lemma prune_targets_length keep d :
  0 ≤ keep →
  length (prune_targets keep d)
  = (length (folders_of d) - Z.to_nat keep)%nat.
Proof.
  intros Hkeep. unfold prune_targets, slice_from.
  rewrite (proj2 (Z.leb_le 0 keep) Hkeep), length_drop.
  by rewrite sort_desc_perm.
Qed.

(** X27: when there are at most [keep] folders, pruning removes nothing
    and prints nothing, whatever the modification times. *)
Theorem prune_within_quota env keep w d :
  MODELS_DIR w = Some d →
  0 ≤ keep →
  Z.of_nat (length (folders_of d)) ≤ keep →
  prune_old_models env keep w = (Ok (), w).
Proof.
  intros Hd Hkeep Hlen.
  rewrite (prune_old_models_spec env keep w d Hd).
  assert (prune_targets keep d = []) as ->.
  { apply length_zero_iff_nil. rewrite prune_targets_length by done. lia. }
  destruct w as [f s m o]. simpl in *. subst m.
  unfold pruned_log. simpl. by rewrite app_nil_r.
Qed.

(** X28: for any modification times, equal ones included, pruning visits
    all folders but [keep] of them, each once; a visited folder is never
    newer than a folder left alone; only visited folders disappear, and
    plain files never do. *)
Theorem prune_removes_oldest env keep w d :
  MODELS_DIR w = Some d →
  0 ≤ keep →
  let r := prune_old_models env keep w in
  let visited := prune_targets keep d in
  r.1 = Ok () ∧
  stdout r.2 = stdout w ++ pruned_log env visited ∧
  length visited = (length (folders_of d) - Z.to_nat keep)%nat ∧
  NoDup visited.*1 ∧
  (∀ p q, p ∈ visited → q ∈ folders_of d → q ∉ visited →
          st_mtime p.2 ≤ st_mtime q.2) ∧
  (∀ d' name e,
      MODELS_DIR r.2 = Some d' → d !! name = Some e → d' !! name = None →
      (name, e) ∈ visited ∧ is_dir e = true).
Proof.
  intros Hd Hkeep r visited. subst r visited.
  rewrite (prune_old_models_spec env keep w d Hd). cbn [fst snd stdout MODELS_DIR].
  assert (Hsub : ∀ p, p ∈ prune_targets keep d → p ∈ folders_of d).
  { intros p Hp. unfold prune_targets, slice_from in Hp.
    rewrite (proj2 (Z.leb_le 0 keep) Hkeep) in Hp.
    rewrite <- (sort_desc_perm (folders_of d)).
    apply list_elem_of_lookup in Hp as [i Hi]. rewrite lookup_drop in Hi.
    by eapply list_elem_of_lookup_2. }
  split_and!; [done | done | by apply prune_targets_length | | |].
  - unfold prune_targets, slice_from.
    rewrite (proj2 (Z.leb_le 0 keep) Hkeep).
    assert (NoDup (sort_desc (folders_of d)).*1) as Hnd.
    { rewrite sort_desc_perm. unfold folders_of.
      eapply sublist_NoDup; [apply (NoDup_fst_map_to_list d) |].
      apply fmap_sublist, sublist_filter. }
    rewrite <- (take_drop (Z.to_nat keep) (sort_desc (folders_of d))) in Hnd.
    rewrite fmap_app in Hnd. by apply NoDup_app in Hnd as (_ & _ & ?).
  - intros p q Hp Hq Hnq. unfold prune_targets, slice_from in Hp, Hnq.
    rewrite (proj2 (Z.leb_le 0 keep) Hkeep) in Hp, Hnq.
    rewrite <- (sort_desc_perm (folders_of d)) in Hq.
    rewrite <- (take_drop (Z.to_nat keep) (sort_desc (folders_of d))) in Hq.
    apply elem_of_app in Hq as [Hq | Hq]; [| done].
    pose proof (sort_desc_sorted (folders_of d)) as Hs.
    rewrite <- (take_drop (Z.to_nat keep) (sort_desc (folders_of d))) in Hs.
    exact (StronglySorted_app_1_elem_of _ _ _ q p Hs Hq Hp).
  - intros d' name e [= <-] Hl Hgone.
    rewrite pruned_dir_lookup in Hgone.
    destruct (decide (rmtree_error env name = None
                      ∧ name ∈ (prune_targets keep d).*1))
      as [[_ Hin] | _]; [| congruence].
    apply list_elem_of_fmap in Hin as ([n e'] & -> & Hp).
    pose proof (Hsub _ Hp) as Hf. apply folders_of_spec in Hf as [Hl' Hdir].
    cbn [fst snd] in *. rewrite Hl in Hl'. injection Hl' as <-. done.
Qed.

End PruningMore.

(** ** The further properties at sample inputs *)

Section MoreSamples.
Import Samples MoreSamples.


Lemma read_feedback_api_written_witness :
  TrainIO.read_feedback rejecting_loads (Some small_log)
  = TrainIO.Done (TrainIO.row_of_record <$> Reading.records small_log).
Proof.
  apply (read_feedback_api_written rejecting_loads small_log).
  - apply Forall_cons_2; [right; by eexists |].
    apply Forall_cons_2; [left; reflexivity |]. apply Forall_nil_2.
  - discriminate.
Defined.

Lemma split_sizes_witness :
  ∃ val tr,
    Train.split reversing_shuffle one_row = Ok (val, tr) ∧
    val ++ tr ≡ₚ one_row ∧
    (val = [] ↔ one_row = []) ∧
    (tr = [] ↔ (length one_row ≤ 1)%nat).
Proof.
  apply (split_sizes reversing_shuffle one_row).
  - intros l. apply reverse_Permutation.
  - vm_compute. discriminate.
Defined.

Lemma feedback_keeps_ids_distinct_witness :
  ∃ ls',
    (App.feedback plain_digest fb_first 5 (Some [])).2 = Some ls' ∧
    NoDup (Story.stored_ids ls').
Proof.
  destruct (feedback_keeps_ids_distinct plain_digest fb_first 5 [])
    as (ls' & H & _ & Hnd & _).
  exists ls'. split; [exact H |]. apply Hnd. constructor.
Defined.

Lemma feedback_key_collisions_witness :
  App.rid_of plain_digest
    {| App.fb_url := Some ("a" +:+ "||"); App.fb_text := "b";
       App.fb_predicted_label := "SARCASM"; App.fb_score := 0.9;
       App.fb_user_label := "SARCASM" |}
  = App.rid_of plain_digest
      {| App.fb_url := Some "a"; App.fb_text := "||" +:+ "b";
         App.fb_predicted_label := "SARCASM"; App.fb_score := 0.9;
         App.fb_user_label := "SARCASM" |}.
Proof.
  exact (proj1 (proj2 (feedback_key_collisions plain_digest))
           "a" "b" "SARCASM" 0.9%float "SARCASM" eq_refl).
Defined.

Lemma predict_response_length_witness :
  App.labels
    (App.predict constant_pipeline ["oh great"] None 0 12.5 app_start).1
    !! 0%nat
  = Some (App.map_label "LABEL_1" 0.3) ∧
  App.scores
    (App.predict constant_pipeline ["oh great"] None 0 12.5 app_start).1
    !! 0%nat
  = Some 0.3%float.
Proof.
  apply (proj2 (proj2 (predict_response_length constant_pipeline
                         ["oh great"] None 0 12.5%float app_start))
           0%nat "LABEL_1" 0.3%float).
  - simpl. lia.
  - reflexivity.
Defined.

Lemma predict_labels_well_formed_witness :
  Forall (λ l, l = "SARCASM" ∨ l = "NOT_SARCASM")
    (App.labels
       (App.predict constant_pipeline ["oh great"] None 0 12.5 app_start).1).
Proof.
  apply (proj1 (predict_labels_well_formed constant_pipeline ["oh great"]
                  None 0 12.5%float app_start)).
  repeat constructor. by eexists.
Defined.

Lemma reload_failure_keeps_pipeline_not_path_witness :
  Serving.clf
    (Serving.reload_model only_good
       {| Serving.model_path := Some "models/missing" |} serving_good).2
  = "pipeline of models/good" ∧
  Serving.root
    (Serving.reload_model only_good
       {| Serving.model_path := Some "models/missing" |} serving_good).2
    !! "model_path"
  = Some (App.JStr "models/missing").
Proof.
  destruct (proj1 (reload_failure_keeps_pipeline_not_path only_good)
              serving_good "models/missing" (OSError "not a model folder")
              eq_refl eq_refl) as (_ & H1 & H2 & _).
  split; [exact H1 | exact H2].
Defined.

Lemma feedback_recent_slices_witness :
  Serving.feedback_recent plain_dumps 0 (Some small_log)
  = Serving.join_lines (Log.text_lines plain_dumps small_log).
Proof.
  refine (proj1 (proj2 (proj2 (feedback_recent_slices plain_dumps 0
                                 small_log _))) eq_refl).
  discriminate.
Defined.

(** With [n = 1] the endpoint returns the tail of a record whose text
    holds U+0085, not the whole line. *)
Example recent_cuts_at_nel :
  Serving.feedback_recent plain_dumps 1 (Some [Log.Entry stored_nel]) = "b}".
Proof. vm_compute. reflexivity. Qed.

Lemma page_domain_spec_witness :
  Serving.page_domain (Some ("https:" +:+ "//" +:+ "example.com"))
  = Some "example.com" ∧
  Serving.page_domain
    (Some ("https:" +:+ "//" +:+ "example.com" +:+ String "/" "a/b"))
  = Some "example.com".
Proof.
  exact (proj2 (proj2 (proj2 page_domain_spec))
           "https:" "example.com" "a/b" eq_refl eq_refl).
Defined.

Lemma force_profile_witness :
  Autotrain.policy_of_env (Some "true") = Autotrain.default_policy.
Proof.
  apply (proj1 force_profile). discriminate.
Defined.

Lemma should_train_monotone_witness :
  Autotrain.should_train Autotrain.default_policy (hours 2000) 45
    Autotrain.initial_state = true.
Proof.
  apply (should_train_monotone Autotrain.default_policy (hours 1000)
           (hours 2000) 30 45 Autotrain.initial_state).
  - reflexivity.
  - vm_compute. discriminate.
  - lia.
Defined.

Lemma main_frame_witness :
  ∃ path,
    Spec.succeeded
      (Autotrain.main plain_dumps Autotrain.default_policy all_well first_run)
      path.
Proof.
  apply (proj1 (proj2 (proj2 (main_frame plain_dumps Autotrain.default_policy
                                all_well first_run)))).
  vm_compute. discriminate.
Defined.

Lemma skip_is_a_no_op_witness :
  Autotrain.main plain_dumps Autotrain.default_policy all_well quiet_run
  = (Ok (), Outcome.printed quiet_run
              [Autotrain.PrintTotals 1 0 epoch; Autotrain.PrintSkipping]).
Proof.
  apply (skip_is_a_no_op plain_dumps Autotrain.default_policy all_well
           quiet_run Autotrain.initial_state 0 epoch).
  - reflexivity.
  - intros [H _]. vm_compute in H. by apply H.
Defined.

Lemma unreadable_state_is_first_run_witness :
  Spec.reaches_training plain_dumps Autotrain.default_policy all_well
    first_run.
Proof.
  apply (unreadable_state_is_first_run plain_dumps Autotrain.default_policy
           all_well first_run).
  - by left.
  - split; [vm_compute; discriminate |]. left. vm_compute. discriminate.
Defined.

Lemma malformed_state_blocks_the_job_witness :
  ∃ msg,
    Autotrain.main plain_dumps Autotrain.default_policy all_well
      list_state_run
    = (Raise (TypeError msg), list_state_run).
Proof.
  exact (proj1 (malformed_state_blocks_the_job plain_dumps
                  Autotrain.default_policy all_well list_state_run) eq_refl).
Defined.

Lemma no_retrain_within_cooldown_witness :
  ∃ evs,
    Autotrain.main plain_dumps Autotrain.default_policy an_hour_later
      (Autotrain.main plain_dumps Autotrain.default_policy all_well
         first_run).2
    = (Ok (), Outcome.printed
                (Autotrain.main plain_dumps Autotrain.default_policy all_well
                   first_run).2
                evs) ∧
    last evs = Some Autotrain.PrintSkipping.
Proof.
  apply (no_retrain_within_cooldown plain_dumps Autotrain.default_policy
           all_well first_run "/srv/models/sarcasm-v8"
           Autotrain.default_policy an_hour_later).
  - split; vm_compute; reflexivity.
  - reflexivity.
  - vm_compute. reflexivity.
  - vm_compute. reflexivity.
Defined.

Lemma run_train_without_marker_witness :
  ∃ msg,
    Autotrain.run_train trainer_crashes first_run
    = (Raise (RuntimeError msg),
       Outcome.printed (Autotrain.trained trainer_crashes first_run)
         [Autotrain.PrintTrainOutput "Traceback (most recent call last):"]).
Proof.
  apply (run_train_without_marker trainer_crashes first_run
           "Traceback (most recent call last):").
  - reflexivity.
  - apply occurs_false. vm_compute. reflexivity.
Defined.

Lemma run_train_reads_printed_path_witness :
  Autotrain.run_train all_well first_run
  = (Ok "/srv/models/sarcasm-v8",
     Outcome.printed (Autotrain.trained all_well first_run)
       [Autotrain.PrintTrainOutput trainer_output]).
Proof.
  apply (run_train_reads_printed_path all_well first_run
           "Loaded 40 raw feedback rows." "/" "srv/models/sarcasm-v8 "
           "Next steps:").
  - apply occurs_false. vm_compute. reflexivity.
  - reflexivity.
  - reflexivity.
  - reflexivity.
Defined.

Lemma run_train_accepts_blank_path_witness :
  Autotrain.run_train trainer_blank first_run
  = (Ok "",
     Outcome.printed (Autotrain.trained trainer_blank first_run)
       [Autotrain.PrintTrainOutput blank_marker_output]).
Proof.
  apply (run_train_accepts_blank_path trainer_blank first_run
           "Loaded 40 raw feedback rows." "  ").
  - apply occurs_false. vm_compute. reflexivity.
  - reflexivity.
  - reflexivity.
  - reflexivity.
Defined.

Lemma prune_within_quota_witness :
  Autotrain.prune_old_models all_well 7 first_run = (Ok (), first_run).
Proof.
  apply (prune_within_quota all_well 7 first_run seven_folders).
  - reflexivity.
  - lia.
  - vm_compute. discriminate.
Defined.

Lemma prune_removes_oldest_witness :
  length (Autotrain.prune_targets 5 seven_folders)
  = (length (Autotrain.folders_of seven_folders) - Z.to_nat 5)%nat.
Proof.
  assert (0 ≤ 5) as Hkeep by lia.
  exact (proj1 (proj2 (proj2 (prune_removes_oldest api_down 5 first_run
                                seven_folders eq_refl Hkeep)))).
Defined.

End MoreSamples.

(** ** From the log of the API to the two training sets *)

Section Prepare.
Import Log Train TrainIO Reading Range.
Context (loads_row : string → result feedback_row).
Context (shuffle : Z → list training_row → list training_row).

Lemma split_take_drop rows :
  (∀ l, shuffle SEED l ≡ₚ l) →
  Z.of_nat (length rows) ≤ checked_rows →
  split shuffle rows
  = Ok (take (Z.to_nat (Z.max 1 (Z.of_nat (length rows) / 10)))
          (shuffle SEED rows),
        drop (Z.to_nat (Z.max 1 (Z.of_nat (length rows) / 10)))
          (shuffle SEED rows)).
Proof.
  intros Hperm Hlen. unfold split.
  assert (length (shuffle SEED rows) = length rows) as -> by (by rewrite Hperm).
  rewrite n_val_floor by lia. reflexivity.
Qed.

(** X29: on a log as the API leaves it, with at least one record, user
    labels that are SARCASM or NOT_SARCASM, and few enough records for the
    size check, the front half of the trainer does not abort: it returns
    a non-empty validation set and a training set that together are the
    weighted rows of the records, each exactly once. *)
Theorem prepare_on_api_log ls :
  (∀ l, shuffle SEED l ≡ₚ l) →
  api_written ls →
  records ls ≠ [] →
  Forall (λ r, user_label r = "SARCASM" ∨ user_label r = "NOT_SARCASM")
    (records ls) →
  3 * Z.of_nat (length (records ls)) ≤ checked_rows →
  ∃ val tr,
    prepare loads_row shuffle (Some ls) = Done (val, tr) ∧
    val ≠ [] ∧
    val ++ tr ≡ₚ (row_of_record <$> records ls) ≫= Spec.expand.
Proof.
  intros Hperm Hapi Hne Hlabels Hsize.
  set (raw := row_of_record <$> records ls).
  assert (Forall known raw) as Hknown.
  { unfold raw. apply Forall_fmap. eapply Forall_impl; [exact Hlabels |].
    intros r [Hr | Hr]; unfold known; simpl; rewrite Hr; by eexists. }
  assert (build_training_rows raw = Ok (raw ≫= Spec.expand)) as Hbuild.
  { unfold build_training_rows. by rewrite build_loop_expand. }
  assert (Hlen : (length raw ≤ length (raw ≫= Spec.expand) ≤ 3 * length raw)%nat).
  { clear. induction raw as [| r rows IH]; [simpl; lia |].
    rewrite bind_cons, length_app. cbn [length].
    pose proof (length_expand r). pose proof (weight_range r). lia. }
  assert (length raw = length (records ls)) as Hraw
    by (unfold raw; apply length_fmap).
  assert (raw ≠ []) as Hraw_ne.
  { intros H0. apply Hne. apply fmap_nil_inv in H0. exact H0. }
  set (rows := raw ≫= Spec.expand) in *.
  set (k := Z.to_nat (Z.max 1 (Z.of_nat (length rows) / 10))).
  exists (take k (shuffle SEED rows)), (drop k (shuffle SEED rows)).
  split_and!.
  - unfold prepare. rewrite read_feedback_api_written by done. fold raw.
    unfold build_and_split. rewrite Hbuild. cbn [mbind result_bind].
    rewrite split_take_drop by (done || lia). reflexivity.
  - intros Hnil. apply (f_equal length) in Hnil.
    rewrite length_take in Hnil.
    assert (length (shuffle SEED rows) = length rows) as Hl
      by (by rewrite Hperm).
    rewrite Hl in Hnil. simpl in Hnil.
    destruct raw; [done |]. simpl in Hlen. unfold k in Hnil. lia.
  - rewrite take_drop. apply Hperm.
Qed.

End Prepare.

Section PrepareSample.
Import Samples MoreSamples.

Lemma prepare_on_api_log_witness :
  ∃ val tr,
    TrainIO.prepare rejecting_loads reversing_shuffle (Some small_log)
    = TrainIO.Done (val, tr) ∧
    val ≠ [] ∧
    val ++ tr
    ≡ₚ (TrainIO.row_of_record <$> Reading.records small_log) ≫= Spec.expand.
Proof.
  apply (prepare_on_api_log rejecting_loads reversing_shuffle small_log).
  - intros l. apply reverse_Permutation.
  - apply Forall_cons_2; [right; by eexists |].
    apply Forall_cons_2; [left; reflexivity |]. apply Forall_nil_2.
  - discriminate.
  - apply Forall_cons_2; [by right | apply Forall_nil_2].
  - vm_compute. discriminate.
Defined.

End PrepareSample.
